(** * kanka_converter: the Kanka export to plain-text converter

    A shallow embedding of [kanka_converter.py] and the properties of its
    identity index, mention resolver, markup normalizer, entity formatters
    and consolidated writer.

    Conventions of the embedding:
    - a Python [str] is a [string]; its characters are the code points
      0..255 (Latin-1).  In that range the regular expression class [\d]
      is exactly [0-9] and [[a-zA-Z]] is the ASCII letters;
    - a Python [int] is a [Z] (unbounded, as in Python; the interpreter's
      optional limit on the number of digits [int()] accepts is not part
      of the model);
    - a decoded JSON document is a [value]; JSON floats are left out;
    - a Python exception is a constructor of [exn], and code that may raise
      returns a [result]. *)

From Stdlib Require Import ZArith NArith Ascii String List Lia Bool.
From Stdlib Require Import DecimalString.
From stdpp Require Import base option gmap strings list.
From Equations Require Import Equations.

Set Warnings "-register-all".

Local Open Scope Z_scope.
Local Open Scope stdpp_scope.

(** ** Characters and strings *)

Module Chars.

Definition code (c : ascii) : N := N_of_ascii c.

Definition in_range (lo hi : N) (c : ascii) : bool :=
  ((lo <=? code c) && (code c <=? hi))%N.

(** [\d] on code points below 256. *)
Definition is_digit (c : ascii) : bool := in_range 48 57 c.

Definition is_upper (c : ascii) : bool := in_range 65 90 c.
Definition is_lower (c : ascii) : bool := in_range 97 122 c.

(** [[a-zA-Z]]. *)
Definition is_alpha (c : ascii) : bool := is_lower c || is_upper c.

(** [str.isspace] on code points below 256: what [str.strip()] removes. *)
Definition is_space (c : ascii) : bool :=
  in_range 9 13 c || in_range 28 32 c || (code c =? 133)%N || (code c =? 160)%N.

(** [str.lower] on one code point below 256: A-Z and the accented capitals
    0xC0..0xDE (without the multiplication sign 0xD7) move up by 32. *)
Definition lower (c : ascii) : ascii :=
  if is_upper c || (in_range 192 222 c && negb (code c =? 215)%N)
  then ascii_of_N (code c + 32) else c.

(** [str.upper] restricted to the ASCII letters. *)
Definition upper_ascii (c : ascii) : ascii :=
  if is_lower c then ascii_of_N (code c - 32) else c.

Definition digit_value (c : ascii) : Z := Z.of_N (code c) - 48.

End Chars.

Module Str.

Fixpoint map (f : ascii → ascii) (s : string) : string :=
  match s with
  | "" => ""
  | String c s' => String (f c) (map f s')
  end.

Fixpoint forallb (p : ascii → bool) (s : string) : bool :=
  match s with
  | "" => true
  | String c s' => p c && forallb p s'
  end.

Fixpoint existsb (p : ascii → bool) (s : string) : bool :=
  match s with
  | "" => false
  | String c s' => p c || existsb p s'
  end.

(** The longest prefix whose characters satisfy [p], and the remainder: a
    greedy [p*]. *)
Fixpoint span (p : ascii → bool) (s : string) : string * string :=
  match s with
  | "" => ("", "")
  | String c s' =>
      if p c then let '(a, b) := span p s' in (String c a, b) else ("", s)
  end.

Fixpoint repeat (c : ascii) (n : nat) : string :=
  match n with
  | O => ""
  | S n' => String c (repeat c n')
  end.

(** [str.lower()]. *)
Definition lower (s : string) : string := map Chars.lower s.

(** [str.upper()] on a string of ASCII letters (the converter puts only
    the names of the recognized folders in upper case). *)
Definition upper (s : string) : string := map Chars.upper_ascii s.

(** [s[:-1]]. *)
Fixpoint drop_last (s : string) : string :=
  match s with
  | "" | String _ "" => ""
  | String c s' => String c (drop_last s')
  end.

(** [str.capitalize()] on a string of ASCII letters (the only strings the
    converter capitalizes are matches of [[a-zA-Z]+]): first character to
    upper case, the rest to lower case. *)
Definition capitalize (s : string) : string :=
  match s with
  | "" => ""
  | String c s' => String (Chars.upper_ascii c) (lower s')
  end.

(** [sub in s] for strings. *)
Fixpoint contains (sub s : string) : bool :=
  String.prefix sub s ||
  match s with
  | "" => false
  | String _ s' => contains sub s'
  end.

Fixpoint lstrip (s : string) : string :=
  match s with
  | "" => ""
  | String c s' => if Chars.is_space c then lstrip s' else s
  end.

(** Drops the trailing white space: a character is kept when it is not
    white space or something that is kept follows it. *)
Fixpoint rstrip (s : string) : string :=
  match s with
  | "" => ""
  | String c s' =>
      match rstrip s' with
      | "" => if Chars.is_space c then "" else String c ""
      | r => String c r
      end
  end.

(** [str.strip()]. *)
Definition strip (s : string) : string := rstrip (lstrip s).

(** [str.split(sep)] for a one-character separator: never empty. *)
Fixpoint split (sep : ascii) (s : string) : list string :=
  match s with
  | "" => [""]
  | String c s' =>
      if Ascii.eqb c sep then "" :: split sep s'
      else match split sep s' with
           | [] => [String c ""]
           | w :: ws => String c w :: ws
           end
  end.

(** [s.endswith(suffix)]. *)
Fixpoint endswith (suffix s : string) : bool :=
  String.eqb suffix s ||
  match s with
  | "" => false
  | String _ s' => endswith suffix s'
  end.

(** [sep.join(parts)]. *)
Definition join (sep : string) (parts : list string) : string :=
  String.concat sep parts.

(** The newline character as a string. *)
Definition nl : string := String "010"%char "".

(** [int(s)] for a string of decimal digits. *)
Fixpoint int_from (acc : Z) (s : string) : Z :=
  match s with
  | "" => acc
  | String c s' => int_from (10 * acc + Chars.digit_value c) s'
  end.

Definition int (s : string) : Z := int_from 0 s.

(** [str(n)] for an [int]. *)
Definition of_int (n : Z) : string := NilZero.string_of_int (Z.to_int n).

End Str.

(** ** Python values, exceptions and the built-ins the converter uses *)

(** The result of [json.loads]: [None], [bool], [int], [str], [list] and
    [dict] (string keys, in insertion order, each key once). *)
Inductive value : Type :=
| VNull
| VBool (b : bool)
| VInt (n : Z)
| VStr (s : string)
| VList (items : list value)
| VDict (fields : list (string * value)).

(** The exceptions the converter can meet; [ParserRejectedMarkup] is the
    parser's own. *)
Inductive exn : Type :=
| TypeError
| KeyError
| IndexError
| AttributeError
| ParserRejectedMarkup.

Inductive result (A : Type) : Type :=
| Ok (a : A)
| Raise (e : exn).
Arguments Ok {A} a.
Arguments Raise {A} e.

Global Instance result_ret : MRet result := λ A, Ok.

Global Instance result_bind : MBind result := λ A B k r,
  match r with
  | Ok a => k a
  | Raise e => Raise e
  end.

Global Instance result_fmap : FMap result := λ A B f r,
  match r with
  | Ok a => Ok (f a)
  | Raise e => Raise e
  end.

(** Running [body] once per element, in order, threading [acc]; the first
    exception ends the loop. *)
Fixpoint for_each {A S} (body : S → A → result S) (acc : S) (l : list A)
  : result S :=
  match l with
  | [] => Ok acc
  | x :: l' => acc' ← body acc x; for_each body acc' l'
  end.

Module Py.

(** Truth value of an object: [if v:]. *)
Definition truthy (v : value) : bool :=
  match v with
  | VNull => false
  | VBool b => b
  | VInt n => negb (n =? 0)
  | VStr s => negb (String.eqb s "")
  | VList l => match l with [] => false | _ => true end
  | VDict d => match d with [] => false | _ => true end
  end.

Fixpoint assoc (k : string) (d : list (string * value)) : option value :=
  match d with
  | [] => None
  | (k', v) :: d' => if String.eqb k k' then Some v else assoc k d'
  end.

(** [v.get(k, default)]: only a [dict] has the method. *)
Definition get_default (v : value) (k : string) (dflt : value)
  : result value :=
  match v with
  | VDict d => Ok (default dflt (assoc k d))
  | _ => Raise AttributeError
  end.

(** [v.get(k)]. *)
Definition get (v : value) (k : string) : result value :=
  get_default v k VNull.

(** [v[k]] for a string [k]. *)
Definition item (v : value) (k : string) : result value :=
  match v with
  | VDict d => match assoc k d with Some x => Ok x | None => Raise KeyError end
  | _ => Raise TypeError
  end.

(** [v[0]]: the first element of a list, the first character of a string;
    a decoded dict has no key [0]. *)
Definition first (v : value) : result value :=
  match v with
  | VList (x :: _) => Ok x
  | VStr (String c _) => Ok (VStr (String c ""))
  | VList [] | VStr "" => Raise IndexError
  | VDict _ => Raise KeyError
  | _ => Raise TypeError
  end.

Fixpoint chars (s : string) : list value :=
  match s with
  | "" => []
  | String c s' => VStr (String c "") :: chars s'
  end.

(** [for x in v]: the elements of a list, the characters of a string, the
    keys of a dict. *)
Definition iter (v : value) : result (list value) :=
  match v with
  | VList l => Ok l
  | VStr s => Ok (chars s)
  | VDict d => Ok (List.map (λ kv, VStr (fst kv)) d)
  | _ => Raise TypeError
  end.

Definition hex_digit (n : N) : ascii :=
  if (n <? 10)%N then ascii_of_N (48 + n) else ascii_of_N (87 + n).

(** One character of [repr(s)] for the chosen quote. *)
Definition repr_char (quote c : ascii) : string :=
  let n := Chars.code c in
  if Ascii.eqb c quote || Ascii.eqb c "\"%char then String "\"%char (String c "")
  else if (n =? 9)%N then "\t"
  else if (n =? 10)%N then "\n"
  else if (n =? 13)%N then "\r"
  else if (n <? 32)%N || (n =? 127)%N || ((128 <=? n)%N && (n <=? 160)%N)
          || (n =? 173)%N
       then String "\"%char (String "x"%char
              (String (hex_digit (n / 16)) (String (hex_digit (n mod 16)) "")))
  else String c "".

Fixpoint repr_chars (quote : ascii) (s : string) : string :=
  match s with
  | "" => ""
  | String c s' => repr_char quote c +:+ repr_chars quote s'
  end.

(** [repr(s)] for a [str]: single quotes unless the string has a single
    quote and no double quote. *)
Definition repr_str (s : string) : string :=
  let quote :=
    if Str.existsb (Ascii.eqb "'"%char) s
       && negb (Str.existsb (Ascii.eqb "034"%char) s)
    then "034"%char else "'"%char in
  String quote (repr_chars quote s) +:+ String quote "".

(** [repr(v)]. *)
Fixpoint repr (v : value) : string :=
  match v with
  | VNull => "None"
  | VBool true => "True"
  | VBool false => "False"
  | VInt n => Str.of_int n
  | VStr s => repr_str s
  | VList l => "[" +:+ Str.join ", " (List.map repr l) +:+ "]"
  | VDict d =>
      "{" +:+ Str.join ", "
                (List.map (λ kv, repr_str (fst kv) +:+ ": " +:+ repr (snd kv)) d)
          +:+ "}"
  end.

(** [str(v)], which is what an f-string field [{v}] renders. *)
Definition str (v : value) : string :=
  match v with
  | VStr s => s
  | _ => repr v
  end.

(** Two dicts with the same items, the keys in [keys] apart. *)
Definition same_except (keys : list string) (d d' : list (string * value))
  : Prop :=
  ∀ k, k ∉ keys → assoc k d = assoc k d'.

End Py.

(** ** The identity index *)

(** One entry of the index: [{'name': name, 'type': type_name}].  The name
    is whatever the record carried; the type label comes from
    [type_name_map] and is a string. *)
Record entry : Type := Entry { entry_name : value; entry_type : string }.

(** Keys of the index as Python hashes them: an [int] (a [bool] is the
    [int] 0 or 1) or a [str]. *)
Abbreviation key := (Z + string)%type.

Abbreviation id_map := (gmap key entry).

Module Index.

(** The key a value denotes in a dict.  [None] is hashable but is never a
    key of the index; lists and dicts are unhashable. *)
Definition key_of (v : value) : result (option key) :=
  match v with
  | VNull => Ok None
  | VBool b => Ok (Some (inl (if b then 1 else 0)))
  | VInt n => Ok (Some (inl n))
  | VStr s => Ok (Some (inr s))
  | VList _ | VDict _ => Raise TypeError
  end.

(** [id_map.get(v)]. *)
Definition get (m : id_map) (v : value) : result (option entry) :=
  k ← key_of v; Ok (k ≫= λ k, m !! k).

(** [os.path.basename]: what follows the last "/". *)
Fixpoint basename_from (acc path : string) : string :=
  match path with
  | "" => acc
  | String c path' =>
      if Ascii.eqb c "/"%char then basename_from "" path'
      else basename_from (acc +:+ String c "") path'
  end.

Definition basename (path : string) : string := basename_from "" path.

Definition type_name_map : list (string * string) :=
  [ ("characters", "Character"); ("families", "Family");
    ("locations", "Location"); ("journals", "Journal"); ("notes", "Note");
    ("organisations", "Organisation"); ("races", "Race") ].

Fixpoint lookup_name (k : string) (d : list (string * string)) : option string :=
  match d with
  | [] => None
  | (k', v) :: d' => if String.eqb k k' then Some v else lookup_name k d'
  end.

(** What [json.loads(json.load(f))] makes of a file: the decoded payload,
    or one of the two exceptions the converter catches
    ([json.JSONDecodeError], [TypeError]). *)
Inductive decoded : Type :=
| Undecodable
| Decoded (data : value).

(** What [os.walk] yields: each directory with its path and its files. *)
Definition walk : Type := list (string * list (string * decoded)).

(** The body of the [try]: register the record when it has an id and a
    name. *)
Definition index_record (entity_type_display : string) (data : value)
    (m : id_map) : result id_map :=
  entity_id ← Py.get data "id";
  name ← Py.get data "name";
  if Py.truthy entity_id && Py.truthy name then
    k ← key_of entity_id;
    match k with
    | Some k => Ok (<[k := Entry name entity_type_display]> m)
    | None => Ok m
    end
  else Ok m.

(** One file of a recognized folder.  The state is the index and the file
    names for which a warning was printed; [except] catches the decoding
    failure and a [TypeError], anything else propagates. *)
Definition index_file (entity_type_display : string)
    (st : id_map * list string) (file : string * decoded)
  : result (id_map * list string) :=
  let '(m, warnings) := st in
  let '(filename, content) := file in
  match content with
  | Undecodable => Ok (m, warnings ++ [filename])
  | Decoded data =>
      match index_record entity_type_display data m with
      | Ok m' => Ok (m', warnings)
      | Raise TypeError => Ok (m, warnings ++ [filename])
      | Raise e => Raise e
      end
  end.

(** PASS 1.  Returns the index and the warnings. *)
Definition create_id_map (input_dir : walk) : result (id_map * list string) :=
  for_each (λ st dir,
    let '(root, files) := dir in
    for_each (λ st file,
      if Str.endswith ".json" (fst file) then
        let folder_name := basename root in
        match lookup_name folder_name type_name_map with
        | None => Ok st
        | Some entity_type_display => index_file entity_type_display st file
        end
      else Ok st) st files) (∅, []) input_dir.

(** The record files of the recognized folders, in traversal order, each
    with the type label of its folder. *)
Definition records (input_dir : walk) : list (string * (string * decoded)) :=
  dir ← input_dir;
  file ← snd dir;
  if Str.endswith ".json" (fst file) then
    match lookup_name (basename (fst dir)) type_name_map with
    | None => []
    | Some label => [(label, file)]
    end
  else [].

(** What a record writes to the index, in the words of the specification:
    a record with an id and a name registers its name and the label of its
    folder under its id; any other record registers nothing. *)
Definition registration (label : string) (content : decoded)
  : option (key * entry) :=
  match content with
  | Decoded (VDict d) =>
      match Py.assoc "id" d, Py.assoc "name" d with
      | Some i, Some n =>
          if Py.truthy i && Py.truthy n then
            match key_of i with
            | Ok (Some k) => Some (k, Entry n label)
            | _ => None
            end
          else None
      | _, _ => None
      end
  | _ => None
  end.

(** One step of pass 1 over [records]. *)
Definition record_step (st : id_map * list string)
    (r : string * (string * decoded)) : result (id_map * list string) :=
  index_file (fst r) st (snd r).

(** The index after a record, by [registration]. *)
Definition write (m : id_map) (r : string * (string * decoded)) : id_map :=
  match registration (fst r) (snd (snd r)) with
  | Some (k, e) => <[k := e]> m
  | None => m
  end.

(** The file decodes to a record (a JSON object) or does not decode. *)
Definition is_record (content : decoded) : bool :=
  match content with
  | Decoded (VDict _) | Undecodable => true
  | Decoded _ => false
  end.

(** The record makes pass 1 print a warning: the file does not decode, or
    the record has a name and an id that cannot be a key of a dict. *)
Definition warns (content : decoded) : bool :=
  match content with
  | Undecodable => true
  | Decoded (VDict d) =>
      match Py.assoc "id" d, Py.assoc "name" d with
      | Some i, Some n =>
          Py.truthy i && Py.truthy n
          && match i with VList _ | VDict _ => true | _ => false end
      | _, _ => false
      end
  | Decoded _ => false
  end.

(** The type labels of [type_name_map]. *)
Definition labels : list string := snd <$> type_name_map.

(** What holds of every entry a record can write: one of the seven labels,
    a name that is not empty, an id that is neither 0 nor the empty
    string. *)
Definition well_formed_entry (k : key) (e : entry) : Prop :=
  entry_type e ∈ labels ∧ Py.truthy (entry_name e) = true
  ∧ k ≠ inl 0 ∧ k ≠ inr "".

(** A small export: two characters with the same id, a character without
    a name, a file that does not decode, a folder that is not recognized and
    a race that reuses the id of the characters. *)
Definition example_export : walk :=
  [ ("export/characters",
      [ ("ann.json", Decoded (VDict [("id", VInt 1); ("name", VStr "Ann")]));
        ("bea.json", Decoded (VDict [("id", VInt 1); ("name", VStr "Bea")]));
        ("nameless.json", Decoded (VDict [("id", VInt 2)]));
        ("broken.json", Undecodable);
        ("notes.txt", Undecodable) ]);
    ("export/maps",
      [ ("map.json", Decoded (VDict [("id", VInt 1); ("name", VStr "Map")])) ]);
    ("export/races",
      [ ("elf.json", Decoded (VDict [("id", VInt 1); ("name", VStr "Elf")]));
        ("anon.json", Decoded (VDict [("id", VInt 1)])) ]) ].

End Index.

(** ** Mention tokens: the regular expression and [re.sub] *)

Module Mention.

Definition not_close (c : ascii) : bool := negb (Ascii.eqb c "]"%char).

(** A match at the start of [s] of the pattern, written here with spaces
    between its parts,
      \[ ([a-zA-Z]+) : (\d+) (?: \| [^\]]* )? \]
    as group 1, group 2 and the text after the match.  Every repetition is
    greedy and is followed by a character outside its class, so the
    match is unique when it exists. *)
Definition match_at (s : string) : option (string * string * string) :=
  match s with
  | String "["%char s1 =>
      let '(ty, s2) := Str.span Chars.is_alpha s1 in
      match ty, s2 with
      | String _ _, String ":"%char s3 =>
          let '(ds, s4) := Str.span Chars.is_digit s3 in
          match ds, s4 with
          | String _ _, String "]"%char rest => Some (ty, ds, rest)
          | String _ _, String "|"%char s5 =>
              match snd (Str.span not_close s5) with
              | String "]"%char rest => Some (ty, ds, rest)
              | _ => None
              end
          | _, _ => None
          end
      | _, _ => None
      end
  | _ => None
  end.

Lemma span_length p s :
  (String.length (snd (Str.span p s)) ≤ String.length s)%nat.
Proof.
  induction s as [|c s IH]; simpl; [lia|].
  destruct (p c); [|simpl; lia].
  destruct (Str.span p s); simpl in *; lia.
Qed.

Lemma match_at_shorter s ty ds rest :
  match_at s = Some (ty, ds, rest) →
  (String.length rest < String.length s)%nat.
Proof.
  unfold match_at. intros H.
  destruct s as [|c s1]; [done|].
  destruct (Ascii.eqb_spec c "["%char) as [->|Hc]; cycle 1.
  { exfalso. revert H.
    destruct c as [[] [] [] [] [] [] [] []]; try done. }
  pose proof (span_length Chars.is_alpha s1) as L1.
  destruct (Str.span Chars.is_alpha s1) as [ty' s2]; simpl in L1.
  destruct ty' as [|t ty']; [done|].
  destruct s2 as [|c2 s3]; [done|].
  destruct (Ascii.eqb_spec c2 ":"%char) as [->|Hc2]; cycle 1.
  { exfalso. revert H.
    destruct c2 as [[] [] [] [] [] [] [] []]; try done. }
  pose proof (span_length Chars.is_digit s3) as L2.
  destruct (Str.span Chars.is_digit s3) as [ds' s4]; simpl in L2.
  destruct ds' as [|d ds']; [done|].
  destruct s4 as [|c4 s5]; [done|].
  destruct (Ascii.eqb_spec c4 "]"%char) as [->|Hc4].
  { injection H as <- <- <-. simpl in *. lia. }
  destruct (Ascii.eqb_spec c4 "|"%char) as [->|Hc5]; cycle 1.
  { exfalso. revert H.
    destruct c4 as [[] [] [] [] [] [] [] []]; try done. }
  pose proof (span_length not_close s5) as L3.
  destruct (snd (Str.span not_close s5)) as [|c6 s6]; [done|].
  destruct (Ascii.eqb_spec c6 "]"%char) as [->|Hc6]; cycle 1.
  { exfalso. revert H.
    destruct c6 as [[] [] [] [] [] [] [] []]; try done. }
  injection H as <- <- <-. simpl in *. lia.
Qed.

Global Arguments match_at : simpl never.

(** The text of a mention token: [[type:id]] or [[type:id|override]]. *)
Definition token (ty ds : string) (ov : option string) : string :=
  "[" +:+ ty +:+ ":" +:+ ds +:+
  match ov with Some o => "|" +:+ o | None => "" end +:+ "]".

(** The token grammar: an alphabetic type tag, a non-negative integer id and
    an override without a closing bracket. *)
Definition is_token (ty ds : string) (ov : option string) : bool :=
  negb (String.eqb ty "") && Str.forallb Chars.is_alpha ty &&
  negb (String.eqb ds "") && Str.forallb Chars.is_digit ds &&
  match ov with Some o => Str.forallb not_close o | None => true end.

(** No match of the pattern starts inside [pre] when [rest] follows it. *)
Fixpoint unmatched (pre rest : string) : bool :=
  match pre with
  | "" => true
  | String _ pre' =>
      match match_at (pre +:+ rest) with
      | None => unmatched pre' rest
      | Some _ => false
      end
  end.

(** The same pattern read one character at a time: where the match stands
    after the opening bracket. *)
Inductive state : Type :=
| AfterOpen      (* "[" read: a letter must follow *)
| InType         (* letters read: a letter or ":" *)
| AfterColon     (* ":" read: a digit must follow *)
| InId           (* digits read: a digit, "]" or "|" *)
| InOverride.    (* "|" read: anything up to the first "]" *)

Fixpoint accepts (q : state) (s : string) : bool :=
  match s with
  | "" => false
  | String c s' =>
      match q with
      | AfterOpen => Chars.is_alpha c && accepts InType s'
      | InType =>
          if Chars.is_alpha c then accepts InType s'
          else Ascii.eqb c ":"%char && accepts AfterColon s'
      | AfterColon => Chars.is_digit c && accepts InId s'
      | InId =>
          if Chars.is_digit c then accepts InId s'
          else if Ascii.eqb c "]"%char then true
          else Ascii.eqb c "|"%char && accepts InOverride s'
      | InOverride =>
          if Ascii.eqb c "]"%char then true else accepts InOverride s'
      end
  end.

Definition matches (s : string) : bool :=
  match s with
  | String c s' => Ascii.eqb c "["%char && accepts AfterOpen s'
  | "" => false
  end.

Definition not_open (c : ascii) : bool := negb (Ascii.eqb c "["%char).

(** A character that can end a token or open its override. *)
Definition is_delimiter (c : ascii) : bool :=
  Ascii.eqb c "]"%char || Ascii.eqb c "|"%char.

(** A string without "]" and "|". *)
Definition plain (s : string) : bool :=
  Str.forallb (λ c, negb (is_delimiter c)) s.

(** A character no token contains before its first delimiter, the opening
    bracket apart. *)
Definition breaks (c : ascii) : bool :=
  negb (Chars.is_alpha c || Chars.is_digit c || Ascii.eqb c ":"%char
        || is_delimiter c).

Definition inspect {A} (a : A) : {b : A | a = b} := exist _ a eq_refl.

(** [re.sub(pattern, repl, s)]: one scan from the left; at each position
    either the pattern matches, the replacement is emitted and the scan
    resumes after the match, or the character is copied. *)
Equations? sub (repl : string → string → string) (s : string) : string
  by wf (String.length s) lt :=
  sub repl "" := "";
  sub repl (String c s') with inspect (match_at (String c s')) := {
    | exist _ (Some (ty, ds, rest)) _ := repl ty ds +:+ sub repl rest;
    | exist _ None _ := String c (sub repl s') }.
Proof.
  exact (match_at_shorter _ _ _ _ e).
Qed.

End Mention.

(** ** [resolve_mentions] *)

(** The callback handed to [re.sub]: [match.group(1)] is [ty] and
    [match.group(2)] is [ds]. *)
Definition replace_func (m : id_map) (ty ds : string) : string :=
  let entity_id := Str.int ds in
  match m !! (inl entity_id : key) with
  | Some e => Py.str (entry_name e) +:+ " (" +:+ entry_type e +:+ ")"
  | None =>
      let entity_type := Str.capitalize ty in
      "[" +:+ entity_type +:+ " Not Found: " +:+ Str.of_int entity_id +:+ "]"
  end.

(** [text] is [None] or a [str]. *)
Definition resolve_mentions (text : option string) (m : id_map) : string :=
  match text with
  | None | Some "" => ""
  | Some s => Mention.sub (replace_func m) s
  end.

Definition scenario_index : id_map :=
  {[ inl 5 := Entry (VStr "Bob") "Character" ]}.


(** An index whose names, as rendered, and type labels are [plain]. *)
Definition plain_index (m : id_map) : Prop :=
  map_Forall (λ _ e, Mention.plain (Py.str (entry_name e)) = true
                     ∧ Mention.plain (entry_type e) = true) m.

(** ** The parsed markup: what the converter uses of BeautifulSoup *)

Module Soup.

(** An element of the tree that [BeautifulSoup(markup, 'html.parser')]
    builds: a string of text, a string that [get_text()] leaves out (a
    comment, a doctype, the text of a script), or a tag with its attributes
    (each name once) and contents.  Attribute values are strings, as that
    of [href] is. *)
Inductive node : Type :=
| Text (s : string)
| Special (s : string)
| Tag (name : string) (attrs : list (string * string)) (contents : list node).

(** Where an element sits: the indices to follow from the top of the
    document. *)
Definition path : Type := list nat.

(** [element.get_text()]: the text strings below the element, in order. *)
Fixpoint get_text (n : node) : string :=
  match n with
  | Text s => s
  | Special _ => ""
  | Tag _ _ contents => String.concat "" (List.map get_text contents)
  end.

(** [soup.get_text()]. *)
Definition get_text_all (doc : list node) : string :=
  String.concat "" (List.map get_text doc).

Fixpoint attr (k : string) (attrs : list (string * string)) : option string :=
  match attrs with
  | [] => None
  | (k', v) :: attrs' => if String.eqb k k' then Some v else attr k attrs'
  end.

(** [find_all]: the tags below that satisfy [want], in document order, each
    with its path.  [find_all_in] looks at an element and below it,
    [find_all_from] at the siblings [ks], the first of which has index [i]
    under [here]. *)
Fixpoint find_all_in (want : string → list (string * string) → bool)
    (here : path) (n : node) {struct n} : list (path * node) :=
  match n with
  | Tag name attrs contents =>
      (if want name attrs then [(here, n)] else []) ++
      (fix from (i : nat) (ks : list node) : list (path * node) :=
         match ks with
         | [] => []
         | k :: ks' => find_all_in want (here ++ [i]) k ++ from (S i) ks'
         end) 0%nat contents
  | _ => []
  end.

Fixpoint find_all_from (want : string → list (string * string) → bool)
    (here : path) (i : nat) (ks : list node) : list (path * node) :=
  match ks with
  | [] => []
  | k :: ks' =>
      find_all_in want (here ++ [i]) k ++ find_all_from want here (S i) ks'
  end.

Definition find_all (want : string → list (string * string) → bool)
    (doc : list node) : list (path * node) :=
  find_all_from want [] 0 doc.

(** The element at a path. *)
Fixpoint node_at (doc : list node) (p : path) : option node :=
  match p with
  | [] => None
  | i :: p' =>
      match doc !! i with
      | Some n =>
          match p', n with
          | [], _ => Some n
          | _, Tag _ _ contents => node_at contents p'
          | _, _ => None
          end
      | None => None
      end
  end.

Definition has_name (name : string) (n : option node) : bool :=
  match n with
  | Some (Tag name' _ _) => String.eqb name name'
  | _ => false
  end.

(** [element.find_parent(name)] for the element at [p]: the nearest proper
    ancestor with that name, looked for among the first [k] steps of [p]. *)
Fixpoint find_parent_upto (doc : list node) (name : string) (p : path)
    (k : nat) : option path :=
  match k with
  | O => None
  | S k' =>
      if has_name name (node_at doc (take k p)) then Some (take k p)
      else find_parent_upto doc name p k'
  end.

Definition find_parent (doc : list node) (name : string) (p : path)
  : option path :=
  find_parent_upto doc name p (length p - 1).

(** The element at [p] was destroyed by [decompose()] on one of [removed]:
    it is one of them or lies below one. *)
Definition decomposed (removed : list path) (p : path) : bool :=
  existsb (λ r, bool_decide (r `prefix_of` p)) removed.

(** The document once the elements at [removed] are taken out with all
    they contain. *)
Fixpoint prune_in (removed : list path) (here : path) (n : node) {struct n}
  : node :=
  match n with
  | Tag name attrs contents =>
      Tag name attrs
        ((fix from (i : nat) (ks : list node) : list node :=
            match ks with
            | [] => []
            | k :: ks' =>
                (if bool_decide (here ++ [i] ∈ removed) then []
                 else [prune_in removed (here ++ [i]) k]) ++ from (S i) ks'
            end) 0%nat contents)
  | _ => n
  end.

Fixpoint prune_from (removed : list path) (here : path) (i : nat)
    (ks : list node) : list node :=
  match ks with
  | [] => []
  | k :: ks' =>
      (if bool_decide (here ++ [i] ∈ removed) then []
       else [prune_in removed (here ++ [i]) k])
      ++ prune_from removed here (S i) ks'
  end.

Definition prune (removed : list path) (doc : list node) : list node :=
  prune_from removed [] 0 doc.

(** Some text string below the element is not empty. *)
Fixpoint has_text (n : node) : bool :=
  match n with
  | Text s => negb (String.eqb s "")
  | Special _ => false
  | Tag _ _ contents => existsb has_text contents
  end.

End Soup.

(** ** [clean_html] and the entity formatters *)

Section Converter.

(** [BeautifulSoup(markup, 'html.parser')]: the parser is not part of the
    converter.  It builds the document of a markup or raises. *)
Variable BeautifulSoup : value → result (list Soup.node).

Abbreviation nl := Str.nl.

Definition is_link (name : string) (attrs : list (string * string)) : bool :=
  String.eqb name "a" && bool_decide (is_Some (Soup.attr "href" attrs)).

(** The test of the first loop of [clean_html] on a link [a]. *)
Definition instructional (a : Soup.node) : bool :=
  match a with
  | Soup.Tag _ attrs _ =>
      match Soup.attr "href" attrs with
      | Some href =>
          Str.contains "app.kanka.io" href
          && Str.contains "click here" (Str.lower (Soup.get_text a))
      | None => false
      end
  | _ => false
  end.

(** One turn of the first loop of [clean_html], on a link found before the
    loop starts; [removed] holds the paths already handed to
    [decompose()].  Reading [a['href']] from a link that an earlier turn
    destroyed raises [TypeError]. *)
Definition remove_step (doc : list Soup.node) (removed : list Soup.path)
    (link : Soup.path * Soup.node) : result (list Soup.path) :=
  let '(l, a) := link in
  if Soup.decomposed removed l then Raise TypeError
  else if instructional a then
    match Soup.find_parent doc "p" l with
    | Some p => Ok (removed ++ [p])
    | None => Ok removed
    end
  else Ok removed.

(** The first loop of [clean_html]: the paths it decomposes. *)
Definition remove_instructional (doc : list Soup.node)
  : result (list Soup.path) :=
  for_each (remove_step doc) [] (Soup.find_all is_link doc).

(** The rule as the specification words it: a paragraph whose sole content
    is a link to the platform with "click here" in its text. *)
Definition sole_instructional_link (paragraph : Soup.node) : bool :=
  match paragraph with
  | Soup.Tag _ _ [Soup.Tag name attrs _ as a] =>
      is_link name attrs && instructional a
  | _ => false
  end.

Definition recognized : list string :=
  ["p"; "ul"; "h3"; "h4"; "b"; "strong"; "i"; "em"].

Definition is_recognized (name : string) (_ : list (string * string)) : bool :=
  bool_decide (name ∈ recognized).

Definition is_li (name : string) (_ : list (string * string)) : bool :=
  String.eqb name "li".

(** What one recognized element appends to [text_parts]. *)
Definition render (element : Soup.node) : list string :=
  match element with
  | Soup.Tag name _ contents =>
      if String.eqb name "p" then
        [Str.strip (Soup.get_text element) +:+ nl]
      else if String.eqb name "ul" then
        ((λ li, "- " +:+ Str.strip (Soup.get_text li.2) +:+ nl)
           <$> Soup.find_all is_li contents) ++ [nl]
      else if bool_decide (name ∈ ["h3"; "h4"; "b"; "strong"]) then
        [Str.strip (Soup.get_text element) +:+ nl]
      else if bool_decide (name ∈ ["i"; "em"]) then
        let lines :=
          (λ line, "> " +:+ Str.strip line)
            <$> Str.split "010"%char (Soup.get_text element) in
        [Str.join nl lines +:+ nl]
      else []
  | _ => []
  end.

(** [clean_html] after the parse, on the document left by the first
    loop. *)
Definition to_text (doc : list Soup.node) : string :=
  let text_parts :=
    element ← Soup.find_all is_recognized doc; render element.2 in
  match text_parts with
  | [] => Soup.get_text_all doc
  | _ => Str.strip (Str.join "" text_parts)
  end.

Definition clean_html (html_content : value) : result string :=
  if negb (Py.truthy html_content) then Ok ""
  else
    soup ← BeautifulSoup html_content;
    removed ← remove_instructional soup;
    Ok (to_text (Soup.prune removed soup)).

(** The [posts] loop shared by the formatters, with its heading. *)
Definition format_posts (heading : string) (data : value)
    (parts : list string) : result (list string) :=
  entity ← Py.get_default data "entity" (VDict []);
  posts ← Py.get entity "posts";
  if Py.truthy posts then
    entity ← Py.item data "entity";
    posts ← Py.item entity "posts";
    posts ← Py.iter posts;
    for_each (λ parts post,
      name ← Py.get post "name";
      let parts :=
        parts ++ [nl +:+ "---" +:+ nl +:+ "[" +:+ heading +:+ ": "
                     +:+ Py.str name +:+ "]" +:+ nl] in
      entry ← Py.get post "entry";
      text ← clean_html entry;
      Ok (parts ++ [text])) parts posts
  else Ok parts.

(** [data[field][0][key]] looked up in the index: the first link of a
    relation. *)
Definition first_link (data : value) (field key : string) (m : id_map)
  : result (value * option entry) :=
  links ← Py.item data field;
  link ← Py.first links;
  linked_id ← Py.item link key;
  info ← Index.get m linked_id;
  Ok (linked_id, info).

Definition name_or_unknown (info : option entry) : string :=
  match info with
  | Some e => Py.str (entry_name e)
  | None => "Unknown"
  end.

(** ["\n---\n[Primary Description]\n"]. *)
Definition primary_description : string :=
  nl +:+ "---" +:+ nl +:+ "[Primary Description]" +:+ nl.

(** The heading of the description and the normalized [entry]. *)
Definition description (entry : value) (parts : list string)
  : result (list string) :=
  let parts := parts ++ [primary_description] in
  text ← clean_html entry;
  Ok (parts ++ [text]).

(** [format_character], its first lines: name, title, type and sex. *)
Definition character_basics (data : value) : result (list string) :=
  let parts := ["[Basic Information]"] in
  name ← Py.get_default data "name" (VStr "N/A");
  let parts := parts ++ ["Name: " +:+ Py.str name] in
  title ← Py.get data "title";
  let parts :=
    if Py.truthy title then parts ++ ["Title: " +:+ Py.str title] else parts in
  type ← Py.get data "type";
  let parts :=
    if Py.truthy type then parts ++ ["Type: " +:+ Py.str type] else parts in
  sex ← Py.get data "sex";
  let parts :=
    if Py.truthy sex then parts ++ ["Sex: " +:+ Py.str sex] else parts in
  Ok parts.

(** [format_character], a relation ([character_races] with [race_id] under
    the label Race, [character_families] with [family_id] under Family). *)
Definition character_relation (data : value) (field key label : string)
    (m : id_map) (parts : list string) : result (list string) :=
  links ← Py.get data field;
  if Py.truthy links then
    '(_, info) ← first_link data field key m;
    Ok (parts ++ [label +:+ ": " +:+ name_or_unknown info])
  else Ok parts.

Definition format_character (data : value) (m : id_map) : result string :=
  parts ← character_basics data;
  parts ← character_relation data "character_races" "race_id" "Race" m parts;
  parts ←
    character_relation data "character_families" "family_id" "Family" m parts;
  entry ← Py.get data "entry";
  parts ← description entry parts;
  parts ← format_posts "Notes" data parts;
  Ok (Str.join nl parts).

(** [format_organisation], its first lines: name, type and status. *)
Definition organisation_basics (data : value) : result (list string) :=
  let parts := ["[Basic Information]"] in
  name ← Py.get_default data "name" (VStr "N/A");
  let parts := parts ++ ["Name: " +:+ Py.str name] in
  entity ← Py.get_default data "entity" (VDict []);
  type ← Py.get entity "type";
  let parts :=
    if Py.truthy type then parts ++ ["Type: " +:+ Py.str type] else parts in
  is_defunct ← Py.get data "is_defunct";
  let status := if Py.truthy is_defunct then "Defunct" else "Active" in
  Ok (parts ++ ["Status: " +:+ status]).

(** [format_organisation], the location it is based in. *)
Definition organisation_location (data : value) (m : id_map)
    (parts : list string) : result (list string) :=
  pivotLocations ← Py.get data "pivotLocations";
  if Py.truthy pivotLocations then
    '(_, loc_info) ← first_link data "pivotLocations" "location_id" m;
    match loc_info with
    | Some e =>
        Ok (parts ++ [nl +:+ "[Location]" +:+ nl +:+ "Based in: "
                         +:+ Py.str (entry_name e) +:+ " ("
                         +:+ entry_type e +:+ ")"])
    | None => Ok parts
    end
  else Ok parts.

(** [format_organisation], the roster. *)
Definition organisation_members (data : value) (m : id_map)
    (parts : list string) : result (list string) :=
  members ← Py.get data "members";
  if Py.truthy members then
    let parts := parts ++ [nl +:+ "---" +:+ nl +:+ "[Members Roster]"] in
    members ← Py.item data "members";
    members ← Py.iter members;
    for_each (λ parts member,
      role ← Py.get_default member "role" (VStr "Member");
      char_id ← Py.item member "character_id";
      member_info ← Index.get m char_id;
      let parts := parts ++ [nl +:+ "- Role: " +:+ Py.str role] in
      match member_info with
      | Some e =>
          Ok (parts ++ ["  - Member: " +:+ Py.str (entry_name e) +:+ " ("
                          +:+ entry_type e +:+ ")"])
      | None =>
          Ok (parts ++ ["  - Member: [Character Not Found: "
                          +:+ Py.str char_id +:+ "]"])
      end) parts members
  else Ok parts.

Definition format_organisation (data : value) (m : id_map) : result string :=
  parts ← organisation_basics data;
  parts ← organisation_location data m parts;
  entity ← Py.get_default data "entity" (VDict []);
  entry ← Py.get entity "entry";
  parts ← description entry parts;
  parts ← organisation_members data m parts;
  Ok (Str.join nl parts).

(** [data.get('entity', {}).get('type')] as a line. *)
Definition entity_type_line (data : value) (parts : list string)
  : result (list string) :=
  entity ← Py.get_default data "entity" (VDict []);
  type ← Py.get entity "type";
  Ok (if Py.truthy type then parts ++ ["Type: " +:+ Py.str type] else parts).

(** [clean_html(data.get('entity', {}).get('entry'))] under its heading. *)
Definition entity_description (data : value) (parts : list string)
  : result (list string) :=
  entity ← Py.get_default data "entity" (VDict []);
  entry ← Py.get entity "entry";
  description entry parts.

Definition format_family (data : value) (m : id_map) : result string :=
  let parts := ["[Basic Information]"] in
  name ← Py.get_default data "name" (VStr "N/A");
  let parts := parts ++ ["Name: " +:+ Py.str name] in
  parts ← entity_type_line data parts;
  pivotMembers ← Py.get data "pivotMembers";
  parts ←
    (if Py.truthy pivotMembers then
       let parts := parts ++ [nl +:+ "[Members]"] in
       members ← Py.item data "pivotMembers";
       members ← Py.iter members;
       for_each (λ parts member,
         char_id ← Py.item member "character_id";
         member_info ← Index.get m char_id;
         match member_info with
         | Some e =>
             Ok (parts ++ ["- " +:+ Py.str (entry_name e) +:+ " (Character)"])
         | None =>
             Ok (parts ++ ["- [Character Not Found: " +:+ Py.str char_id
                             +:+ "]"])
         end) parts members
     else Ok parts);
  parts ← entity_description data parts;
  parts ← format_posts "Notes" data parts;
  Ok (Str.join nl parts).

Definition format_journal (data : value) : result string :=
  let parts := ["[Basic Information]"] in
  name ← Py.get_default data "name" (VStr "N/A");
  let parts := parts ++ ["Title: " +:+ Py.str name] in
  parts ← entity_type_line data parts;
  date ← Py.get data "date";
  let parts :=
    if Py.truthy date then parts ++ ["Date: " +:+ Py.str date] else parts in
  parts ← entity_description data parts;
  parts ← format_posts "Entry" data parts;
  Ok (Str.join nl parts).

Definition format_location (data : value) : result string :=
  let parts := ["[Basic Information]"] in
  name ← Py.get_default data "name" (VStr "N/A");
  let parts := parts ++ ["Name: " +:+ Py.str name] in
  parts ← entity_type_line data parts;
  is_destroyed ← Py.get data "is_destroyed";
  let status := if Py.truthy is_destroyed then "Destroyed" else "Intact" in
  let parts := parts ++ ["Status: " +:+ status] in
  parts ← entity_description data parts;
  parts ← format_posts "Notes" data parts;
  Ok (Str.join nl parts).

Definition format_note (data : value) : result string :=
  let parts := ["[Primary Content]" +:+ nl] in
  entity ← Py.get_default data "entity" (VDict []);
  entry_text ← Py.get_default entity "entry" (VStr "");
  cleaned_entry ← clean_html entry_text;
  Ok (Str.join nl (parts ++ [cleaned_entry])).

Definition format_race (data : value) : result string :=
  let parts := ["[Basic Information]"] in
  name ← Py.get_default data "name" (VStr "N/A");
  let parts := parts ++ ["Name: " +:+ Py.str name] in
  parts ← entity_type_line data parts;
  is_extinct ← Py.get data "is_extinct";
  let status := if Py.truthy is_extinct then "Extinct" else "Extant" in
  let parts := parts ++ ["Status: " +:+ status] in
  parts ← entity_description data parts;
  Ok (Str.join nl parts).

(** The router: the banner and the body of the formatter of the folder, or
    [None] for a folder without a formatter. *)
Definition format_entity (data : value) (root : string) (m : id_map)
  : result (option string) :=
  let folder_name := Index.basename root in
  name ← Py.get_default data "name" (VStr "Unnamed");
  entity_id ← Py.get data "id";
  let rule := Str.repeat "="%char 40 in
  let header :=
    rule +:+ nl +:+ " " +:+ Str.drop_last (Str.upper folder_name) +:+ ": "
         +:+ Py.str name +:+ nl +:+ rule +:+ nl +:+ nl in
  body ←
    (if String.eqb folder_name "characters" then Some <$> format_character data m
     else if String.eqb folder_name "families" then Some <$> format_family data m
     else if String.eqb folder_name "journals" then Some <$> format_journal data
     else if String.eqb folder_name "locations" then Some <$> format_location data
     else if String.eqb folder_name "notes" then Some <$> format_note data
     else if String.eqb folder_name "organisations"
          then Some <$> format_organisation data m
     else if String.eqb folder_name "races" then Some <$> format_race data
     else Ok None);
  Ok ((λ body, header +:+ body) <$> body).

(** A description with the boilerplate link inside a sentence, followed by
    a paragraph of its own: the document of
      <p>Intro <a href='https://app.kanka.io/help'>Click HERE</a> for
      more.</p><p>Body</p> *)
Definition boilerplate_doc : list Soup.node :=
  [ Soup.Tag "p" []
      [ Soup.Text "Intro ";
        Soup.Tag "a" [("href", "https://app.kanka.io/help")]
          [Soup.Text "Click HERE"];
        Soup.Text " for more." ];
    Soup.Tag "p" [] [Soup.Text "Body"] ].

(** Two links to the platform in one paragraph: the document of
      <p><a href='https://app.kanka.io/a'>click here</a> or
      <a href='https://app.kanka.io/b'>here</a></p> *)
Definition two_links_doc : list Soup.node :=
  [ Soup.Tag "p" []
      [ Soup.Tag "a" [("href", "https://app.kanka.io/a")]
          [Soup.Text "click here"];
        Soup.Text " or ";
        Soup.Tag "a" [("href", "https://app.kanka.io/b")] [Soup.Text "here"] ] ].

End Converter.

(** The parser on a markup without tags and character references: the
    document is one text string. *)
Definition plain_markup (markup : value) : result (list Soup.node) :=
  match markup with
  | VStr s => Ok [Soup.Text s]
  | _ => Raise TypeError
  end.

(** A character linked to two races and two families; the first race is in
    the index of [example_index], the first family is not. *)
Definition example_index : id_map :=
  {[ inl 10 := Entry (VStr "Elf") "Race";
     inl 11 := Entry (VStr "Dwarf") "Race";
     inl 21 := Entry (VStr "Oakheart") "Family" ]}.

Definition example_character : list (string * value) :=
  [ ("id", VInt 1); ("name", VStr "Ann"); ("sex", VStr "F");
    ("character_races",
       VList [ VDict [("race_id", VInt 10)]; VDict [("race_id", VInt 11)] ]);
    ("character_families",
       VList [ VDict [("family_id", VInt 20)]; VDict [("family_id", VInt 21)] ]);
    ("entry", VStr "A ranger.") ].

(** An organisation based in a location the index does not know. *)
Definition example_organisation : list (string * value) :=
  [ ("id", VInt 3); ("name", VStr "Guild"); ("is_defunct", VBool true);
    ("pivotLocations", VList [ VDict [("location_id", VInt 99)] ]);
    ("entity", VDict [("type", VStr "Trade"); ("entry", VStr "Merchants.")]);
    ("members",
       VList [ VDict [("role", VStr "Master"); ("character_id", VInt 10)];
               VDict [("character_id", VInt 77)] ]) ].

(** ** The consolidated writer (the second half of [generate_text_files]) *)

Module Writer.

Abbreviation nl := Str.nl.

(** [os.path.join(a, b)] on POSIX. *)
Definition os_path_join (a b : string) : string :=
  if String.prefix "/" b then b
  else if String.eqb a "" || Str.endswith "/" a then a +:+ b
  else a +:+ "/" +:+ b.

(** The keys of [output_buffers], in the order the dict is built. *)
Definition folders : list string :=
  [ "characters"; "families"; "locations"; "journals"; "notes";
    "organisations"; "races" ].

(** [output_buffers] before the first record is appended. *)
Definition empty_buffers : list (string * list string) :=
  (λ folder, (folder, [])) <$> folders.

(** ["\n\n\n" + ("=" * 80) + "\n\n\n"]. *)
Definition separator : string :=
  (nl +:+ nl +:+ nl) +:+ Str.repeat "="%char 80 +:+ (nl +:+ nl +:+ nl).

(** The files of the output directory: path to content.  Opening a path
    with mode "w" and writing replaces what the path held. *)
Definition write_file (path content : string) (fs : gmap string string)
  : gmap string string :=
  <[path := content]> fs.

(** The loop over [output_buffers.items()] that ends
    [generate_text_files]: a type without content is skipped, every other
    type gets one file. *)
Definition write_consolidated (output_dir : string)
    (output_buffers : list (string * list string))
    (fs : gmap string string) : gmap string string :=
  foldl (λ fs item,
    let '(entity_type, content_list) := item in
    match content_list with
    | [] => fs
    | _ =>
        let output_filename := entity_type +:+ ".txt" in
        let output_path := os_path_join output_dir output_filename in
        let final_content := Str.join separator content_list in
        write_file output_path final_content fs
    end) fs output_buffers.

(** One turn of that loop, for a given naming of the output files. *)
Definition flush (path : string → string) (fs : gmap string string)
    (item : string * list string) : gmap string string :=
  match item.2 with
  | [] => fs
  | _ => write_file (path item.1) (Str.join separator item.2) fs
  end.

(** What [os.path.join] puts before the file name. *)
Definition path_prefix (output_dir : string) : string :=
  if String.eqb output_dir "" || Str.endswith "/" output_dir then output_dir
  else output_dir +:+ "/".

End Writer.

(** ** [generate_text_files] *)

Section Pass2.

Variable BeautifulSoup : value → result (list Soup.node).

(** [output_buffers[folder_name].append(content)]. *)
Definition buffer_append (folder_name content : string)
    (output_buffers : list (string * list string))
  : list (string * list string) :=
  (λ item : string * list string,
     if String.eqb item.1 folder_name then (item.1, item.2 ++ [content])
     else item) <$> output_buffers.

(** One file of the first loop of [generate_text_files].  The state is
    [output_buffers] and the file names for which a warning was printed. *)
Definition process_file (root : string) (m : id_map)
    (st : list (string * list string) * list string)
    (file : string * Index.decoded)
  : result (list (string * list string) * list string) :=
  let '(output_buffers, warnings) := st in
  let '(filename, payload) := file in
  if negb (Str.endswith ".json" filename) then Ok st
  else
    let folder_name := Index.basename root in
    if negb (bool_decide (folder_name ∈ output_buffers.*1)) then Ok st
    else
      match payload with
      | Index.Undecodable => Ok (output_buffers, warnings ++ [filename])
      | Index.Decoded data =>
          match format_entity BeautifulSoup data root m with
          | Ok (Some content) =>
              if negb (String.eqb content "") then
                let resolved_content := resolve_mentions (Some content) m in
                Ok (buffer_append folder_name resolved_content output_buffers,
                    warnings)
              else Ok st
          | Ok None => Ok st
          | Raise TypeError => Ok (output_buffers, warnings ++ [filename])
          | Raise e => Raise e
          end
      end.

(** The first loop of [generate_text_files]: every record formatted,
    resolved and appended to the buffer of its folder. *)
Definition fill_buffers (input_dir : Index.walk) (m : id_map)
  : result (list (string * list string) * list string) :=
  for_each (λ st dir, for_each (process_file dir.1 m) st dir.2)
    (Writer.empty_buffers, []) input_dir.

(** PASS 2.  Returns the files of the output directory and the warnings. *)
Definition generate_text_files (input_dir : Index.walk) (output_dir : string)
    (m : id_map) (fs : gmap string string)
  : result (gmap string string * list string) :=
  '(output_buffers, warnings) ← fill_buffers input_dir m;
  Ok (Writer.write_consolidated output_dir output_buffers fs, warnings).

(** The files of the export in traversal order, each with the path of its
    directory. *)
Definition files_of (input_dir : Index.walk)
  : list (string * (string * Index.decoded)) :=
  dir ← input_dir; (λ file, (dir.1, file)) <$> dir.2.

(** What a file adds to the buffer of [folder]: the record formatted and
    resolved, or nothing. *)
Definition rendered (m : id_map) (folder : string)
    (file : string * (string * Index.decoded)) : option string :=
  if Str.endswith ".json" file.2.1
     && String.eqb (Index.basename file.1) folder
  then
    match file.2.2 with
    | Index.Decoded data =>
        match format_entity BeautifulSoup data file.1 m with
        | Ok (Some content) =>
            if negb (String.eqb content "")
            then Some (resolve_mentions (Some content) m) else None
        | _ => None
        end
    | Index.Undecodable => None
    end
  else None.

End Pass2.

(** The roster lines of the formatters, for a member whose [character_id]
    is [char_id] and is looked up as [info]. *)
Definition family_member_line (char_id : value) (info : option entry)
  : string :=
  match info with
  | Some e => "- " +:+ Py.str (entry_name e) +:+ " (Character)"
  | None => "- [Character Not Found: " +:+ Py.str char_id +:+ "]"
  end.

Definition organisation_member_lines (role char_id : value)
    (info : option entry) : list string :=
  [ Str.nl +:+ "- Role: " +:+ Py.str role;
    match info with
    | Some e =>
        "  - Member: " +:+ Py.str (entry_name e) +:+ " (" +:+ entry_type e
          +:+ ")"
    | None => "  - Member: [Character Not Found: " +:+ Py.str char_id +:+ "]"
    end ].

(** A family of three members: one in the index as a character, one in
    the index as a race, one unknown. *)
Definition example_family : list (string * value) :=
  [ ("id", VInt 21); ("name", VStr "Oakheart");
    ("pivotMembers",
       VList [ VDict [("character_id", VInt 5)];
               VDict [("character_id", VInt 10)];
               VDict [("character_id", VInt 77)] ]) ].

(** ** [main] *)

Section Main.

Variable BeautifulSoup : value → result (list Soup.node).

Definition OUTPUT_DIRECTORY : string := "NotebookLM_Files/".

(** The two passes over the same export.  Returns the files written and the
    warnings of each pass. *)
Definition main (input_directory : Index.walk) (fs : gmap string string)
  : result (gmap string string * (list string * list string)) :=
  '(m, warnings1) ← Index.create_id_map input_directory;
  '(out, warnings2) ←
    generate_text_files BeautifulSoup input_directory OUTPUT_DIRECTORY m fs;
  Ok (out, (warnings1, warnings2)).

End Main.

(** * Properties *)

(** ** The built-ins on examples *)

Example lower_ex : Str.lower "Click HERE" = "click here".
Proof. reflexivity. Qed.

Example capitalize_ex : Str.capitalize "rACE" = "Race".
Proof. reflexivity. Qed.

Example strip_ex : Str.strip "  a b
 " = "a b".
Proof. reflexivity. Qed.

Example int_ex : Str.int "007" = 7 ∧ Str.of_int 7 = "7" ∧ Str.of_int 0 = "0".
Proof. repeat split; reflexivity. Qed.

Example split_ex : Str.split "," "a,,b" = ["a"; ""; "b"].
Proof. reflexivity. Qed.

Example repr_ex :
  Py.str (VList [VStr "ab"; VInt (-3); VNull; VBool true]) = "['ab', -3, None, True]"
  ∧ Py.str (VDict [("id", VInt 7)]) = "{'id': 7}".
Proof. split; reflexivity. Qed.

Example scenario_A :
  resolve_mentions (Some "See [character:5]") scenario_index
  = "See Bob (Character)".
Proof. vm_compute. reflexivity. Qed.

Example scenario_B :
  resolve_mentions (Some "See [race:99]") scenario_index
  = "See [Race Not Found: 99]".
Proof. vm_compute. reflexivity. Qed.

Example resolve_override_ex :
  resolve_mentions (Some "[family:5|The Bobs], [rACE:007|x] and [a:5")
    scenario_index
  = "Bob (Character), [Race Not Found: 7] and [a:5".
Proof. vm_compute. reflexivity. Qed.

(** ** Strings *)

Section StringFacts.

Implicit Types (s t u : string) (c : ascii) (p : ascii → bool).

Lemma str_nil_l s : "" +:+ s = s.
Proof. reflexivity. Qed.

Lemma str_cons c s t : String c s +:+ t = String c (s +:+ t).
Proof. reflexivity. Qed.

Lemma str_nil_r s : s +:+ "" = s.
Proof. induction s as [|c s IH]; [done|]. by rewrite str_cons, IH. Qed.

Lemma str_assoc s t u : (s +:+ t) +:+ u = s +:+ (t +:+ u).
Proof. induction s as [|c s IH]; [done|]. by rewrite !str_cons, IH. Qed.

Lemma span_app p s c t :
  Str.forallb p s = true → p c = false →
  Str.span p (s +:+ String c t) = (s, String c t).
Proof.
  intros Hs Hc. induction s as [|d s IH].
  - rewrite str_nil_l. simpl. by rewrite Hc.
  - rewrite str_cons. simpl in *. apply andb_true_iff in Hs as [-> Hs].
    by rewrite (IH Hs).
Qed.

End StringFacts.

Create Rewrite HintDb str.
#[local] Hint Rewrite str_assoc str_cons str_nil_l str_nil_r : str.

Ltac norm_str := autorewrite with str.


(** ** The scan of [re.sub] *)

Section Scan.

Variable repl : string → string → string.

Lemma sub_nil : Mention.sub repl "" = "".
Proof. by simp sub. Qed.

Lemma sub_match s ty ds rest :
  Mention.match_at s = Some (ty, ds, rest) →
  Mention.sub repl s = repl ty ds +:+ Mention.sub repl rest.
Proof.
  destruct s as [|c s']; [done|]. intros H. simp sub.
  generalize (Mention.inspect (Mention.match_at (String c s'))).
  intros [[[[ty' ds'] rest']|] Hr]; simp sub;
    pose proof (eq_trans (eq_sym H) Hr) as E; [|done].
  by injection E as -> -> ->.
Qed.

Lemma sub_copy c s :
  Mention.match_at (String c s) = None →
  Mention.sub repl (String c s) = String c (Mention.sub repl s).
Proof.
  intros H. simp sub.
  generalize (Mention.inspect (Mention.match_at (String c s))).
  intros [[[[ty' ds'] rest']|] Hr]; simp sub;
    pose proof (eq_trans (eq_sym H) Hr) as E; done.
Qed.

End Scan.

Section Tokens.

Variable repl : string → string → string.

Lemma match_at_token ty ds ov post :
  Mention.is_token ty ds ov = true →
  Mention.match_at (Mention.token ty ds ov +:+ post) = Some (ty, ds, post).
Proof.
  unfold Mention.is_token, Mention.token. rewrite !andb_true_iff.
  intros [[[[Hty Halpha] Hds] Hdigit] Hov].
  norm_str. unfold Mention.match_at.
  rewrite (span_app _ ty) by done.
  destruct ty as [|t ty]; [done|].
  destruct ov as [o|].
  - norm_str. rewrite (span_app _ ds) by done.
    destruct ds as [|d ds]; [done|].
    rewrite (span_app _ o); [done..|]. done.
  - norm_str. rewrite (span_app _ ds) by done.
    by destruct ds as [|d ds].
Qed.

Lemma sub_unmatched pre rest :
  Mention.unmatched pre rest = true →
  Mention.sub repl (pre +:+ rest) = pre +:+ Mention.sub repl rest.
Proof.
  induction pre as [|c pre IH]; [done|]. simpl.
  destruct (Mention.match_at (String c pre +:+ rest)) eqn:E; [done|].
  intros H. rewrite str_cons in *. by rewrite sub_copy, IH.
Qed.

Lemma sub_first_token pre ty ds ov post :
  Mention.is_token ty ds ov = true →
  Mention.unmatched pre (Mention.token ty ds ov +:+ post) = true →
  Mention.sub repl (pre +:+ Mention.token ty ds ov +:+ post)
  = pre +:+ repl ty ds +:+ Mention.sub repl post.
Proof.
  intros Htok Hpre.
  by rewrite sub_unmatched, (sub_match _ _ ty ds post)
    by auto using match_at_token.
Qed.

End Tokens.

Lemma resolve_mentions_sub s m :
  resolve_mentions (Some s) m = Mention.sub (replace_func m) s.
Proof. by destruct s. Qed.

(** ** The mention resolver *)

(** C9. On an absent ([None]) or empty text the resolver returns the empty
    string, whatever the index holds: the index is not consulted and
    nothing is raised. *)
Theorem resolve_mentions_absent (m : id_map) :
  resolve_mentions None m = "" ∧ resolve_mentions (Some "") m = "".
Proof. split; reflexivity. Qed.

(** C1. A mention token [[type:id]] (with or without an override) that the
    scan reaches, and whose id is in the index with name N and type label
    T, is replaced by "N (T)"; the text before it is kept and the text
    after it is resolved in the same way. *)
Theorem resolve_mentions_found (m : id_map) pre ty ds ov post e :
  Mention.is_token ty ds ov = true →
  Mention.unmatched pre (Mention.token ty ds ov +:+ post) = true →
  m !! (inl (Str.int ds) : key) = Some e →
  resolve_mentions (Some (pre +:+ Mention.token ty ds ov +:+ post)) m
  = pre +:+ (Py.str (entry_name e) +:+ " (" +:+ entry_type e +:+ ")")
        +:+ resolve_mentions (Some post) m.
Proof.
  intros Htok Hpre Hm.
  rewrite !resolve_mentions_sub, sub_first_token by done.
  unfold replace_func at 1. by rewrite Hm.
Qed.

(** Scenario A of the specification, through C1. *)
Lemma resolve_mentions_found_scenario_A :
  resolve_mentions (Some "See [character:5]") scenario_index
  = "See Bob (Character)".
Proof.
  exact (resolve_mentions_found scenario_index "See " "character" "5" None ""
           (Entry (VStr "Bob") "Character") eq_refl eq_refl eq_refl).
Defined.

(** C2. A mention token, with or without an override, whose id is not in
    the index is replaced by "[Type Not Found: id]": Type is the token's own
    type tag, capitalized, and id the number the token carries. *)
Theorem resolve_mentions_not_found (m : id_map) pre ty ds ov post :
  Mention.is_token ty ds ov = true →
  Mention.unmatched pre (Mention.token ty ds ov +:+ post) = true →
  m !! (inl (Str.int ds) : key) = None →
  resolve_mentions (Some (pre +:+ Mention.token ty ds ov +:+ post)) m
  = pre +:+ ("[" +:+ Str.capitalize ty +:+ " Not Found: "
                 +:+ Str.of_int (Str.int ds) +:+ "]")
        +:+ resolve_mentions (Some post) m.
Proof.
  intros Htok Hpre Hm.
  rewrite !resolve_mentions_sub, sub_first_token by done.
  unfold replace_func at 1. by rewrite Hm.
Qed.

(** Scenario B of the specification, through C2, and a token with an
    override. *)
Lemma resolve_mentions_not_found_scenario_B :
  resolve_mentions (Some "See [race:99]") scenario_index
  = "See [Race Not Found: 99]"
  ∧ resolve_mentions (Some "See [race:99|Elves]!") scenario_index
    = "See [Race Not Found: 99]!".
Proof.
  split.
  - exact (resolve_mentions_not_found scenario_index "See " "race" "99" None ""
             eq_refl eq_refl eq_refl).
  - exact (resolve_mentions_not_found scenario_index "See " "race" "99"
             (Some "Elves") "!" eq_refl eq_refl eq_refl).
Defined.

(** ** The pattern as an automaton *)

Section Automaton.

Import Mention.

Lemma accepts_override s :
  accepts InOverride s
  = match snd (Str.span not_close s) with String "]"%char _ => true | _ => false end.
Proof.
  induction s as [|c s IH]; [done|]. simpl. unfold not_close at 1.
  destruct (Ascii.eqb_spec c "]"%char) as [->|Hc]; [done|]. simpl.
  rewrite IH. by destruct (Str.span not_close s).
Qed.

Lemma accepts_id s :
  accepts InId s
  = match snd (Str.span Chars.is_digit s) with
    | String "]"%char _ => true
    | String "|"%char s5 => accepts InOverride s5
    | _ => false
    end.
Proof.
  induction s as [|c s IH]; [done|]. simpl.
  destruct (Chars.is_digit c) eqn:Hd.
  { rewrite IH. by destruct (Str.span Chars.is_digit s). }
  simpl.
  destruct (Ascii.eqb_spec c "]"%char) as [->|Hc]; [done|].
  destruct (Ascii.eqb_spec c "|"%char) as [->|Hc']; [done|].
  revert Hc Hc'. by destruct c as [[] [] [] [] [] [] [] []].
Qed.

Lemma accepts_type s :
  accepts InType s
  = match snd (Str.span Chars.is_alpha s) with
    | String ":"%char s3 => accepts AfterColon s3
    | _ => false
    end.
Proof.
  induction s as [|c s IH]; [done|]. simpl.
  destruct (Chars.is_alpha c) eqn:Hd.
  { rewrite IH. by destruct (Str.span Chars.is_alpha s). }
  simpl.
  destruct (Ascii.eqb_spec c ":"%char) as [->|Hc]; [done|].
  revert Hc. by destruct c as [[] [] [] [] [] [] [] []].
Qed.

Lemma matches_match_at s : matches s = bool_decide (is_Some (match_at s)).
Proof.
  destruct s as [|c s1]; [done|]. unfold matches, match_at.
  destruct (Ascii.eqb_spec c "["%char) as [->|Hc]; cycle 1.
  { revert Hc. by destruct c as [[] [] [] [] [] [] [] []]. }
  rewrite andb_true_l.
  destruct s1 as [|c1 s1].
  { done. }
  cbn [accepts]. rewrite accepts_type.
  cbn [Str.span]. destruct (Chars.is_alpha c1) eqn:H1; [|done].
  rewrite andb_true_l.
  destruct (Str.span Chars.is_alpha s1) as [ty s2]. cbn [snd].
  destruct s2 as [|c2 s3]; [done|].
  destruct (Ascii.eqb_spec c2 ":"%char) as [->|Hc2]; cycle 1.
  { revert Hc2. by destruct c2 as [[] [] [] [] [] [] [] []]. }
  destruct s3 as [|c3 s3]; [done|].
  cbn [accepts]. rewrite accepts_id.
  cbn [Str.span]. destruct (Chars.is_digit c3) eqn:H3; [|done].
  rewrite andb_true_l.
  destruct (Str.span Chars.is_digit s3) as [ds s4]. cbn [snd].
  destruct s4 as [|c4 s5]; [done|].
  destruct (Ascii.eqb_spec c4 "]"%char) as [->|Hc4]; [done|].
  destruct (Ascii.eqb_spec c4 "|"%char) as [->|Hc5]; cycle 1.
  { revert Hc4 Hc5. by destruct c4 as [[] [] [] [] [] [] [] []]. }
  rewrite accepts_override.
  destruct (snd (Str.span not_close s5)) as [|c6 s6]; [done|].
  destruct (Ascii.eqb_spec c6 "]"%char) as [->|Hc6]; [done|].
  revert Hc6. by destruct c6 as [[] [] [] [] [] [] [] []].
Qed.

Lemma match_at_None s : match_at s = None ↔ matches s = false.
Proof.
  rewrite matches_match_at.
  rewrite bool_decide_eq_false, <- eq_None_not_Some. done.
Qed.

End Automaton.

Section Rescan.

Import Mention.

Lemma breaks_inv c :
  breaks c = true →
  Chars.is_alpha c = false ∧ Chars.is_digit c = false ∧
  Ascii.eqb c ":"%char = false ∧ Ascii.eqb c "]"%char = false ∧
  Ascii.eqb c "|"%char = false.
Proof.
  unfold breaks, is_delimiter.
  rewrite negb_true_iff, !orb_false_iff. tauto.
Qed.

Lemma plain_cons c s :
  plain (String c s) = true →
  Ascii.eqb c "]"%char = false ∧ Ascii.eqb c "|"%char = false ∧ plain s = true.
Proof.
  unfold plain, is_delimiter. simpl.
  rewrite andb_true_iff, negb_true_iff, orb_false_iff. tauto.
Qed.

(** Before its first delimiter a token holds letters, digits and a colon:
    a plain string followed by any other character cannot be continued to
    a match. *)
Lemma accepts_plain_break u c v q :
  q ≠ InOverride → plain u = true → breaks c = true →
  accepts q (u +:+ String c v) = false.
Proof.
  intros Hq Hu Hc. revert q Hq.
  induction u as [|d u IH]; intros q Hq.
  - apply breaks_inv in Hc as (Ha & Hd & Hcol & Hcl & Hbar).
    rewrite str_nil_l. destruct q; simpl; rewrite ?Ha, ?Hd, ?Hcol, ?Hcl, ?Hbar; done.
  - apply plain_cons in Hu as (Hcl & Hbar & Hu).
    rewrite str_cons.
    destruct q; cbn [accepts]; rewrite ?Hcl, ?Hbar; [..|done];
      destruct (Chars.is_alpha d), (Chars.is_digit d),
        (Ascii.eqb d ":"%char); simpl; try done; by apply IH.
Qed.

Lemma accepts_no_close s q :
  Str.forallb not_close s = true → accepts q s = false.
Proof.
  revert q. induction s as [|c s IH]; intros q; [done|]. simpl.
  rewrite andb_true_iff. unfold not_close at 1. rewrite negb_true_iff.
  intros [Hc Hs].
  destruct q; rewrite ?Hc;
    destruct (Chars.is_alpha c), (Chars.is_digit c),
      (Ascii.eqb c ":"%char), (Ascii.eqb c "|"%char); simpl; try done;
    by apply IH.
Qed.

Lemma unmatched_app a b x :
  unmatched (a +:+ b) x = unmatched a (b +:+ x) && unmatched b x.
Proof.
  induction a as [|c a IH]; [done|].
  rewrite str_cons. simpl. rewrite !str_cons, str_assoc, IH.
  by destruct (match_at _).
Qed.

Lemma unmatched_no_open r x :
  Str.forallb (λ c, negb (Ascii.eqb c "["%char)) r = true →
  unmatched r x = true.
Proof.
  induction r as [|c r IH]; [done|]. simpl.
  rewrite andb_true_iff, negb_true_iff. intros [Hc Hr].
  assert (match_at (String c r +:+ x) = None) as ->; [|by apply IH].
  apply match_at_None. rewrite str_cons. simpl. by rewrite Hc.
Qed.

Lemma unmatched_plain_break u c v :
  plain u = true → breaks c = true → unmatched u (String c v) = true.
Proof.
  intros Hu Hc. induction u as [|d u IH]; [done|]. simpl.
  assert (match_at (String d u +:+ String c v) = None) as ->.
  { apply match_at_None. rewrite str_cons. simpl.
    apply andb_false_iff. right.
    apply plain_cons in Hu as (_ & _ & Hu).
    by apply accepts_plain_break. }
  apply plain_cons in Hu as (_ & _ & Hu). by apply IH.
Qed.

Lemma span_fst_forallb p s : Str.forallb p (fst (Str.span p s)) = true.
Proof.
  induction s as [|c s IH]; [done|]. simpl.
  destruct (p c) eqn:Hc; [|done].
  destruct (Str.span p s); simpl in *. by rewrite Hc.
Qed.

Lemma match_at_type_alpha s ty ds rest :
  match_at s = Some (ty, ds, rest) → Str.forallb Chars.is_alpha ty = true.
Proof.
  unfold match_at. intros H.
  destruct s as [|c s1]; [done|].
  destruct (Ascii.eqb_spec c "["%char) as [->|Hc]; cycle 1.
  { exfalso. revert H. by destruct c as [[] [] [] [] [] [] [] []]. }
  pose proof (span_fst_forallb Chars.is_alpha s1) as L1.
  destruct (Str.span Chars.is_alpha s1) as [ty' s2]; simpl in L1.
  destruct ty' as [|t ty']; [done|].
  destruct s2 as [|c2 s3]; [done|].
  destruct (Ascii.eqb_spec c2 ":"%char) as [->|Hc2]; cycle 1.
  { exfalso. revert H. by destruct c2 as [[] [] [] [] [] [] [] []]. }
  destruct (Str.span Chars.is_digit s3) as [ds' s4].
  destruct ds' as [|d ds']; [done|].
  destruct s4 as [|c4 s5]; [done|].
  destruct (Ascii.eqb_spec c4 "]"%char) as [->|Hc4].
  { by injection H as <- <- <-. }
  destruct (Ascii.eqb_spec c4 "|"%char) as [->|Hc5]; cycle 1.
  { exfalso. revert H. by destruct c4 as [[] [] [] [] [] [] [] []]. }
  destruct (snd (Str.span not_close s5)) as [|c6 s6]; [done|].
  destruct (Ascii.eqb_spec c6 "]"%char) as [->|Hc6]; cycle 1.
  { exfalso. revert H. by destruct c6 as [[] [] [] [] [] [] [] []]. }
  by injection H as <- <- <-.
Qed.

Variable repl : string → string → string.

(** A text without a closing bracket has no token. *)
Lemma sub_no_close s :
  Str.forallb not_close s = true → sub repl s = s.
Proof.
  induction s as [|c s IH]; [done|]. intros H.
  rewrite sub_copy.
  - simpl in H. apply andb_true_iff in H as [_ H]. by rewrite IH.
  - apply match_at_None. simpl. apply andb_false_iff. right.
    apply accepts_no_close. simpl in H. by apply andb_true_iff in H as [_ H].
Qed.

Hypothesis repl_breaks : ∀ ty ds x q,
  q ≠ InOverride → accepts q (repl ty ds +:+ x) = false.

Hypothesis repl_unmatched : ∀ ty ds x,
  Str.forallb Chars.is_alpha ty = true → unmatched (repl ty ds) x = true.

(** A partial match that the output of the scan completes was already
    completed by the input. *)
Lemma accepts_sub n : ∀ s q,
  (String.length s < n)%nat → q ≠ InOverride →
  accepts q (sub repl s) = true → accepts q s = true.
Proof.
  induction n as [|n IH]; intros s q Hn Hq; [lia|].
  destruct s as [|c s]; [by rewrite sub_nil|].
  destruct (match_at (String c s)) as [[[ty ds] rest]|] eqn:E.
  { rewrite (sub_match _ _ _ _ _ E), repl_breaks; done. }
  rewrite (sub_copy _ _ _ E). simpl in Hn.
  assert (∀ q', q' ≠ InOverride →
            accepts q' (sub repl s) = true → accepts q' s = true) as IH'.
  { intros q' Hq'. apply IH; [lia|done]. }
  destruct q; cbn [accepts]; [..|done].
  - destruct (Chars.is_alpha c); [|done]. simpl. by apply IH'.
  - destruct (Chars.is_alpha c); [by apply IH'|].
    destruct (Ascii.eqb c ":"%char); [|done]. simpl. by apply IH'.
  - destruct (Chars.is_digit c); [|done]. simpl. by apply IH'.
  - destruct (Chars.is_digit c); [by apply IH'|].
    destruct (Ascii.eqb c "]"%char); [done|].
    destruct (Ascii.eqb c "|"%char); [|done]. simpl.
    destruct (Str.forallb not_close s) eqn:Hs.
    + by rewrite sub_no_close.
    + intros _. clear -Hs. induction s as [|d s IHs]; [done|].
      simpl in *. unfold not_close at 1 in Hs.
      destruct (Ascii.eqb d "]"%char); [done|]. by apply IHs.
Qed.

(** The output of the scan holds no match. *)
Lemma sub_unmatched_nil n : ∀ s,
  (String.length s < n)%nat → unmatched (sub repl s) "" = true.
Proof.
  induction n as [|n IH]; intros s Hn; [lia|].
  destruct s as [|c s]; [by rewrite sub_nil|].
  destruct (match_at (String c s)) as [[[ty ds] rest]|] eqn:E.
  - rewrite (sub_match _ _ _ _ _ E), unmatched_app.
    apply andb_true_iff. split.
    + apply repl_unmatched. eauto using match_at_type_alpha.
    + apply IH. apply match_at_shorter in E. lia.
  - rewrite (sub_copy _ _ _ E). simpl in *.
    assert (match_at (String c (sub repl s) +:+ "") = None) as ->.
    { rewrite str_nil_r. apply match_at_None. apply match_at_None in E.
      simpl in *. destruct (Ascii.eqb c "["%char); [|done]. simpl in *.
      destruct (accepts AfterOpen (sub repl s)) eqn:A; [|done].
      rewrite <- E. symmetry. eapply (accepts_sub (S (String.length s))); [lia|done..]. }
    apply IH. lia.
Qed.

Lemma sub_idempotent s : sub repl (sub repl s) = sub repl s.
Proof.
  rewrite <- (str_nil_r (sub repl s)) at 1.
  rewrite sub_unmatched, sub_nil, str_nil_r; [done|].
  apply (sub_unmatched_nil (S (String.length s))). lia.
Qed.

End Rescan.

Section ReplaceFunc.

Import Mention.

Lemma forallb_app p s t :
  Str.forallb p (s +:+ t) = Str.forallb p s && Str.forallb p t.
Proof.
  induction s as [|c s IH]; [done|].
  rewrite str_cons. simpl. by rewrite IH, andb_assoc.
Qed.

Lemma forallb_impl (p p' : ascii → bool) s :
  (∀ c, p c = true → p' c = true) →
  Str.forallb p s = true → Str.forallb p' s = true.
Proof.
  intros Hp. induction s as [|c s IH]; [done|]. simpl.
  rewrite !andb_true_iff. intros [Hc Hs]. auto.
Qed.

Lemma forallb_map p f s :
  (∀ c, p c = true → p (f c) = true) →
  Str.forallb p s = true → Str.forallb p (Str.map f s) = true.
Proof.
  intros Hp. induction s as [|c s IH]; [done|]. simpl.
  rewrite !andb_true_iff. intros [Hc Hs]. auto.
Qed.

Lemma is_alpha_lower c :
  Chars.is_alpha c = true → Chars.is_alpha (Chars.lower c) = true.
Proof. by destruct c as [[] [] [] [] [] [] [] []]. Qed.

Lemma is_alpha_upper c :
  Chars.is_alpha c = true → Chars.is_alpha (Chars.upper_ascii c) = true.
Proof. by destruct c as [[] [] [] [] [] [] [] []]. Qed.

Lemma is_alpha_plain c :
  Chars.is_alpha c = true → negb (is_delimiter c) = true.
Proof. by destruct c as [[] [] [] [] [] [] [] []]. Qed.

Lemma is_alpha_not_open c : Chars.is_alpha c = true → not_open c = true.
Proof. by destruct c as [[] [] [] [] [] [] [] []]. Qed.

Lemma capitalize_alpha ty :
  Str.forallb Chars.is_alpha ty = true →
  Str.forallb Chars.is_alpha (Str.capitalize ty) = true.
Proof.
  destruct ty as [|c ty]; [done|]. simpl.
  rewrite !andb_true_iff. intros [Hc Hty]. split.
  - by apply is_alpha_upper.
  - apply forallb_map; auto using is_alpha_lower.
Qed.

Lemma of_uint_not_open d :
  Str.forallb not_open (NilEmpty.string_of_uint d) = true.
Proof. induction d; simpl; auto. Qed.

Lemma of_int_not_open n : Str.forallb not_open (Str.of_int n) = true.
Proof.
  unfold Str.of_int, NilZero.string_of_int, NilZero.string_of_uint.
  destruct (Z.to_int n) as [d|d]; [|simpl]; destruct d; try done;
    apply (of_uint_not_open (_ _)).
Qed.

Variable m : id_map.
Hypothesis m_plain : plain_index m.

Lemma replace_func_breaks ty ds x q :
  q ≠ InOverride → accepts q (replace_func m ty ds +:+ x) = false.
Proof.
  intros Hq. unfold replace_func.
  destruct (m !! _) as [e|] eqn:E.
  - apply m_plain in E as [Hn _]. norm_str.
    by apply accepts_plain_break.
  - norm_str. by apply (accepts_plain_break "").
Qed.

Lemma replace_func_unmatched ty ds x :
  Str.forallb Chars.is_alpha ty = true →
  unmatched (replace_func m ty ds) x = true.
Proof.
  intros Hty. unfold replace_func.
  destruct (m !! _) as [e|] eqn:E.
  - apply m_plain in E as [Hn Ht].
    rewrite !unmatched_app, !andb_true_iff.
    repeat split; norm_str; by apply unmatched_plain_break.
  - apply capitalize_alpha in Hty.
    rewrite unmatched_app, andb_true_iff. split.
    + simpl. assert (match_at ("[" +:+ _) = None) as ->; [|done].
      apply match_at_None. norm_str. simpl.
      apply accepts_plain_break; [done| |done].
      eapply forallb_impl, Hty. apply is_alpha_plain.
    + apply unmatched_no_open.
      rewrite !forallb_app, !andb_true_iff. repeat split; try done.
      * eapply forallb_impl, Hty. apply is_alpha_not_open.
      * apply of_int_not_open.
Qed.

Lemma resolve_mentions_unmatched text :
  unmatched (resolve_mentions text m) "" = true.
Proof.
  destruct text as [s|]; [|done].
  rewrite resolve_mentions_sub.
  apply (sub_unmatched_nil _ replace_func_breaks replace_func_unmatched
           (S (String.length s))). lia.
Qed.

Lemma resolve_mentions_rescan text :
  resolve_mentions (Some (resolve_mentions text m)) m = resolve_mentions text m.
Proof.
  destruct text as [s|]; [|done].
  rewrite !resolve_mentions_sub.
  apply sub_idempotent; auto using replace_func_breaks, replace_func_unmatched.
Qed.

End ReplaceFunc.

(** C4, as stated, fails: a name taken from the index may itself hold a
    token, or the pieces of one.  With the entity 5 named "[race:99]" the
    text "[character:5]" resolves to "[race:99] (Character)", which a
    second run rewrites again. *)
Lemma resolve_mentions_not_idempotent :
  let m : id_map := {[ inl 5 := Entry (VStr "[race:99]") "Character" ]} in
  let once := resolve_mentions (Some "[character:5]") m in
  once = "[race:99] (Character)"
  ∧ resolve_mentions (Some once) m = "[Race Not Found: 99] (Character)"
  ∧ resolve_mentions (Some once) m ≠ once.
Proof. vm_compute. repeat split. discriminate. Qed.

(** A name of one character is enough: the copied text "[a:1" is completed
    to a token by the name "|" and the copied "]". *)
Example resolve_mentions_not_idempotent_bar :
  let m : id_map := {[ inl 5 := Entry (VStr "|") "Character" ]} in
  let once := resolve_mentions (Some "[a:1[b:5]]") m in
  once = "[a:1| (Character)]"
  ∧ resolve_mentions (Some once) m = "[A Not Found: 1]".
Proof. vm_compute. by split. Qed.

(** C4, amended.  When no name (as rendered) and no type label of the index
    holds "]" or "|", the resolved text holds no match of the token pattern
    and resolving it again changes nothing. *)
Theorem resolve_mentions_idempotent (m : id_map) (text : option string) :
  plain_index m →
  Mention.unmatched (resolve_mentions text m) "" = true
  ∧ resolve_mentions (Some (resolve_mentions text m)) m
    = resolve_mentions text m.
Proof.
  intros Hm. split.
  - by apply resolve_mentions_unmatched.
  - by apply resolve_mentions_rescan.
Qed.

Lemma resolve_mentions_idempotent_scenario :
  resolve_mentions
    (Some (resolve_mentions (Some "See [character:5] and [race:99]")
             scenario_index)) scenario_index
  = resolve_mentions (Some "See [character:5] and [race:99]") scenario_index.
Proof.
  refine (proj2 (resolve_mentions_idempotent scenario_index _ _)).
  apply map_Forall_singleton. split; reflexivity.
Defined.

(** ** The identity index builder *)

Section IndexBuilder.

Import Index.

Lemma for_each_app {A S} (body : S → A → result S) acc l1 l2 :
  for_each body acc (l1 ++ l2)
  = (acc' ← for_each body acc l1; for_each body acc' l2).
Proof.
  revert acc. induction l1 as [|x l1 IH]; intros acc; [done|].
  simpl. destruct (body acc x); simpl; [apply IH|done].
Qed.

(** The two nested loops visit [records] in order. *)
Lemma create_id_map_records input_dir :
  create_id_map input_dir = for_each record_step (∅, []) (records input_dir).
Proof.
  unfold create_id_map, records. generalize (∅ : id_map, [] : list string).
  induction input_dir as [|[root files] dirs IH]; intros st; [done|].
  cbn [for_each]. rewrite bind_cons, for_each_app. cbn [fst snd].
  assert (∀ st,
    for_each (λ st file,
      if Str.endswith ".json" file.1 then
        match lookup_name (basename root) type_name_map with
        | Some label => index_file label st file
        | None => Ok st
        end
      else Ok st) st files
    = for_each record_step st
        (file ← files;
         if Str.endswith ".json" file.1 then
           match lookup_name (basename root) type_name_map with
           | Some label => [(label, file)]
           | None => []
           end
         else [])) as ->.
  { clear. induction files as [|file files IH]; intros st; [done|].
    cbn [for_each]. rewrite bind_cons, for_each_app.
    destruct (Str.endswith ".json" file.1); [|apply IH].
    destruct (lookup_name _ _); [|apply IH].
    cbn [for_each]. unfold record_step at 2. cbn [fst snd].
    destruct (index_file _ _ _); simpl; [apply IH|done]. }
  destruct (for_each record_step st _); simpl; [apply IH|done].
Qed.

Lemma record_step_write m w r :
  is_record (snd (snd r)) = true →
  ∃ w', record_step (m, w) r = Ok (write m r, w').
Proof.
  destruct r as [label [file content]]. unfold record_step, write. simpl.
  destruct content as [|data]; [by eauto|].
  destruct data as [| | | | |d]; try done. intros _.
  unfold index_record, registration. simpl.
  destruct (Py.assoc "id" d) as [i|], (Py.assoc "name" d) as [n|]; simpl;
    eauto.
  - destruct (Py.truthy i) eqn:Hi; simpl; [|by eauto].
    destruct (Py.truthy n); simpl; [|by eauto].
    destruct i as [|[]| | | |]; simpl in *; eauto; done.
  - destruct (Py.truthy i) eqn:Hi; simpl; by eauto.
Qed.

Lemma for_each_write rs : ∀ m w,
  Forall (λ r, is_record (snd (snd r)) = true) rs →
  ∃ w', for_each record_step (m, w) rs = Ok (foldl write m rs, w').
Proof.
  induction rs as [|r rs IH]; intros m w Hrs; [by eauto|].
  apply Forall_cons in Hrs as [Hr Hrs].
  destruct (record_step_write m w r Hr) as [w1 E].
  cbn [for_each]. rewrite E. simpl. by apply IH.
Qed.

Lemma foldl_write_other k rs : ∀ m,
  Forall (λ r, ∀ e, registration (fst r) (snd (snd r)) ≠ Some (k, e)) rs →
  foldl write m rs !! k = m !! k.
Proof.
  induction rs as [|r rs IH]; intros m Hrs; [done|].
  apply Forall_cons in Hrs as [Hr Hrs]. simpl.
  rewrite IH by done. unfold write.
  destruct (registration _ _) as [[k' e']|] eqn:E; [|done].
  apply lookup_insert_ne. intros ->. by eapply Hr.
Qed.

Lemma missing_field_skipped label file d st :
  Py.assoc "id" d = None ∨ Py.assoc "name" d = None →
  index_file label st (file, Decoded (VDict d)) = Ok st.
Proof.
  destruct st as [m w]. unfold index_file, index_record. simpl.
  intros [->| ->]; simpl; [done|].
  by rewrite andb_false_r.
Qed.

End IndexBuilder.

(** C7.  In pass 1 a record without an id or without a name is skipped
    without a warning and leaves the index as it was; and when every file
    decodes to a record or fails to decode, the pass ends without an error
    and, for each id, the index holds the name and the type label of the
    last record in traversal order that carries that id and a name. *)
Theorem create_id_map_last_write_wins (input_dir : Index.walk) :
  (∀ label file d st,
     Py.assoc "id" d = None ∨ Py.assoc "name" d = None →
     Index.index_file label st (file, Index.Decoded (VDict d)) = Ok st)
  ∧ (Forall (λ r, Index.is_record (snd (snd r)) = true)
       (Index.records input_dir) →
     ∃ m warnings,
       Index.create_id_map input_dir = Ok (m, warnings)
       ∧ ∀ before label file content after k e,
           Index.records input_dir
             = before ++ (label, (file, content)) :: after →
           Index.registration label content = Some (k, e) →
           Forall (λ r, ∀ e', Index.registration (fst r) (snd (snd r))
                                ≠ Some (k, e')) after →
           m !! k = Some e).
Proof.
  split; [apply missing_field_skipped|]. intros Hrs.
  destruct (for_each_write (Index.records input_dir) ∅ [] Hrs) as [w E].
  exists (foldl Index.write ∅ (Index.records input_dir)), w.
  split; [by rewrite create_id_map_records|].
  intros before label file content after k e -> Hreg Hafter.
  rewrite foldl_app. simpl. rewrite foldl_write_other by done.
  unfold Index.write at 1. simpl. rewrite Hreg. apply lookup_insert_eq.
Qed.

Lemma create_id_map_last_write_wins_example :
  ∃ m warnings,
    Index.create_id_map Index.example_export = Ok (m, warnings)
    ∧ m !! (inl 1 : key) = Some (Entry (VStr "Elf") "Race")
    ∧ m !! (inl 2 : key) = None.
Proof.
  destruct (proj2 (create_id_map_last_write_wins Index.example_export))
    as (m & w & E & Hlast).
  { repeat constructor. }
  exists m, w. split; [exact E|]. split.
  - apply (Hlast
      [ ("Character", ("ann.json", Index.Decoded (VDict [("id", VInt 1); ("name", VStr "Ann")])));
        ("Character", ("bea.json", Index.Decoded (VDict [("id", VInt 1); ("name", VStr "Bea")])));
        ("Character", ("nameless.json", Index.Decoded (VDict [("id", VInt 2)])));
        ("Character", ("broken.json", Index.Undecodable)) ]
      "Race" "elf.json" (Index.Decoded (VDict [("id", VInt 1); ("name", VStr "Elf")]))
      [ ("Race", ("anon.json", Index.Decoded (VDict [("id", VInt 1)]))) ]).
    + reflexivity.
    + reflexivity.
    + repeat constructor. intros e'. discriminate.
  - vm_compute in E. injection E as <- _. reflexivity.
Defined.

(** ** The consolidated writer *)

Section WriterFacts.

Import Writer.

Variable path : string → string.

#[local] Abbreviation flush := (flush path).

Lemma foldl_flush_other buffers : ∀ fs p,
  p ∉ path <$> buffers.*1 → foldl flush fs buffers !! p = fs !! p.
Proof.
  induction buffers as [|[t recs] buffers IH]; intros fs p Hp; [done|].
  rewrite !fmap_cons, not_elem_of_cons in Hp. destruct Hp as [Hne Hp].
  simpl. rewrite IH by done. unfold flush. simpl.
  destruct recs; [done|]. unfold write_file. by rewrite lookup_insert_ne.
Qed.

Lemma foldl_flush_lookup buffers : ∀ fs t recs,
  NoDup (path <$> buffers.*1) → (t, recs) ∈ buffers →
  foldl flush fs buffers !! path t
  = match recs with [] => fs !! path t | _ => Some (Str.join separator recs) end.
Proof.
  induction buffers as [|[t' recs'] buffers IH]; intros fs t recs Hnd Hin.
  { by apply elem_of_nil in Hin. }
  rewrite !fmap_cons in Hnd. apply NoDup_cons in Hnd as [Hfresh Hnd].
  apply elem_of_cons in Hin as [[= <- <-]|Hin].
  - simpl. rewrite foldl_flush_other by done. unfold flush. simpl.
    destruct recs; [done|]. unfold write_file. by rewrite lookup_insert_eq.
  - simpl. rewrite (IH _ t recs) by done. destruct recs; [|done].
    unfold flush. simpl. destruct recs'; [done|].
    unfold write_file. rewrite lookup_insert_ne; [done|].
    intros E. apply Hfresh. simpl. rewrite E.
    apply list_elem_of_fmap. exists t. split; [done|].
    apply list_elem_of_fmap. by exists (t, []).
Qed.

End WriterFacts.

Section WriterPaths.

Import Writer.

Variable output_dir : string.

#[local] Abbreviation path_prefix := (path_prefix output_dir).

Lemma output_path_prefix t :
  t ∈ folders →
  os_path_join output_dir (t +:+ ".txt") = path_prefix +:+ t +:+ ".txt".
Proof.
  unfold folders, os_path_join, path_prefix. rewrite !elem_of_cons.
  intros H. assert (String.prefix "/" (t +:+ ".txt") = false) as ->.
  { destruct H as [->|[->|[->|[->|[->|[->|[->|H]]]]]]]; try done.
    by apply elem_of_nil in H. }
  destruct (_ || _); [done|]. by rewrite str_assoc.
Qed.

Lemma output_paths_NoDup :
  NoDup ((λ t, os_path_join output_dir (t +:+ ".txt")) <$> folders).
Proof.
  assert ((λ t, os_path_join output_dir (t +:+ ".txt")) <$> folders
          = (String.app path_prefix) <$> ((λ t, t +:+ ".txt") <$> folders))
    as ->.
  { rewrite <- list_fmap_compose. apply list_fmap_ext.
    intros i t Ht. apply output_path_prefix. by eapply list_elem_of_lookup_2. }
  apply (NoDup_fmap_2 _).
  apply (bool_decide_unpack _). by vm_compute.
Qed.

Lemma write_consolidated_flush buffers fs :
  write_consolidated output_dir buffers fs
  = foldl (flush (λ t, os_path_join output_dir (t +:+ ".txt"))) fs buffers.
Proof.
  unfold write_consolidated. revert fs.
  induction buffers as [|[t recs] buffers IH]; intros fs; [done|].
  simpl. rewrite IH. by destruct recs.
Qed.

End WriterPaths.

(** The flush loop on buffers that hold the seven types. *)
Lemma write_consolidated_lookup (output_dir : string)
    (buffers : list (string * list string)) (fs : gmap string string) :
  buffers.*1 = Writer.folders →
  let out := Writer.write_consolidated output_dir buffers fs in
  let path t := Writer.os_path_join output_dir (t +:+ ".txt") in
  (∀ t recs, (t, recs) ∈ buffers →
     out !! path t
     = match recs with
       | [] => fs !! path t
       | _ => Some (Str.join Writer.separator recs)
       end)
  ∧ (∀ p, (∀ t, t ∈ Writer.folders → p ≠ path t) → out !! p = fs !! p).
Proof.
  intros Hkeys out path. subst out.
  rewrite write_consolidated_flush. fold path. split.
  - intros t recs Hin. apply foldl_flush_lookup; [|done].
    rewrite Hkeys. apply output_paths_NoDup.
  - intros p Hp. apply foldl_flush_other. rewrite Hkeys.
    intros (t & -> & Ht)%list_elem_of_fmap. by eapply Hp.
Qed.

Section Pass2Facts.

Variable BeautifulSoup : value → result (list Soup.node).
Variable m : id_map.

Lemma buffer_append_keys folder_name content buffers :
  (buffer_append folder_name content buffers).*1 = buffers.*1.
Proof.
  unfold buffer_append. rewrite <- list_fmap_compose.
  apply list_fmap_ext. intros i [k l] _. simpl. by destruct (String.eqb k _).
Qed.

Lemma process_file_keys root st file st' :
  process_file BeautifulSoup root m st file = Ok st' → st'.1.*1 = st.1.*1.
Proof.
  destruct st as [buffers warnings], file as [filename payload].
  unfold process_file.
  destruct (negb (Str.endswith _ _)); [by intros [= <-]|].
  destruct (negb (bool_decide _)); [by intros [= <-]|].
  destruct payload as [|data]; [by intros [= <-]|].
  destruct (format_entity _ _ _ _) as [[content|]|[]]; try done;
    try by intros [= <-].
  destruct (negb (String.eqb content "")); intros [= <-]; [|done].
  apply buffer_append_keys.
Qed.

Lemma for_each_keys {A} (body : _ → A → _) l :
  (∀ st x st', body st x = Ok st' → st'.1.*1 = st.1.*1) →
  ∀ (st st' : list (string * list string) * list string),
    for_each body st l = Ok st' → st'.1.*1 = st.1.*1.
Proof.
  intros Hbody. induction l as [|x l IH]; intros st st'.
  { by intros [= <-]. }
  simpl. destruct (body st x) as [st1|] eqn:E; [|done]. simpl.
  intros ->%IH. by eapply Hbody.
Qed.

(** The buffers keep the keys they are created with. *)
Lemma fill_buffers_keys input_dir buffers warnings :
  fill_buffers BeautifulSoup input_dir m = Ok (buffers, warnings) →
  buffers.*1 = Writer.folders.
Proof.
  unfold fill_buffers. intros H.
  apply (for_each_keys _ input_dir) in H; [exact H|].
  intros st dir st'. apply for_each_keys. intros st1 file st2.
  apply process_file_keys.
Qed.

End Pass2Facts.

(** C8.  When the first loop of pass 2 ends with its buffers filled, the
    flush cannot fail.  The buffers hold the seven types; a type with at
    least one record gets one file, [<type>.txt] in the output directory,
    holding its records in accumulation order joined by the separator
    (three newlines, eighty "=" and three newlines, between records only);
    a type with no record leaves its path as it was, and no other path is
    touched. *)
Theorem generate_text_files_consolidates
    (BeautifulSoup : value → result (list Soup.node))
    (input_dir : Index.walk) (output_dir : string) (m : id_map)
    (fs : gmap string string)
    (buffers : list (string * list string)) (warnings : list string) :
  fill_buffers BeautifulSoup input_dir m = Ok (buffers, warnings) →
  let path t := Writer.os_path_join output_dir (t +:+ ".txt") in
  ∃ out,
    generate_text_files BeautifulSoup input_dir output_dir m fs
    = Ok (out, warnings)
    ∧ buffers.*1 = Writer.folders
    ∧ (∀ t recs, (t, recs) ∈ buffers →
         out !! path t
         = match recs with
           | [] => fs !! path t
           | _ => Some (Str.join Writer.separator recs)
           end)
    ∧ (∀ p, (∀ t, t ∈ Writer.folders → p ≠ path t) → out !! p = fs !! p)
    ∧ Writer.separator = "


================================================================================


"
    ∧ (∀ r, Str.join Writer.separator [r] = r)
    ∧ (∀ r r' rs, Str.join Writer.separator (r :: r' :: rs)
                  = r +:+ Writer.separator
                      +:+ Str.join Writer.separator (r' :: rs)).
Proof.
  intros Hfill path.
  exists (Writer.write_consolidated output_dir buffers fs).
  pose proof (fill_buffers_keys _ _ _ _ _ Hfill) as Hkeys.
  destruct (write_consolidated_lookup output_dir buffers fs Hkeys)
    as [Hfiles Hothers].
  split; [unfold generate_text_files; by rewrite Hfill|].
  repeat split; done.
Qed.

Lemma generate_text_files_consolidates_example :
  ∃ out warnings,
    generate_text_files plain_markup Index.example_export "out"
      scenario_index ∅ = Ok (out, warnings)
    ∧ out !! "out/families.txt" = None
    ∧ ∃ ann bea unnamed,
        out !! "out/characters.txt"
        = Some (ann +:+ Writer.separator +:+ bea +:+ Writer.separator
                    +:+ unnamed).
Proof.
  eassert (fill_buffers plain_markup Index.example_export scenario_index
           = Ok (_, _)) as Hfill.
  { vm_compute. reflexivity. }
  destruct (generate_text_files_consolidates plain_markup
              Index.example_export "out" scenario_index ∅ _ _ Hfill)
    as (out & Hgen & Hkeys & Hfiles & _).
  eexists out, _. split; [exact Hgen|]. split.
  - apply (Hfiles "families" []).
    do 1 apply list_elem_of_further. apply list_elem_of_here.
  - eexists _, _, _. apply (Hfiles "characters" [_; _; _]).
    apply list_elem_of_here.
Defined.

(** ** The document tree *)

Section SoupFacts.

Import Soup.

(** Induction on a document: the contents of a tag satisfy the property. *)
Lemma node_nested_ind (P : node → Prop) :
  (∀ s, P (Text s)) →
  (∀ s, P (Special s)) →
  (∀ name attrs contents, Forall P contents → P (Tag name attrs contents)) →
  ∀ n, P n.
Proof.
  intros HText HSpecial HTag. fix IH 1.
  intros [s|s|name attrs contents]; [apply HText|apply HSpecial|].
  apply HTag. induction contents as [|k ks IHks]; constructor.
  - apply IH.
  - apply IHks.
Qed.

Variable want : string → list (string * string) → bool.

Lemma find_all_in_Tag here name attrs contents :
  find_all_in want here (Tag name attrs contents)
  = (if want name attrs then [(here, Tag name attrs contents)] else [])
    ++ find_all_from want here 0 contents.
Proof.
  simpl. f_equal. generalize 0%nat.
  induction contents as [|k ks IH]; intros i; [done|].
  simpl. by rewrite IH.
Qed.

Lemma find_all_from_lookup ks : ∀ here i j n,
  ks !! j = Some n →
  (∀ here', find_all_in want here' n ≠ []) →
  find_all_from want here i ks ≠ [].
Proof.
  induction ks as [|k ks IH]; intros here i j n Hj Hn; [done|].
  simpl. destruct j as [|j].
  - injection Hj as ->. intros [E _]%app_eq_nil. by eapply Hn.
  - intros [_ E]%app_eq_nil. by eapply (IH here (S i) j n).
Qed.

(** A tag that [want]s accepts, anywhere in the document, is found. *)
Lemma find_all_from_node_at p : ∀ doc here i name attrs contents,
  node_at doc p = Some (Tag name attrs contents) →
  want name attrs = true →
  find_all_from want here i doc ≠ [].
Proof.
  induction p as [|j p IH]; intros doc here i name attrs contents Hp Hw;
    [done|].
  simpl in Hp. destruct (doc !! j) as [n|] eqn:Hj; [|done].
  apply (find_all_from_lookup doc here i j n Hj). intros here'.
  destruct p as [|j' p].
  - injection Hp as ->. rewrite find_all_in_Tag, Hw. done.
  - destruct n as [| |name' attrs' contents']; [done..|].
    rewrite find_all_in_Tag. intros [_ E]%app_eq_nil. revert E.
    by eapply IH.
Qed.

Lemma prune_in_Tag removed here name attrs contents :
  prune_in removed here (Tag name attrs contents)
  = Tag name attrs (prune_from removed here 0 contents).
Proof.
  simpl. f_equal. generalize 0%nat.
  induction contents as [|k ks IH]; intros i; [done|].
  simpl. by rewrite IH.
Qed.

(** Nothing removed, nothing changed. *)
Lemma prune_in_nil n : ∀ here, prune_in [] here n = n.
Proof.
  induction n as [s|s|name attrs contents IH] using node_nested_ind;
    intros here; [done..|].
  rewrite prune_in_Tag. f_equal. generalize 0%nat.
  induction IH as [|k ks Hk _ IHks]; intros i; [done|].
  simpl. by rewrite Hk, IHks.
Qed.

Lemma prune_nil doc : prune [] doc = doc.
Proof.
  unfold prune. generalize 0%nat.
  induction doc as [|k ks IH]; intros i; [done|].
  simpl. by rewrite prune_in_nil, IH.
Qed.

Lemma concat_nil_sep_empty (l : list string) :
  String.concat "" l = "" ↔ Forall (λ s, s = "") l.
Proof.
  induction l as [|s l IH]; [by split|]. simpl.
  destruct l as [|s' l].
  - split; [by intros ->; constructor|]. by intros [-> _]%Forall_cons.
  - rewrite str_nil_l. split.
    + intros E. destruct s; [|done]. rewrite str_nil_l in E.
      constructor; [done|]. by apply IH.
    + intros [-> H]%Forall_cons. rewrite str_nil_l. by apply IH.
Qed.

Lemma get_text_empty n : get_text n = "" ↔ has_text n = false.
Proof.
  induction n as [s|s|name attrs contents IH] using node_nested_ind.
  - simpl. rewrite negb_false_iff. by rewrite String.eqb_eq.
  - done.
  - simpl. rewrite concat_nil_sep_empty, Forall_fmap.
    induction IH as [|k ks Hk _ IHks]; [done|].
    simpl. rewrite Forall_cons, orb_false_iff, <- IHks. by rewrite <- Hk.
Qed.

Lemma get_text_all_empty doc :
  get_text_all doc = "" ↔ existsb has_text doc = false.
Proof.
  unfold get_text_all. rewrite concat_nil_sep_empty, Forall_fmap.
  induction doc as [|k ks IH]; [done|].
  simpl. by rewrite Forall_cons, orb_false_iff, <- IH, <- get_text_empty.
Qed.

End SoupFacts.

(** ** The markup normalizer *)

Section Normalizer.

Import Soup.

Lemma find_parent_unrecognized doc l :
  find_all is_recognized doc = [] → find_parent doc "p" l = None.
Proof.
  intros Hdoc. unfold find_parent. generalize (length l - 1)%nat as k.
  induction k as [|k IH]; [done|]. simpl.
  destruct (node_at doc (take (S k) l)) as [[| |name attrs contents]|] eqn:E;
    try done.
  unfold has_name. destruct (String.eqb_spec "p" name) as [<-|]; [|done].
  exfalso. revert Hdoc.
  by eapply (find_all_from_node_at is_recognized _ doc [] 0%nat).
Qed.

Lemma remove_instructional_unrecognized doc :
  find_all is_recognized doc = [] → remove_instructional doc = Ok [].
Proof.
  intros Hdoc. unfold remove_instructional.
  induction (find_all is_link doc) as [|[l a] links IH]; [done|].
  simpl. destruct (instructional a); [|done].
  by rewrite find_parent_unrecognized.
Qed.

Lemma to_text_unrecognized doc :
  find_all is_recognized doc = [] → to_text doc = get_text_all doc.
Proof. unfold to_text. by intros ->. Qed.

End Normalizer.

(** C3, as stated, fails: a markup that is not empty may hold no text.
    For "<br>" the parser builds a single empty [br] element; no recognized
    construct is found and the fallback returns the empty string. *)
Lemma clean_html_fallback_empty :
  let doc := [Soup.Tag "br" [] []] in
  let BeautifulSoup := λ _ : value, Ok doc in
  "<br>" ≠ ""
  ∧ Soup.find_all is_recognized doc = []
  ∧ clean_html BeautifulSoup (VStr "<br>") = Ok "".
Proof. repeat split. discriminate. Qed.

(** C3, amended.  An absent or empty markup gives the empty string.  A
    non-empty markup whose document holds no recognized construct gives the
    text of the document with the markup stripped, which is not empty
    exactly when some text string of the document is not empty. *)
Theorem clean_html_fallback
    (BeautifulSoup : value → result (list Soup.node))
    (s : string) (doc : list Soup.node) :
  clean_html BeautifulSoup VNull = Ok ""
  ∧ clean_html BeautifulSoup (VStr "") = Ok ""
  ∧ (s ≠ "" →
     BeautifulSoup (VStr s) = Ok doc →
     Soup.find_all is_recognized doc = [] →
     clean_html BeautifulSoup (VStr s) = Ok (Soup.get_text_all doc)
     ∧ (Soup.get_text_all doc ≠ "" ↔ existsb Soup.has_text doc = true)).
Proof.
  split; [done|]. split; [done|]. intros Hs Hdoc Hnone. split.
  - unfold clean_html. simpl.
    destruct (String.eqb_spec s "") as [->|_]; [done|]. simpl.
    rewrite Hdoc. simpl.
    rewrite remove_instructional_unrecognized by done. simpl.
    by rewrite prune_nil, to_text_unrecognized.
  - rewrite get_text_all_empty. by destruct (existsb _ _).
Qed.

Lemma clean_html_fallback_example :
  let doc := [Soup.Tag "div" [] [Soup.Text "Plain "; Soup.Tag "span" [] [Soup.Text "text"]]] in
  clean_html (λ _, Ok doc) (VStr "<div>Plain <span>text</span></div>")
  = Ok "Plain text".
Proof.
  intros doc.
  exact (proj1 (proj2 (proj2 (clean_html_fallback (λ _, Ok doc)
    "<div>Plain <span>text</span></div>" doc))
    ltac:(discriminate) eq_refl eq_refl)).
Defined.

Section Removal.

Import Soup.

Lemma find_parent_upto_nearest doc name l k p :
  find_parent_upto doc name l k = Some p →
  ∃ j, (0 < j ≤ k)%nat ∧ p = take j l
       ∧ has_name name (node_at doc p) = true
       ∧ ∀ j', (j < j' ≤ k)%nat →
               has_name name (node_at doc (take j' l)) = false.
Proof.
  induction k as [|k IH]; [done|]. simpl.
  destruct (has_name name (node_at doc (take (S k) l))) eqn:E.
  - intros [= <-]. exists (S k). repeat split; [lia..|done|]. intros j'. lia.
  - intros (j & Hj & -> & Hp & Hnear)%IH. exists j.
    repeat split; [lia..|done|].
    intros j' Hj'. destruct (decide (j' = S k)) as [->|]; [done|].
    apply Hnear. lia.
Qed.

(** [find_parent] answers with the nearest proper ancestor of that name. *)
Lemma find_parent_nearest doc name l p :
  find_parent doc name l = Some p →
  p `prefix_of` l ∧ p ≠ [] ∧ (length p < length l)%nat
  ∧ has_name name (node_at doc p) = true
  ∧ ∀ q, p `prefix_of` q → q `prefix_of` l →
         (length p < length q < length l)%nat →
         has_name name (node_at doc q) = false.
Proof.
  unfold find_parent.
  intros (j & Hj & -> & Hp & Hnear)%find_parent_upto_nearest.
  assert (length (take j l) = j) as Hlen by (rewrite length_take; lia).
  repeat split; [apply prefix_take| |lia|done|].
  - intros E. rewrite E in Hlen. simpl in Hlen. lia.
  - intros q _ [r ->] Hq. rewrite Hlen, length_app in Hq.
    specialize (Hnear (length q)). rewrite take_app_length in Hnear.
    apply Hnear. rewrite length_app. lia.
Qed.

(** Without an exception the loop decomposes the paragraphs of the
    instructional links, in the order of the links. *)
Lemma remove_loop_omap doc links : ∀ acc removed,
  for_each (remove_step doc) acc links = Ok removed →
  removed
  = acc ++ omap (λ link : path * node,
                   if instructional link.2 then find_parent doc "p" link.1
                   else None) links.
Proof.
  induction links as [|[l a] links IH]; intros acc removed.
  { simpl. rewrite app_nil_r. by intros [= ->]. }
  simpl. destruct (decomposed acc l); [done|].
  destruct (instructional a); [|by apply IH].
  destruct (find_parent doc "p" l) as [p|]; [|by apply IH].
  intros ->%IH. by rewrite <- app_assoc.
Qed.

Lemma remove_instructional_omap doc removed :
  remove_instructional doc = Ok removed →
  removed
  = omap (λ link : path * node,
            if instructional link.2 then find_parent doc "p" link.1 else None)
      (find_all is_link doc).
Proof. apply remove_loop_omap. Qed.

Lemma instructional_inv a :
  instructional a = true ↔
  ∃ name attrs contents href,
    a = Tag name attrs contents ∧ attr "href" attrs = Some href
    ∧ Str.contains "app.kanka.io" href = true
    ∧ Str.contains "click here" (Str.lower (get_text a)) = true.
Proof.
  split.
  - destruct a as [| |name attrs contents]; try done. unfold instructional.
    destruct (attr "href" attrs) as [href|] eqn:E; [|done].
    intros [? ?]%andb_true_iff. by exists name, attrs, contents, href.
  - intros (name & attrs & contents & href & -> & E & H1 & H2).
    unfold instructional. by rewrite E, H1, H2.
Qed.

End Removal.

(** C5, as stated, fails: the paragraph of an instructional link is removed
    whatever else the paragraph holds.  In [boilerplate_doc] the link sits
    inside a sentence; the first paragraph is removed with its text and only
    "Body" is left. *)
Lemma clean_html_removes_mixed_paragraph :
  ∃ paragraph,
    Soup.node_at boilerplate_doc [0%nat] = Some paragraph
    ∧ sole_instructional_link paragraph = false
    ∧ remove_instructional boilerplate_doc = Ok [[0%nat]]
    ∧ clean_html (λ _, Ok boilerplate_doc)
        (VStr "<p>Intro <a href='https://app.kanka.io/help'>Click HERE</a> for more.</p><p>Body</p>")
      = Ok "Body".
Proof. eexists. repeat split. Qed.

(** The second link of a removed paragraph is read after the paragraph was
    destroyed: the normalizer raises. *)
Example clean_html_two_links :
  clean_html (λ _, Ok two_links_doc) (VStr "<p>...</p>") = Raise TypeError.
Proof. reflexivity. Qed.

(** C5, amended.  When the first loop of the normalizer ends without an
    exception, a paragraph is removed, with all it contains, when and only
    when it is the nearest enclosing paragraph of a hyperlink whose target
    contains the platform's domain and whose visible text contains "click
    here" case-insensitively, whatever else the paragraph contains; the
    text is rendered from the document without these paragraphs. *)
Theorem clean_html_removes_paragraphs
    (BeautifulSoup : value → result (list Soup.node))
    (html_content : value) (doc : list Soup.node)
    (removed : list Soup.path) :
  Py.truthy html_content = true →
  BeautifulSoup html_content = Ok doc →
  remove_instructional doc = Ok removed →
  clean_html BeautifulSoup html_content
  = Ok (to_text (Soup.prune removed doc))
  ∧ ∀ p, p ∈ removed ↔
      ∃ l name attrs contents href,
        (l, Soup.Tag name attrs contents) ∈ Soup.find_all is_link doc
        ∧ Soup.attr "href" attrs = Some href
        ∧ Str.contains "app.kanka.io" href = true
        ∧ Str.contains "click here"
            (Str.lower (Soup.get_text (Soup.Tag name attrs contents))) = true
        ∧ Soup.find_parent doc "p" l = Some p.
Proof.
  intros Hv Hdoc Hrem. split.
  { unfold clean_html. by rewrite Hv, Hdoc; simpl; rewrite Hrem. }
  intros p. rewrite (remove_instructional_omap doc removed Hrem).
  rewrite list_elem_of_omap. split.
  - intros ([l a] & Hin & Hp). simpl in Hp.
    destruct (instructional a) eqn:Ha; [|done].
    apply instructional_inv in Ha
      as (name & attrs & contents & href & -> & ? & ? & ?).
    by exists l, name, attrs, contents, href.
  - intros (l & name & attrs & contents & href & Hin & E & H1 & H2 & Hp).
    exists (l, Soup.Tag name attrs contents). split; [done|].
    cbn [fst snd].
    assert (instructional (Soup.Tag name attrs contents) = true) as ->; [|done].
    apply instructional_inv. by exists name, attrs, contents, href.
Qed.

Lemma clean_html_removes_paragraphs_example :
  clean_html (λ _, Ok boilerplate_doc) (VStr "<p>...</p>") = Ok "Body"
  ∧ ([0%nat] : Soup.path) ∈ [[0%nat]].
Proof.
  pose proof (clean_html_removes_paragraphs (λ _, Ok boilerplate_doc)
                (VStr "<p>...</p>") boilerplate_doc [[0%nat]]
                eq_refl eq_refl eq_refl) as [Hclean Hremoved].
  split; [exact Hclean|].
  apply Hremoved.
  exists [0%nat; 1%nat], "a", [("href", "https://app.kanka.io/help")],
    [Soup.Text "Click HERE"], "https://app.kanka.io/help".
  split; [|done]. vm_compute. apply list_elem_of_here.
Defined.

(** ** The entity formatters *)

Example format_character_example :
  format_character plain_markup (VDict example_character) example_index
  = Ok "[Basic Information]
Name: Ann
Sex: F
Race: Elf
Family: Unknown

---
[Primary Description]

A ranger.".
Proof. vm_compute. reflexivity. Qed.

Example format_organisation_example :
  format_organisation plain_markup (VDict example_organisation) example_index
  = Ok "[Basic Information]
Name: Guild
Type: Trade
Status: Defunct

---
[Primary Description]

Merchants.

---
[Members Roster]

- Role: Master
  - Member: Elf (Race)

- Role: Member
  - Member: [Character Not Found: 77]".
Proof. vm_compute. reflexivity. Qed.

(** A key that is not one of the listed keys. *)
Ltac other_key :=
  solve [ rewrite ?not_elem_of_cons; repeat split;
          first [ discriminate | apply not_elem_of_nil ] ].

Section Formatters.

Variable BeautifulSoup : value → result (list Soup.node).
Variable m : id_map.

Lemma get_same_except keys d d' k :
  Py.same_except keys d d' → k ∉ keys →
  Py.get (VDict d') k = Py.get (VDict d) k.
Proof. intros H Hk. unfold Py.get. simpl. by rewrite (H k Hk). Qed.

Lemma get_default_same_except keys d d' k dflt :
  Py.same_except keys d d' → k ∉ keys →
  Py.get_default (VDict d') k dflt = Py.get_default (VDict d) k dflt.
Proof. intros H Hk. simpl. by rewrite (H k Hk). Qed.

Lemma item_same_except keys d d' k :
  Py.same_except keys d d' → k ∉ keys →
  Py.item (VDict d') k = Py.item (VDict d) k.
Proof. intros H Hk. simpl. by rewrite (H k Hk). Qed.

Lemma format_posts_same_except keys d d' heading parts :
  Py.same_except keys d d' → "entity" ∉ keys →
  format_posts BeautifulSoup heading (VDict d') parts
  = format_posts BeautifulSoup heading (VDict d) parts.
Proof.
  intros H Hk. unfold format_posts.
  by rewrite (get_default_same_except keys d d'),
    (item_same_except keys d d').
Qed.

(** The relation line when the first link is well formed. *)
Lemma character_relation_first d field key label link links linked_id k parts :
  Py.assoc field d = Some (VList (link :: links)) →
  Py.item link key = Ok linked_id →
  Index.key_of linked_id = Ok k →
  character_relation (VDict d) field key label m parts
  = Ok (parts ++ [label +:+ ": " +:+ name_or_unknown (k ≫= λ k, m !! k)]).
Proof.
  intros Hd Hlink Hk. unfold character_relation, first_link, Index.get.
  simpl. rewrite Hd. simpl. rewrite Hlink. simpl. by rewrite Hk.
Qed.

Lemma format_character_relations d race races family families
    race_id family_id kr kf :
  Py.assoc "character_races" d = Some (VList (race :: races)) →
  Py.item race "race_id" = Ok race_id →
  Index.key_of race_id = Ok kr →
  Py.assoc "character_families" d = Some (VList (family :: families)) →
  Py.item family "family_id" = Ok family_id →
  Index.key_of family_id = Ok kf →
  format_character BeautifulSoup (VDict d) m
  = (basics ← character_basics (VDict d);
     entry ← Py.get (VDict d) "entry";
     parts ← description BeautifulSoup entry
               (basics ++ [ "Race: " +:+ name_or_unknown (kr ≫= λ k, m !! k);
                            "Family: " +:+ name_or_unknown (kf ≫= λ k, m !! k) ]);
     parts ← format_posts BeautifulSoup "Notes" (VDict d) parts;
     Ok (Str.join Str.nl parts)).
Proof.
  intros Hr Hrid Hkr Hf Hfid Hkf. unfold format_character.
  destruct (character_basics (VDict d)) as [basics|e]; [|done].
  cbn [mbind result_bind].
  rewrite (character_relation_first d _ _ _ race races race_id kr) by done.
  cbn [mbind result_bind].
  rewrite (character_relation_first d _ _ _ family families family_id kf)
    by done.
  cbn [mbind result_bind]. by rewrite <- app_assoc.
Qed.

Lemma character_basics_same_except keys d d' :
  Py.same_except keys d d' →
  "name" ∉ keys → "title" ∉ keys → "type" ∉ keys → "sex" ∉ keys →
  character_basics (VDict d') = character_basics (VDict d).
Proof.
  intros H ? ? ? ?. unfold character_basics.
  by rewrite (get_default_same_except keys d d'),
    !(get_same_except keys d d').
Qed.

Lemma organisation_basics_same_except keys d d' :
  Py.same_except keys d d' →
  "name" ∉ keys → "entity" ∉ keys → "is_defunct" ∉ keys →
  organisation_basics (VDict d') = organisation_basics (VDict d).
Proof.
  intros H ? ? ?. unfold organisation_basics.
  by rewrite !(get_default_same_except keys d d'),
    !(get_same_except keys d d').
Qed.

Lemma organisation_members_same_except keys d d' parts :
  Py.same_except keys d d' → "members" ∉ keys →
  organisation_members (VDict d') m parts
  = organisation_members (VDict d) m parts.
Proof.
  intros H ?. unfold organisation_members.
  by rewrite (get_same_except keys d d'), (item_same_except keys d d').
Qed.

End Formatters.

(** C6.  For a character with one or more linked races and one or more
    linked families, the record holds one Race line and one Family line,
    made from the first linked race id and the first linked family id: the
    name the index gives for the id, or "Unknown" when the id is not in the
    index.  The links after the first do not reach the record: a character
    that differs only in them is rendered the same. *)
Theorem format_character_first_wins
    (BeautifulSoup : value → result (list Soup.node)) (m : id_map)
    d race races family families race_id family_id kr kf :
  Py.assoc "character_races" d = Some (VList (race :: races)) →
  Py.item race "race_id" = Ok race_id →
  Index.key_of race_id = Ok kr →
  Py.assoc "character_families" d = Some (VList (family :: families)) →
  Py.item family "family_id" = Ok family_id →
  Index.key_of family_id = Ok kf →
  let relation (k : option key) :=
    match k ≫= (λ k, m !! k) with
    | Some e => Py.str (entry_name e)
    | None => "Unknown"
    end in
  format_character BeautifulSoup (VDict d) m
  = (basics ← character_basics (VDict d);
     entry ← Py.get (VDict d) "entry";
     parts ← description BeautifulSoup entry
               (basics ++ [ "Race: " +:+ relation kr;
                            "Family: " +:+ relation kf ]);
     parts ← format_posts BeautifulSoup "Notes" (VDict d) parts;
     Ok (Str.join Str.nl parts))
  ∧ ∀ d' races' families',
      Py.same_except ["character_races"; "character_families"] d d' →
      Py.assoc "character_races" d' = Some (VList (race :: races')) →
      Py.assoc "character_families" d' = Some (VList (family :: families')) →
      format_character BeautifulSoup (VDict d') m
      = format_character BeautifulSoup (VDict d) m.
Proof.
  intros Hr Hrid Hkr Hf Hfid Hkf relation.
  split.
  { by apply (format_character_relations _ _ d race races family families
                race_id family_id). }
  intros d' races' families' Hsame Hr' Hf'.
  rewrite (format_character_relations _ _ d race races family families
             race_id family_id kr kf) by done.
  rewrite (format_character_relations _ _ d' race races' family families'
             race_id family_id kr kf) by done.
  rewrite (character_basics_same_except _ d d' Hsame),
    (get_same_except _ d d' "entry" Hsame) by other_key.
  destruct (character_basics (VDict d)) as [basics|]; [|done].
  cbn [mbind result_bind].
  destruct (Py.get (VDict d) "entry") as [entry|]; [|done].
  cbn [mbind result_bind].
  destruct (description _ _ _) as [parts|]; [|done].
  cbn [mbind result_bind].
  by rewrite (format_posts_same_except _ _ d d' "Notes" parts Hsame)
    by other_key.
Qed.

Lemma format_character_first_wins_example :
  format_character plain_markup (VDict example_character) example_index
  = (basics ← character_basics (VDict example_character);
     entry ← Py.get (VDict example_character) "entry";
     parts ← description plain_markup entry
               (basics ++ ["Race: Elf"; "Family: Unknown"]);
     parts ← format_posts plain_markup "Notes" (VDict example_character) parts;
     Ok (Str.join Str.nl parts)).
Proof.
  exact (proj1 (format_character_first_wins plain_markup example_index
    example_character
    (VDict [("race_id", VInt 10)]) [VDict [("race_id", VInt 11)]]
    (VDict [("family_id", VInt 20)]) [VDict [("family_id", VInt 21)]]
    (VInt 10) (VInt 20) (Some (inl 10)) (Some (inl 20))
    eq_refl eq_refl eq_refl eq_refl eq_refl eq_refl)).
Defined.

(** C10.  For an organisation whose first linked location id is not in the
    index, the record has no Location section, and no "Unknown" line in its
    place: it is the record of the same organisation without linked
    locations. *)
Theorem format_organisation_unknown_location
    (BeautifulSoup : value → result (list Soup.node)) (m : id_map)
    d location locations location_id k :
  Py.assoc "pivotLocations" d = Some (VList (location :: locations)) →
  Py.item location "location_id" = Ok location_id →
  Index.key_of location_id = Ok k →
  k ≫= (λ k, m !! k) = None →
  format_organisation BeautifulSoup (VDict d) m
  = (basics ← organisation_basics (VDict d);
     entity ← Py.get_default (VDict d) "entity" (VDict []);
     entry ← Py.get entity "entry";
     parts ← description BeautifulSoup entry basics;
     parts ← organisation_members (VDict d) m parts;
     Ok (Str.join Str.nl parts))
  ∧ ∀ d',
      Py.same_except ["pivotLocations"] d d' →
      Py.truthy (default VNull (Py.assoc "pivotLocations" d')) = false →
      format_organisation BeautifulSoup (VDict d') m
      = format_organisation BeautifulSoup (VDict d) m.
Proof.
  intros Hd Hloc Hk Hm.
  assert (∀ parts, organisation_location (VDict d) m parts = Ok parts) as Hnone.
  { intros parts. unfold organisation_location, first_link, Index.get.
    simpl. rewrite Hd. simpl. rewrite Hloc. simpl. rewrite Hk. simpl.
    by rewrite Hm. }
  assert (format_organisation BeautifulSoup (VDict d) m
          = (basics ← organisation_basics (VDict d);
             entity ← Py.get_default (VDict d) "entity" (VDict []);
             entry ← Py.get entity "entry";
             parts ← description BeautifulSoup entry basics;
             parts ← organisation_members (VDict d) m parts;
             Ok (Str.join Str.nl parts))) as Hd_eq.
  { unfold format_organisation.
    destruct (organisation_basics (VDict d)) as [basics|]; [|done].
    cbn [mbind result_bind]. by rewrite Hnone. }
  split; [exact Hd_eq|].
  intros d' Hsame Hfalsy. rewrite Hd_eq. unfold format_organisation.
  rewrite (organisation_basics_same_except _ d d' Hsame),
    (get_default_same_except _ d d' "entity" _ Hsame) by other_key.
  destruct (organisation_basics (VDict d)) as [basics|]; [|done].
  cbn [mbind result_bind].
  assert (organisation_location (VDict d') m basics = Ok basics) as ->.
  { unfold organisation_location. simpl. by rewrite Hfalsy. }
  cbn [mbind result_bind].
  destruct (Py.get_default (VDict d) "entity" (VDict [])) as [entity|]; [|done].
  cbn [mbind result_bind].
  destruct (Py.get entity "entry") as [entry|]; [|done].
  cbn [mbind result_bind].
  destruct (description _ _ _) as [parts|]; [|done].
  cbn [mbind result_bind].
  by rewrite (organisation_members_same_except _ _ d d' parts Hsame)
    by other_key.
Qed.

Lemma format_organisation_unknown_location_example :
  format_organisation plain_markup (VDict example_organisation) example_index
  = format_organisation plain_markup
      (VDict [ ("id", VInt 3); ("name", VStr "Guild");
               ("is_defunct", VBool true);
               ("entity", VDict [("type", VStr "Trade");
                                 ("entry", VStr "Merchants.")]);
               ("members",
                VList [ VDict [("role", VStr "Master");
                               ("character_id", VInt 10)];
                        VDict [("character_id", VInt 77)] ]) ])
      example_index.
Proof.
  symmetry.
  apply (proj2 (format_organisation_unknown_location plain_markup
    example_index example_organisation
    (VDict [("location_id", VInt 99)]) [] (VInt 99) (Some (inl 99))
    eq_refl eq_refl eq_refl eq_refl)).
  - intros k Hk. unfold example_organisation. simpl.
    destruct (String.eqb_spec k "pivotLocations") as [->|]; [|done].
    exfalso. apply Hk. apply list_elem_of_here.
  - reflexivity.
Defined.

(** * Further properties of the converter *)

(** ** The mention resolver on text around tokens *)

Lemma sub_no_open repl s :
  Str.forallb Mention.not_open s = true → Mention.sub repl s = s.
Proof.
  intros H. rewrite <- (str_nil_r s) at 1.
  rewrite sub_unmatched, sub_nil, str_nil_r; [done|].
  by apply unmatched_no_open.
Qed.

(** X1.  A text without an opening bracket, or without a closing bracket,
    holds no token and is returned as it is, whatever the index holds. *)
Theorem resolve_mentions_plain_text (m : id_map) (s : string) :
  Str.forallb Mention.not_open s = true
  ∨ Str.forallb Mention.not_close s = true →
  resolve_mentions (Some s) m = s.
Proof.
  rewrite resolve_mentions_sub.
  intros [H|H]; [by apply sub_no_open|by apply sub_no_close].
Qed.

Lemma resolve_mentions_plain_text_example :
  resolve_mentions (Some "Founded in 1204 [see below") scenario_index
  = "Founded in 1204 [see below".
Proof.
  apply resolve_mentions_plain_text. right. reflexivity.
Defined.

Lemma is_token_no_override ty ds ov :
  Mention.is_token ty ds ov = true → Mention.is_token ty ds None = true.
Proof.
  unfold Mention.is_token. rewrite !andb_true_iff. tauto.
Qed.

(** X2.  The override of a token is discarded: [[type:id|override]] is
    resolved exactly as [[type:id]]. *)
Theorem resolve_mentions_override_discarded (m : id_map)
    pre ty ds override post :
  Mention.is_token ty ds (Some override) = true →
  Mention.unmatched pre (Mention.token ty ds (Some override) +:+ post) = true →
  Mention.unmatched pre (Mention.token ty ds None +:+ post) = true →
  resolve_mentions
    (Some (pre +:+ Mention.token ty ds (Some override) +:+ post)) m
  = resolve_mentions (Some (pre +:+ Mention.token ty ds None +:+ post)) m.
Proof.
  intros Htok Hpre Hpre'. rewrite !resolve_mentions_sub.
  rewrite !sub_first_token; eauto using is_token_no_override.
Qed.

Lemma resolve_mentions_override_discarded_example :
  resolve_mentions (Some "Met [character:5|the innkeeper] there")
    scenario_index
  = resolve_mentions (Some "Met [character:5] there") scenario_index.
Proof.
  exact (resolve_mentions_override_discarded scenario_index "Met "
           "character" "5" "the innkeeper" " there" eq_refl eq_refl eq_refl).
Defined.

(** X3.  A token is resolved by the number it carries.  Two tokens with the
    same number (leading zeros apart) are resolved alike when the number is
    in the index, whatever their type tags: the tag is not compared with
    the type the index records.  When the number is not in the index they
    are resolved alike as soon as their tags agree up to case. *)
Theorem resolve_mentions_by_number (m : id_map) ty ds ov ty' ds' ov' post :
  Mention.is_token ty ds ov = true →
  Mention.is_token ty' ds' ov' = true →
  Str.int ds = Str.int ds' →
  is_Some (m !! (inl (Str.int ds) : key))
  ∨ Str.capitalize ty = Str.capitalize ty' →
  resolve_mentions (Some (Mention.token ty ds ov +:+ post)) m
  = resolve_mentions (Some (Mention.token ty' ds' ov' +:+ post)) m.
Proof.
  intros Htok Htok' Hint Hcase. rewrite !resolve_mentions_sub.
  rewrite (sub_match _ (Mention.token ty ds ov +:+ post) ty ds post),
    (sub_match _ (Mention.token ty' ds' ov' +:+ post) ty' ds' post)
    by (by apply match_at_token).
  f_equal. unfold replace_func. rewrite <- Hint.
  destruct Hcase as [[e ->]| ->]; [done|].
  by destruct (m !! _).
Qed.

Lemma resolve_mentions_by_number_example :
  resolve_mentions (Some "[race:005|Elf] and [RACE:099]") scenario_index
  = resolve_mentions (Some "[character:5] and [RACE:099]") scenario_index
  ∧ resolve_mentions (Some "[RACE:099]") scenario_index
    = resolve_mentions (Some "[race:99|x]") scenario_index.
Proof.
  split.
  - apply (resolve_mentions_by_number scenario_index "race" "005" (Some "Elf")
             "character" "5" None " and [RACE:099]");
      [reflexivity..|]. left. by eexists.
  - apply (resolve_mentions_by_number scenario_index "RACE" "099" None
             "race" "99" (Some "x") ""); [reflexivity..|]. by right.
Defined.

(** X4.  The bracketed headings and placeholders the formatters write
    ("[Basic Information]", "[Notes: name]", "[Members]",
    "[Character Not Found: 7]") are not tokens: after an opening bracket and
    letters, a space, a closing bracket or a colon and a space stop the
    pattern, and the resolver copies the heading up to there. *)
Theorem resolve_mentions_keeps_headings (m : id_map) word sep rest :
  Str.forallb Chars.is_alpha word = true →
  sep ∈ [" "; "]"; ": "] →
  resolve_mentions (Some ("[" +:+ word +:+ sep +:+ rest)) m
  = "[" +:+ word +:+ sep +:+ resolve_mentions (Some rest) m.
Proof.
  intros Hword Hsep.
  assert (Mention.unmatched ("[" +:+ word +:+ sep) rest = true) as Hun.
  { rewrite unmatched_app, andb_true_iff. split.
    - simpl.
      assert (Mention.match_at ("[" +:+ (word +:+ sep) +:+ rest) = None)
        as ->; [|done].
      apply match_at_None. norm_str. simpl.
      assert (Mention.plain word = true) as Hplain.
      { eapply forallb_impl, Hword. apply is_alpha_plain. }
      rewrite !elem_of_cons in Hsep.
      destruct Hsep as [->|[->|[->|Hsep]]]; [..|by apply elem_of_nil in Hsep].
      + norm_str. by apply accepts_plain_break.
      + norm_str. clear Hplain.
        destruct word as [|c word]; [done|]. simpl in *.
        apply andb_true_iff in Hword as [-> Hword]. simpl.
        induction word as [|d word IH]; [done|]. simpl in *.
        apply andb_true_iff in Hword as [-> Hword]. by apply IH.
      + norm_str.
        destruct word as [|c word]; [done|]. simpl in *.
        apply andb_true_iff in Hword as [-> Hword]. simpl. clear Hplain.
        induction word as [|d word IH]; [done|]. simpl in *.
        apply andb_true_iff in Hword as [-> Hword]. by apply IH.
    - apply unmatched_no_open. rewrite forallb_app, andb_true_iff. split.
      + eapply forallb_impl, Hword. apply is_alpha_not_open.
      + rewrite !elem_of_cons in Hsep.
        destruct Hsep as [->|[->|[->|Hsep]]]; [done..|].
        by apply elem_of_nil in Hsep. }
  rewrite !resolve_mentions_sub.
  rewrite <- !str_assoc. rewrite sub_unmatched; [|by rewrite !str_assoc].
  by rewrite !str_assoc.
Qed.

Lemma resolve_mentions_keeps_headings_example :
  resolve_mentions (Some "[Notes: Arrival at [location:5]]") scenario_index
  = "[Notes: Arrival at Bob (Character)]"
  ∧ resolve_mentions (Some "[Character Not Found: 7]") scenario_index
    = "[Character Not Found: 7]".
Proof.
  split.
  - exact (resolve_mentions_keeps_headings scenario_index "Notes" ": "
             "Arrival at [location:5]]" eq_refl
             ltac:(do 2 apply list_elem_of_further; apply list_elem_of_here)).
  - exact (resolve_mentions_keeps_headings scenario_index "Character" " "
             "Not Found: 7]" eq_refl ltac:(apply list_elem_of_here)).
Defined.

(** ** Pass 1 as a whole *)

Section IndexRun.

Import Index.

Lemma record_step_not_record st r :
  is_record (snd (snd r)) = false → record_step st r = Raise AttributeError.
Proof.
  destruct st as [m w], r as [label [file content]].
  unfold record_step, index_file. simpl.
  destruct content as [|data]; [done|]. by destruct data.
Qed.

Lemma for_each_record_step rs : ∀ st,
  (Forall (λ r, is_record (snd (snd r)) = true) rs
   ∧ ∃ st', for_each record_step st rs = Ok st')
  ∨ (¬ Forall (λ r, is_record (snd (snd r)) = true) rs
     ∧ for_each record_step st rs = Raise AttributeError).
Proof.
  induction rs as [|r rs IH]; intros st; [left; by eauto|].
  destruct (is_record (snd (snd r))) eqn:Hr.
  - destruct st as [m w].
    destruct (record_step_write m w r Hr) as [w' E].
    cbn [for_each]. rewrite E. cbn [mbind result_bind].
    destruct (IH (write m r, w')) as [[Hrs Hok]|[Hrs Hraise]].
    + left. split; [by constructor|done].
    + right. split; [|done]. by intros [_ ?]%Forall_cons.
  - right. split.
    + intros [H _]%Forall_cons. congruence.
    + cbn [for_each]. by rewrite record_step_not_record.
Qed.

(** The warnings of a run that ends: the files that [warns] names, in
    traversal order. *)
Lemma for_each_warnings rs : ∀ m w m' w',
  for_each record_step (m, w) rs = Ok (m', w') →
  w' = w ++ ((λ r, fst (snd r))
               <$> filter (λ r, warns (snd (snd r)) = true) rs).
Proof.
  induction rs as [|r rs IH]; intros m w m' w'.
  { simpl. intros [= <- <-]. by rewrite app_nil_r. }
  cbn [for_each].
  destruct (record_step (m, w) r) as [[m1 w1]|] eqn:E; [|done].
  cbn [mbind result_bind]. intros ->%IH.
  destruct r as [label [file content]].
  unfold record_step, index_file in E. cbn [fst snd] in E.
  rewrite filter_cons. cbn [fst snd].
  destruct content as [|data].
  { injection E as <- <-. simpl. by rewrite <- app_assoc. }
  destruct data as [| | | | |d]; try done.
  unfold index_record in E. simpl in E. unfold warns.
  destruct (Py.assoc "id" d) as [i|], (Py.assoc "name" d) as [n|];
    simpl in E.
  - destruct (Py.truthy i) eqn:Hi; simpl in *.
    + destruct (Py.truthy n); simpl in *.
      * destruct i as [|[]| | | |]; simpl in *; try done;
          injection E as <- <-; simpl; by rewrite <- ?app_assoc.
      * by injection E as <- <-.
    + by injection E as <- <-.
  - destruct (Py.truthy i); simpl in *; by injection E as <- <-.
  - by injection E as <- <-.
  - by injection E as <- <-.
Qed.

Lemma registration_well_formed label content k e :
  label ∈ labels → registration label content = Some (k, e) →
  well_formed_entry k e.
Proof.
  intros Hlabel. unfold registration.
  destruct content as [|[| | | | |d]]; try done.
  destruct (Py.assoc "id" d) as [i|]; [|done].
  destruct (Py.assoc "name" d) as [n|]; [|done].
  destruct (Py.truthy i) eqn:Hi; [|done].
  destruct (Py.truthy n) eqn:Hn; [|done]. simpl.
  destruct i as [|[]|z|s| |]; simpl in *; try done; intros [= <- <-];
    repeat split; try done.
  - intros [= ->]. done.
  - intros [= ->]. done.
Qed.

Lemma lookup_name_elem k v (l : list (string * string)) :
  lookup_name k l = Some v → v ∈ snd <$> l.
Proof.
  induction l as [|[k' v'] l IH]; [done|]. simpl.
  destruct (String.eqb k k').
  - intros [= ->]. apply list_elem_of_here.
  - intros H. apply list_elem_of_further. by apply IH.
Qed.

Lemma records_inv input_dir label file :
  (label, file) ∈ records input_dir →
  ∃ root files, (root, files) ∈ input_dir ∧ file ∈ files
    ∧ Str.endswith ".json" (fst file) = true
    ∧ lookup_name (basename root) type_name_map = Some label.
Proof.
  unfold records. rewrite list_elem_of_bind.
  intros ([root files] & Hin & Hdir).
  apply list_elem_of_bind in Hin as (file' & Hin & Hfile).
  cbn [fst snd] in *. exists root, files.
  destruct (Str.endswith ".json" file'.1) eqn:Hjson;
    [|by apply elem_of_nil in Hin].
  destruct (lookup_name (basename root) type_name_map) as [label'|] eqn:E;
    [|by apply elem_of_nil in Hin].
  apply list_elem_of_singleton in Hin as [= -> ->]. done.
Qed.

Lemma records_labels input_dir :
  Forall (λ r, fst r ∈ labels) (records input_dir).
Proof.
  apply Forall_forall. intros [label file] Hin.
  apply records_inv in Hin as (root & files & _ & _ & _ & E).
  by eapply lookup_name_elem.
Qed.

Lemma foldl_write_well_formed rs : ∀ m,
  Forall (λ r, fst r ∈ labels) rs →
  map_Forall well_formed_entry m →
  map_Forall well_formed_entry (foldl write m rs).
Proof.
  induction rs as [|r rs IH]; intros m Hrs Hm; [done|].
  apply Forall_cons in Hrs as [Hr Hrs]. simpl. apply IH; [done|].
  unfold write. destruct (registration _ _) as [[k e]|] eqn:E; [|done].
  apply map_Forall_insert_2; [|done].
  by eapply registration_well_formed.
Qed.

End IndexRun.

Section IndexRunFacts.

Import Index.

Lemma create_id_map_Ok input_dir m w :
  create_id_map input_dir = Ok (m, w) →
  Forall (λ r, is_record (snd (snd r)) = true) (records input_dir)
  ∧ m = foldl write ∅ (records input_dir).
Proof.
  rewrite create_id_map_records. intros E.
  destruct (for_each_record_step (records input_dir) (∅, []))
    as [[Hrs _]|[_ Hraise]]; [|congruence].
  split; [done|].
  destruct (for_each_write (records input_dir) ∅ [] Hrs) as [w' E'].
  congruence.
Qed.

Lemma records_app dirs1 dirs2 :
  records (dirs1 ++ dirs2) = records dirs1 ++ records dirs2.
Proof. unfold records. apply bind_app. Qed.

Lemma records_cons root files dirs :
  records ((root, files) :: dirs)
  = (file ← files;
     if Str.endswith ".json" (fst file) then
       match lookup_name (basename root) type_name_map with
       | None => []
       | Some label => [(label, file)]
       end
     else []) ++ records dirs.
Proof. unfold records. by rewrite bind_cons. Qed.

Lemma labels_plain label : label ∈ labels → Mention.plain label = true.
Proof.
  unfold labels, type_name_map. simpl. rewrite !elem_of_cons.
  intros [->|[->|[->|[->|[->|[->|[->|H]]]]]]]; try done.
  by apply elem_of_nil in H.
Qed.

Lemma foldl_write_plain rs : ∀ m,
  Forall (λ r, fst r ∈ labels) rs →
  Forall (λ r, ∀ d n, snd (snd r) = Decoded (VDict d) →
                      Py.assoc "name" d = Some n →
                      Mention.plain (Py.str n) = true) rs →
  plain_index m → plain_index (foldl write m rs).
Proof.
  induction rs as [|r rs IH]; intros m Hlabels Hnames Hm; [done|].
  apply Forall_cons in Hlabels as [Hlabel Hlabels].
  apply Forall_cons in Hnames as [Hname Hnames].
  simpl. apply IH; [done..|].
  unfold write. destruct (registration _ _) as [[k e]|] eqn:E; [|done].
  apply map_Forall_insert_2; [|done].
  destruct r as [label [file content]]. cbn [fst snd] in *.
  unfold registration in E.
  destruct content as [|[| | | | |d]]; try done.
  destruct (Py.assoc "id" d) as [i|]; [|done].
  destruct (Py.assoc "name" d) as [n|] eqn:En; [|done].
  destruct (_ && _); [|done].
  destruct (key_of i) as [[k'|]|]; try done.
  injection E as <- <-. simpl. split.
  - by apply (Hname d n).
  - by apply labels_plain.
Qed.

End IndexRunFacts.

(** X5.  Pass 1 ends with an index exactly when every ".json" file of a
    recognized folder decodes to a JSON object or fails to decode.  A
    payload of another shape (a list, a string, a number) is not caught:
    [data.get] raises [AttributeError] and the pass is aborted. *)
Theorem create_id_map_returns (input_dir : Index.walk) :
  ((∃ m warnings, Index.create_id_map input_dir = Ok (m, warnings))
   ↔ Forall (λ r, Index.is_record (snd (snd r)) = true)
       (Index.records input_dir))
  ∧ (Index.create_id_map input_dir = Raise AttributeError
     ↔ ¬ Forall (λ r, Index.is_record (snd (snd r)) = true)
         (Index.records input_dir))
  ∧ ∀ e, Index.create_id_map input_dir = Raise e → e = AttributeError.
Proof.
  rewrite create_id_map_records.
  destruct (for_each_record_step (Index.records input_dir) (∅, []))
    as [[Hrs [[m w] Hok]]|[Hrs Hraise]].
  - rewrite Hok. repeat split; try done; by eauto.
  - rewrite Hraise. repeat split; try done.
    + by intros (? & ? & ?).
    + by intros e [= <-].
Qed.

(** X6.  The warnings of pass 1 are the files that do not decode and the
    records with a name and an unhashable id (a list or an object), in
    traversal order; no other record is mentioned. *)
Theorem create_id_map_warnings (input_dir : Index.walk) m warnings :
  Index.create_id_map input_dir = Ok (m, warnings) →
  warnings
  = (λ r, fst (snd r))
      <$> filter (λ r, Index.warns (snd (snd r)) = true)
            (Index.records input_dir).
Proof.
  rewrite create_id_map_records. by intros ->%for_each_warnings.
Qed.

Lemma create_id_map_warnings_example :
  ∃ m, Index.create_id_map Index.example_export = Ok (m, ["broken.json"]).
Proof.
  destruct (Index.create_id_map Index.example_export) as [[m w]|] eqn:E;
    [|by vm_compute in E].
  exists m. by rewrite (create_id_map_warnings _ m w E).
Defined.

(** X7.  Every entry of an index that pass 1 returns has one of the seven
    type labels and a name that is not empty, under an id that is neither 0
    nor the empty string: a token with the number 0 is never found. *)
Theorem create_id_map_well_formed (input_dir : Index.walk) m warnings :
  Index.create_id_map input_dir = Ok (m, warnings) →
  map_Forall Index.well_formed_entry m ∧ m !! (inl 0 : key) = None.
Proof.
  intros [_ ->]%create_id_map_Ok.
  assert (map_Forall Index.well_formed_entry
            (foldl Index.write ∅ (Index.records input_dir))) as H.
  { apply foldl_write_well_formed; [apply records_labels|].
    apply map_Forall_empty. }
  split; [done|].
  destruct (foldl Index.write ∅ (Index.records input_dir) !! (inl 0 : key))
    as [e|] eqn:E; [|done].
  apply H in E as (_ & _ & Hk & _). done.
Qed.

Lemma create_id_map_well_formed_example :
  ∃ m warnings,
    Index.create_id_map Index.example_export = Ok (m, warnings)
    ∧ m !! (inl 0 : key) = None
    ∧ m !! (inl 1 : key) = Some (Entry (VStr "Elf") "Race").
Proof.
  destruct (Index.create_id_map Index.example_export) as [[m w]|] eqn:E;
    [|by vm_compute in E].
  exists m, w. split; [done|].
  destruct (create_id_map_well_formed _ m w E) as [_ H0].
  split; [exact H0|]. vm_compute in E. by injection E as <- _.
Defined.

(** X8.  Pass 1 reads nothing of a folder that is not recognized and
    nothing of a file whose name does not end in ".json": dropping them
    from the export changes neither the index nor the warnings. *)
Theorem create_id_map_ignores (dirs1 dirs2 : Index.walk) root files :
  (Index.lookup_name (Index.basename root) Index.type_name_map = None →
   Index.create_id_map (dirs1 ++ (root, files) :: dirs2)
   = Index.create_id_map (dirs1 ++ dirs2))
  ∧ Index.create_id_map (dirs1 ++ (root, files) :: dirs2)
    = Index.create_id_map
        (dirs1 ++ (root, filter (λ file, Str.endswith ".json" (fst file) = true)
                           files) :: dirs2).
Proof.
  rewrite !create_id_map_records, !records_app, !records_cons. split.
  - intros Hroot. rewrite Hroot.
    assert ((file ← files;
             if Str.endswith ".json" file.1 then @nil (string * (string * Index.decoded))
             else []) = []) as ->; [|done].
    induction files as [|file files IH]; [done|].
    rewrite bind_cons, IH. by destruct (Str.endswith _ _).
  - do 3 f_equal.
    induction files as [|file files IH]; [done|].
    rewrite filter_cons, bind_cons.
    destruct (decide (Str.endswith ".json" file.1 = true)) as [E|E].
    + rewrite bind_cons, E. by rewrite IH.
    + apply not_true_is_false in E. rewrite E. apply IH.
Qed.

Lemma create_id_map_ignores_example :
  Index.create_id_map Index.example_export
  = Index.create_id_map
      [ ("export/characters",
          [ ("ann.json", Index.Decoded (VDict [("id", VInt 1); ("name", VStr "Ann")]));
            ("bea.json", Index.Decoded (VDict [("id", VInt 1); ("name", VStr "Bea")]));
            ("nameless.json", Index.Decoded (VDict [("id", VInt 2)]));
            ("broken.json", Index.Undecodable);
            ("notes.txt", Index.Undecodable) ]);
        ("export/races",
          [ ("elf.json", Index.Decoded (VDict [("id", VInt 1); ("name", VStr "Elf")]));
            ("anon.json", Index.Decoded (VDict [("id", VInt 1)])) ]) ].
Proof.
  exact (proj1 (create_id_map_ignores
    [ ("export/characters",
        [ ("ann.json", Index.Decoded (VDict [("id", VInt 1); ("name", VStr "Ann")]));
          ("bea.json", Index.Decoded (VDict [("id", VInt 1); ("name", VStr "Bea")]));
          ("nameless.json", Index.Decoded (VDict [("id", VInt 2)]));
          ("broken.json", Index.Undecodable);
          ("notes.txt", Index.Undecodable) ]) ]
    [ ("export/races",
        [ ("elf.json", Index.Decoded (VDict [("id", VInt 1); ("name", VStr "Elf")]));
          ("anon.json", Index.Decoded (VDict [("id", VInt 1)])) ]) ]
    "export/maps"
    [ ("map.json", Index.Decoded (VDict [("id", VInt 1); ("name", VStr "Map")])) ])
    eq_refl).
Defined.

(** X9.  With an index built by pass 1 from records whose names hold
    neither "]" nor "|", resolving a text twice is resolving it once: the
    type labels pass 1 writes are always free of both characters. *)
Theorem create_id_map_resolve_idempotent (input_dir : Index.walk) m warnings
    (text : option string) :
  Index.create_id_map input_dir = Ok (m, warnings) →
  Forall (λ r, ∀ d n, snd (snd r) = Index.Decoded (VDict d) →
                      Py.assoc "name" d = Some n →
                      Mention.plain (Py.str n) = true)
    (Index.records input_dir) →
  resolve_mentions (Some (resolve_mentions text m)) m
  = resolve_mentions text m.
Proof.
  intros [_ ->]%create_id_map_Ok Hnames.
  apply resolve_mentions_rescan.
  apply foldl_write_plain; [apply records_labels|done|].
  apply map_Forall_empty.
Qed.

Lemma create_id_map_resolve_idempotent_example :
  ∃ m warnings,
    Index.create_id_map Index.example_export = Ok (m, warnings)
    ∧ resolve_mentions
        (Some (resolve_mentions (Some "[race:1] of [race:9]") m)) m
      = resolve_mentions (Some "[race:1] of [race:9]") m.
Proof.
  destruct (Index.create_id_map Index.example_export) as [[m w]|] eqn:E;
    [|by vm_compute in E].
  exists m, w. split; [done|].
  apply (create_id_map_resolve_idempotent _ m w _ E).
  repeat constructor; intros d n [= <-]; simpl; try done;
    by intros [= <-].
Defined.

(** ** The markup normalizer beyond the fallback *)

Section NormalizerRun.

Import Soup.

Lemma remove_loop_quiet doc links :
  Forall (λ link : path * node, instructional link.2 = false) links →
  for_each (remove_step doc) [] links = Ok [].
Proof.
  induction 1 as [|[l a] links Ha _ IH]; [done|].
  simpl in *. by rewrite Ha.
Qed.

Lemma remove_loop_raises doc links : ∀ acc e,
  for_each (remove_step doc) acc links = Raise e → e = TypeError.
Proof.
  induction links as [|[l a] links IH]; intros acc e; [done|].
  simpl. destruct (decomposed acc l); [by intros [= <-]|].
  destruct (instructional a); [|by apply IH].
  destruct (find_parent doc "p" l); by apply IH.
Qed.

(** Once a paragraph is removed, a later link below it ends the loop. *)
Lemma remove_loop_decomposed doc links : ∀ acc p l a,
  p ∈ acc → (l, a) ∈ links → p `prefix_of` l →
  for_each (remove_step doc) acc links = Raise TypeError.
Proof.
  induction links as [|[l' a'] links IH]; intros acc p l a Hp Hin Hpre.
  { by apply elem_of_nil in Hin. }
  simpl. destruct (decomposed acc l') eqn:Hdec; [done|].
  apply elem_of_cons in Hin as [[= <- <-]|Hin].
  { exfalso. unfold decomposed in Hdec.
    apply not_true_iff_false in Hdec. apply Hdec.
    apply existsb_exists. exists p. split; [by apply list_elem_of_In|].
    by apply bool_decide_eq_true. }
  destruct (instructional a').
  - destruct (find_parent doc "p" l') as [p'|].
    + simpl. apply (IH _ p l a); [|done..]. apply elem_of_app. by left.
    + simpl. by apply (IH _ p l a).
  - simpl. by apply (IH _ p l a).
Qed.

Variable want : string → list (string * string) → bool.

Lemma find_all_in_want n : ∀ here p x,
  (p, x) ∈ find_all_in want here n →
  ∃ name attrs contents, x = Tag name attrs contents ∧ want name attrs = true.
Proof.
  induction n as [s|s|name attrs contents IH] using node_nested_ind;
    intros here p x; [by intros ?%elem_of_nil..|].
  rewrite find_all_in_Tag, elem_of_app. intros [Hx|Hx].
  - destruct (want name attrs) eqn:Hw; [|by apply elem_of_nil in Hx].
    apply list_elem_of_singleton in Hx as [= -> ->]. by eauto.
  - revert Hx. generalize 0%nat.
    induction IH as [|k ks Hk _ IHks]; intros i Hx.
    { by apply elem_of_nil in Hx. }
    simpl in Hx. apply elem_of_app in Hx as [Hx|Hx]; [by eapply Hk|].
    by eapply IHks.
Qed.

Lemma find_all_want doc p x :
  (p, x) ∈ find_all want doc →
  ∃ name attrs contents, x = Tag name attrs contents ∧ want name attrs = true.
Proof.
  unfold find_all. generalize 0%nat (@nil nat).
  induction doc as [|k ks IH]; intros i here Hx.
  { by apply elem_of_nil in Hx. }
  simpl in Hx. apply elem_of_app in Hx as [Hx|Hx].
  - by eapply find_all_in_want.
  - by eapply IH.
Qed.

End NormalizerRun.

Section Strip.

Lemma lstrip_head s c t : Str.lstrip s = String c t → Chars.is_space c = false.
Proof.
  induction s as [|d s IH]; [done|]. simpl.
  destruct (Chars.is_space d) eqn:Hd; [done|]. by intros [= <- _].
Qed.

Lemma rstrip_head c t :
  Chars.is_space c = false → ∃ t', Str.rstrip (String c t) = String c t'.
Proof.
  intros Hc. simpl. destruct (Str.rstrip t); rewrite ?Hc; by eauto.
Qed.

Lemma rstrip_rstrip s : Str.rstrip (Str.rstrip s) = Str.rstrip s.
Proof.
  induction s as [|c s IH]; [done|]. simpl.
  destruct (Str.rstrip s) as [|d r] eqn:E.
  - destruct (Chars.is_space c) eqn:Hc; [done|]. simpl. by rewrite Hc.
  - simpl. simpl in IH. by rewrite IH.
Qed.

Lemma strip_strip s : Str.strip (Str.strip s) = Str.strip s.
Proof.
  unfold Str.strip. destruct (Str.lstrip s) as [|c t] eqn:E; [done|].
  pose proof (lstrip_head _ _ _ E) as Hc.
  destruct (rstrip_head c t Hc) as [t' Ht]. rewrite Ht.
  simpl Str.lstrip. rewrite Hc, <- Ht. apply rstrip_rstrip.
Qed.

End Strip.

(** X10.  A markup without a link to the platform that says "click here"
    is parsed and rendered as it is: nothing is removed and the first loop
    raises nothing. *)
Theorem clean_html_keeps_document
    (BeautifulSoup : value → result (list Soup.node))
    (html_content : value) (doc : list Soup.node) :
  Py.truthy html_content = true →
  BeautifulSoup html_content = Ok doc →
  Forall (λ link : Soup.path * Soup.node, instructional link.2 = false)
    (Soup.find_all is_link doc) →
  clean_html BeautifulSoup html_content = Ok (to_text doc).
Proof.
  intros Hv Hdoc Hlinks. unfold clean_html. rewrite Hv, Hdoc.
  cbn [negb mbind result_bind]. unfold remove_instructional.
  rewrite remove_loop_quiet by done. cbn [mbind result_bind].
  by rewrite prune_nil.
Qed.

Lemma clean_html_keeps_document_example :
  clean_html
    (λ _, Ok [ Soup.Tag "p" []
                 [ Soup.Text "See ";
                   Soup.Tag "a" [("href", "https://example.org/")]
                     [Soup.Text "click here"] ] ])
    (VStr "<p>See <a href='https://example.org/'>click here</a></p>")
  = Ok "See click here".
Proof.
  apply (clean_html_keeps_document _ _
           [ Soup.Tag "p" []
               [ Soup.Text "See ";
                 Soup.Tag "a" [("href", "https://example.org/")]
                   [Soup.Text "click here"] ] ]);
    [reflexivity..|].
  repeat constructor.
Defined.

(** X11.  When a link to the platform that says "click here" has an
    enclosing paragraph and a later link with an [href] lies in the same
    paragraph, the normalizer raises [TypeError]: the later link is read
    after [decompose()] destroyed it. *)
Theorem clean_html_second_link_raises
    (BeautifulSoup : value → result (list Soup.node))
    (html_content : value) (doc : list Soup.node)
    before l1 a1 after l2 a2 p :
  Py.truthy html_content = true →
  BeautifulSoup html_content = Ok doc →
  Soup.find_all is_link doc = before ++ (l1, a1) :: after →
  instructional a1 = true →
  Soup.find_parent doc "p" l1 = Some p →
  (l2, a2) ∈ after →
  p `prefix_of` l2 →
  clean_html BeautifulSoup html_content = Raise TypeError.
Proof.
  intros Hv Hdoc Hlinks Ha1 Hp Hin Hpre.
  unfold clean_html. rewrite Hv, Hdoc. cbn [negb mbind result_bind].
  unfold remove_instructional. rewrite Hlinks, for_each_app.
  destruct (for_each (remove_step doc) [] before) as [acc|e] eqn:E.
  - simpl. destruct (Soup.decomposed acc l1); [done|].
    rewrite Ha1, Hp. simpl.
    rewrite (remove_loop_decomposed doc after (acc ++ [p]) p l2 a2); try done.
    apply elem_of_app. right. apply list_elem_of_here.
  - simpl. by rewrite (remove_loop_raises _ _ _ _ E).
Qed.

Lemma clean_html_second_link_raises_example :
  clean_html (λ _, Ok two_links_doc) (VStr "<p>...</p>") = Raise TypeError.
Proof.
  apply (clean_html_second_link_raises (λ _, Ok two_links_doc) _
           two_links_doc []
           [0%nat; 0%nat]
           (Soup.Tag "a" [("href", "https://app.kanka.io/a")]
              [Soup.Text "click here"])
           [ ([0%nat; 2%nat],
              Soup.Tag "a" [("href", "https://app.kanka.io/b")]
                [Soup.Text "here"]) ]
           [0%nat; 2%nat]
           (Soup.Tag "a" [("href", "https://app.kanka.io/b")]
              [Soup.Text "here"])
           [0%nat]); try reflexivity.
  - apply list_elem_of_here.
  - by exists [2%nat].
Defined.

Lemma render_recognized name attrs contents :
  is_recognized name attrs = true →
  render (Soup.Tag name attrs contents) ≠ [].
Proof.
  unfold is_recognized, recognized. rewrite bool_decide_eq_true.
  rewrite !elem_of_cons.
  intros [->|[->|[->|[->|[->|[->|[->|[->|H]]]]]]]]; try done.
  - simpl. by intros [? ?]%app_eq_nil.
  - by apply elem_of_nil in H.
Qed.

(** X12.  When the document holds a recognized construct the normalized
    text is trimmed: it neither starts nor ends with white space, so
    stripping it again changes nothing.  (The fallback text of a document
    without such a construct is returned untrimmed.) *)
Theorem to_text_trimmed (doc : list Soup.node) :
  Soup.find_all is_recognized doc ≠ [] →
  Str.strip (to_text doc) = to_text doc
  ∧ ∀ c t, to_text doc = String c t → Chars.is_space c = false.
Proof.
  intros Hdoc. unfold to_text.
  destruct (Soup.find_all is_recognized doc) as [|[p x] elements] eqn:E;
    [done|].
  rewrite bind_cons. cbn [snd].
  assert ((p, x) ∈ Soup.find_all is_recognized doc) as Hin.
  { rewrite E. apply list_elem_of_here. }
  apply find_all_want in Hin as (name & attrs & contents & -> & Hw).
  pose proof (render_recognized name attrs contents Hw) as Hr.
  destruct (render (Soup.Tag name attrs contents)) as [|part parts]; [done|].
  rewrite <- app_comm_cons. split; [apply strip_strip|].
  intros c t Ht. unfold Str.strip in Ht.
  destruct (Str.lstrip _) as [|c' t'] eqn:El; [done|].
  pose proof (lstrip_head _ _ _ El) as Hc.
  destruct (rstrip_head c' t' Hc) as [t'' Hr']. rewrite Hr' in Ht.
  by injection Ht as <- _.
Qed.

Lemma to_text_trimmed_example :
  to_text [Soup.Tag "p" [] [Soup.Text "  Body  "]] = "Body"
  ∧ Str.strip (to_text [Soup.Tag "p" [] [Soup.Text "  Body  "]])
    = to_text [Soup.Tag "p" [] [Soup.Text "  Body  "]].
Proof.
  split; [reflexivity|].
  apply (to_text_trimmed [Soup.Tag "p" [] [Soup.Text "  Body  "]]).
  discriminate.
Defined.

(** ** The router and the other formatters *)

Section Router.

Variable BeautifulSoup : value → result (list Soup.node).
Variable m : id_map.

(** Deciding the comparisons of two string literals. *)
Ltac decide_eqb :=
  repeat match goal with
         | |- context [String.eqb ?a ?b] =>
             let v := eval vm_compute in (String.eqb a b) in
             change (String.eqb a b) with v
         end;
  cbv iota.

(** What the router returns for a record of a recognized folder. *)
Lemma format_entity_recognized d root c :
  Index.basename root ∈ Writer.folders →
  format_entity BeautifulSoup (VDict d) root m = Ok c →
  ∃ body,
    c = Some (Str.repeat "="%char 40 +:+ Str.nl +:+ " "
              +:+ Str.drop_last (Str.upper (Index.basename root)) +:+ ": "
              +:+ Py.str (default (VStr "Unnamed") (Py.assoc "name" d))
              +:+ Str.nl +:+ Str.repeat "="%char 40 +:+ Str.nl +:+ Str.nl
              +:+ body).
Proof.
  unfold Writer.folders, format_entity. rewrite !elem_of_cons.
  cbn [Py.get_default Py.get mbind result_bind].
  intros [->|[->|[->|[->|[->|[->|[->|H]]]]]]];
    [..|by apply elem_of_nil in H]; decide_eqb;
    match goal with
    | |- context [Some <$> ?r] => destruct r as [body|]; [|done]
    end;
    intros [= <-]; exists body; cbn [fmap option_fmap option_map];
    by rewrite !str_assoc.
Qed.

Lemma format_entity_unrecognized d root :
  Index.basename root ∉ Writer.folders →
  format_entity BeautifulSoup (VDict d) root m = Ok None.
Proof.
  unfold Writer.folders, format_entity. rewrite !not_elem_of_cons.
  intros (H1 & H2 & H3 & H4 & H5 & H6 & H7 & _).
  cbn [Py.get_default Py.get mbind result_bind].
  by rewrite !(proj2 (String.eqb_neq _ _)) by done.
Qed.

Lemma format_entity_not_dict data root :
  (∀ d, data ≠ VDict d) →
  format_entity BeautifulSoup data root m = Raise AttributeError.
Proof. intros H. destruct data; try done. by destruct (H fields). Qed.

End Router.

(** X13.  The banner of a record is 40 "=", the folder name in upper case
    without its last character, the name of the record ("Unnamed" when it
    has none) and 40 "=" again, followed by an empty line.  Dropping the
    last character gives CHARACTER, JOURNAL, LOCATION, NOTE, ORGANISATION
    and RACE, and FAMILIE for the folder "families". *)
Theorem format_entity_banner
    (BeautifulSoup : value → result (list Soup.node)) (m : id_map)
    d root folder label content :
  (folder, label)
    ∈ [ ("characters", "CHARACTER"); ("families", "FAMILIE");
        ("journals", "JOURNAL"); ("locations", "LOCATION");
        ("notes", "NOTE"); ("organisations", "ORGANISATION");
        ("races", "RACE") ] →
  Index.basename root = folder →
  format_entity BeautifulSoup (VDict d) root m = Ok (Some content) →
  ∃ body,
    content
    = "========================================" +:+ Str.nl
      +:+ " " +:+ label +:+ ": "
      +:+ Py.str (default (VStr "Unnamed") (Py.assoc "name" d)) +:+ Str.nl
      +:+ "========================================" +:+ Str.nl +:+ Str.nl
      +:+ body.
Proof.
  intros Hin Hroot Hfmt.
  assert (folder ∈ Writer.folders ∧ Str.drop_last (Str.upper folder) = label)
    as [Hfolder Hlabel].
  { rewrite !elem_of_cons in Hin.
    destruct Hin as [[= -> ->]|[[= -> ->]|[[= -> ->]|[[= -> ->]|[[= -> ->]|
                    [[= -> ->]|[[= -> ->]|H]]]]]]];
      [..|by apply elem_of_nil in H];
      (split; [|reflexivity]); unfold Writer.folders;
      rewrite !elem_of_cons; tauto. }
  subst folder.
  destruct (format_entity_recognized _ _ d root _ Hfolder Hfmt)
    as [body [= ->]].
  exists body. by rewrite Hlabel.
Qed.

Lemma format_entity_banner_example :
  ∃ body,
    format_entity plain_markup
      (VDict [("name", VStr "Oakheart"); ("entity", VDict [])])
      "export/families" example_index
    = Ok (Some ("========================================" +:+ Str.nl
                +:+ " FAMILIE: Oakheart" +:+ Str.nl
                +:+ "========================================" +:+ Str.nl
                +:+ Str.nl +:+ body)).
Proof.
  destruct (format_entity plain_markup
              (VDict [("name", VStr "Oakheart"); ("entity", VDict [])])
              "export/families" example_index) as [[content|]|] eqn:E;
    try by vm_compute in E.
  destruct (format_entity_banner plain_markup example_index _
              "export/families" "families" "FAMILIE" content
              ltac:(apply list_elem_of_further, list_elem_of_here)
              eq_refl E) as [body ->].
  by exists body.
Defined.

(** X14.  The router has a formatter for each folder that pass 2 keeps a
    buffer for, and only for these; what it returns for them starts with
    the banner and is never the empty string, so the test [if content:] of
    pass 2 never drops a record.  A payload that is not an object raises
    [AttributeError]. *)
Theorem format_entity_content
    (BeautifulSoup : value → result (list Soup.node)) (m : id_map)
    (data : value) (root : string) :
  (∀ content, format_entity BeautifulSoup data root m = Ok (Some content) →
              content ≠ "" ∧ Index.basename root ∈ Writer.folders)
  ∧ (format_entity BeautifulSoup data root m = Ok None →
     Index.basename root ∉ Writer.folders)
  ∧ ((∀ d, data ≠ VDict d) →
     format_entity BeautifulSoup data root m = Raise AttributeError).
Proof.
  split; [|split]; [| |apply format_entity_not_dict].
  - intros content H.
    destruct data as [| | | | |d]; try done.
    destruct (decide (Index.basename root ∈ Writer.folders)) as [Hin|Hout].
    + split; [|done].
      by destruct (format_entity_recognized _ _ d root _ Hin H)
        as [body [= ->]].
    + by rewrite format_entity_unrecognized in H.
  - intros H Hin. destruct data as [| | | | |d]; try done.
    by destruct (format_entity_recognized _ _ d root _ Hin H) as [body ?].
Qed.

Lemma format_entity_content_example :
  ∃ content,
    format_entity plain_markup (VDict example_character) "export/characters"
      example_index = Ok (Some content)
    ∧ content ≠ "".
Proof.
  destruct (format_entity plain_markup (VDict example_character)
              "export/characters" example_index) as [[content|]|] eqn:E;
    try by vm_compute in E.
  exists content. split; [done|].
  exact (proj1 (proj1 (format_entity_content plain_markup example_index
                         (VDict example_character) "export/characters")
                  content E)).
Defined.

Section Rosters.

Variable BeautifulSoup : value → result (list Soup.node).
Variable m : id_map.

Lemma family_roster_loop members : ∀ links parts,
  Forall2 (λ member (link : value * option key),
             Py.item member "character_id" = Ok link.1
             ∧ Index.key_of link.1 = Ok link.2) members links →
  for_each (λ parts member,
      char_id ← Py.item member "character_id";
      member_info ← Index.get m char_id;
      match member_info with
      | Some e =>
          Ok (parts ++ ["- " +:+ Py.str (entry_name e) +:+ " (Character)"])
      | None =>
          Ok (parts ++ ["- [Character Not Found: " +:+ Py.str char_id
                          +:+ "]"])
      end) parts members
  = Ok (parts ++ ((λ link : value * option key,
                     family_member_line link.1 (link.2 ≫= λ k, m !! k))
                  <$> links)).
Proof.
  induction members as [|member members IH]; intros links parts Hl.
  { apply Forall2_nil_inv_l in Hl as ->. simpl. by rewrite app_nil_r. }
  apply Forall2_cons_inv_l in Hl as ([char_id k] & links' & [Hi Hk] & Hl & ->).
  cbn [for_each fst snd] in *. rewrite Hi. cbn [mbind result_bind].
  unfold Index.get. rewrite Hk. cbn [mbind result_bind].
  rewrite fmap_cons. cbn [fst snd]. unfold family_member_line at 2.
  destruct (k ≫= _) as [e|]; cbn [mbind result_bind];
    rewrite (IH links') by done; by rewrite <- app_assoc.
Qed.

Lemma organisation_roster_loop members : ∀ links parts,
  Forall2 (λ member (link : value * (value * option key)),
             Py.get_default member "role" (VStr "Member") = Ok link.1
             ∧ Py.item member "character_id" = Ok link.2.1
             ∧ Index.key_of link.2.1 = Ok link.2.2) members links →
  for_each (λ parts member,
      role ← Py.get_default member "role" (VStr "Member");
      char_id ← Py.item member "character_id";
      member_info ← Index.get m char_id;
      let parts := parts ++ [Str.nl +:+ "- Role: " +:+ Py.str role] in
      match member_info with
      | Some e =>
          Ok (parts ++ ["  - Member: " +:+ Py.str (entry_name e) +:+ " ("
                          +:+ entry_type e +:+ ")"])
      | None =>
          Ok (parts ++ ["  - Member: [Character Not Found: "
                          +:+ Py.str char_id +:+ "]"])
      end) parts members
  = Ok (parts ++ (link ← links;
                  organisation_member_lines link.1 link.2.1
                    (link.2.2 ≫= λ k, m !! k))).
Proof.
  induction members as [|member members IH]; intros links parts Hl.
  { apply Forall2_nil_inv_l in Hl as ->. simpl. by rewrite app_nil_r. }
  apply Forall2_cons_inv_l in Hl
    as ([role [char_id k]] & links' & (Hr & Hi & Hk) & Hl & ->).
  cbn [for_each fst snd] in *. rewrite Hr. cbn [mbind result_bind].
  rewrite Hi. cbn [mbind result_bind].
  unfold Index.get. rewrite Hk. cbn [mbind result_bind].
  rewrite bind_cons. cbn [fst snd]. unfold organisation_member_lines at 2.
  destruct (k ≫= _) as [e|]; cbn [mbind result_bind];
    rewrite (IH links') by done; by rewrite <- !app_assoc.
Qed.

End Rosters.

(** X15.  The roster of a family has one line for each member, in the
    order of the record: "- name (Character)" when the member's id is in
    the index, with the literal label Character whatever type the index
    records for the id, and "- [Character Not Found: id]" when it is not. *)
Theorem format_family_roster
    (BeautifulSoup : value → result (list Soup.node)) (m : id_map)
    d member members links :
  Py.assoc "pivotMembers" d = Some (VList (member :: members)) →
  Forall2 (λ member (link : value * option key),
             Py.item member "character_id" = Ok link.1
             ∧ Index.key_of link.1 = Ok link.2) (member :: members) links →
  format_family BeautifulSoup (VDict d) m
  = (parts ←
       entity_type_line (VDict d)
         [ "[Basic Information]";
           "Name: " +:+ Py.str (default (VStr "N/A") (Py.assoc "name" d)) ];
     parts ←
       entity_description BeautifulSoup (VDict d)
         (parts ++ [Str.nl +:+ "[Members]"]
                ++ ((λ link : value * option key,
                       family_member_line link.1 (link.2 ≫= λ k, m !! k))
                    <$> links));
     parts ← format_posts BeautifulSoup "Notes" (VDict d) parts;
     Ok (Str.join Str.nl parts)).
Proof.
  intros Hd Hlinks. unfold format_family.
  cbn [Py.get_default mbind result_bind app].
  destruct (entity_type_line _ _) as [parts|]; [|done].
  cbn [mbind result_bind]. unfold Py.get. cbn [Py.get_default Py.item].
  rewrite Hd. cbn [default Py.truthy mbind result_bind Py.iter].
  rewrite (family_roster_loop m (member :: members) links) by done.
  cbn [mbind result_bind]. by rewrite <- app_assoc.
Qed.

Lemma format_family_roster_example :
  format_family plain_markup (VDict example_family)
    (<[inl 5 := Entry (VStr "Bob") "Character"]> example_index)
  = Ok (Str.join Str.nl
          [ "[Basic Information]"; "Name: Oakheart";
            Str.nl +:+ "[Members]";
            "- Bob (Character)"; "- Elf (Character)";
            "- [Character Not Found: 77]";
            Str.nl +:+ "---" +:+ Str.nl +:+ "[Primary Description]" +:+ Str.nl;
            "" ]).
Proof.
  exact (format_family_roster plain_markup
    (<[inl 5 := Entry (VStr "Bob") "Character"]> example_index)
    example_family
    (VDict [("character_id", VInt 5)])
    [VDict [("character_id", VInt 10)]; VDict [("character_id", VInt 77)]]
    [ (VInt 5, Some (inl 5)); (VInt 10, Some (inl 10));
      (VInt 77, Some (inl 77)) ]
    eq_refl
    ltac:(repeat constructor)).
Defined.

(** X16.  The roster of an organisation has two lines for each member, in
    the order of the record: the role, "Member" when the member has none,
    and the member resolved with the type the index records, or
    "[Character Not Found: id]". *)
Theorem organisation_members_roster (m : id_map)
    d member members links parts :
  Py.assoc "members" d = Some (VList (member :: members)) →
  Forall2 (λ member (link : value * (value * option key)),
             Py.get_default member "role" (VStr "Member") = Ok link.1
             ∧ Py.item member "character_id" = Ok link.2.1
             ∧ Index.key_of link.2.1 = Ok link.2.2)
    (member :: members) links →
  organisation_members (VDict d) m parts
  = Ok (parts ++ [Str.nl +:+ "---" +:+ Str.nl +:+ "[Members Roster]"]
              ++ (link ← links;
                  organisation_member_lines link.1 link.2.1
                    (link.2.2 ≫= λ k, m !! k))).
Proof.
  intros Hd Hlinks. unfold organisation_members, Py.get.
  cbn [Py.get_default Py.item mbind result_bind].
  rewrite Hd. cbn [default Py.truthy mbind result_bind Py.iter].
  rewrite (organisation_roster_loop m (member :: members) links) by done.
  by rewrite <- app_assoc.
Qed.

Lemma organisation_members_roster_example :
  organisation_members (VDict example_organisation) example_index []
  = Ok [ Str.nl +:+ "---" +:+ Str.nl +:+ "[Members Roster]";
         Str.nl +:+ "- Role: Master"; "  - Member: Elf (Race)";
         Str.nl +:+ "- Role: Member";
         "  - Member: [Character Not Found: 77]" ].
Proof.
  exact (organisation_members_roster example_index example_organisation
    (VDict [("role", VStr "Master"); ("character_id", VInt 10)])
    [VDict [("character_id", VInt 77)]]
    [ (VStr "Master", (VInt 10, Some (inl 10)));
      (VStr "Member", (VInt 77, Some (inl 77))) ]
    [] eq_refl ltac:(repeat constructor)).
Defined.

(** X17.  The default of [data.get('entity', {})] is used only when the
    key is absent.  A record whose [entity] is null, or anything else that
    is not an object, makes the family, journal, location, note,
    organisation and race formatters raise [AttributeError]. *)
Theorem format_entity_not_object
    (BeautifulSoup : value → result (list Soup.node)) (m : id_map) d entity :
  Py.assoc "entity" d = Some entity →
  (∀ fields, entity ≠ VDict fields) →
  format_family BeautifulSoup (VDict d) m = Raise AttributeError
  ∧ format_journal BeautifulSoup (VDict d) = Raise AttributeError
  ∧ format_location BeautifulSoup (VDict d) = Raise AttributeError
  ∧ format_note BeautifulSoup (VDict d) = Raise AttributeError
  ∧ format_organisation BeautifulSoup (VDict d) m = Raise AttributeError
  ∧ format_race BeautifulSoup (VDict d) = Raise AttributeError.
Proof.
  intros Hd Hentity.
  assert (∀ k, Py.get entity k = Raise AttributeError) as Hget.
  { intros k. destruct entity; try done. by destruct (Hentity fields). }
  assert (∀ k dflt, Py.get_default entity k dflt = Raise AttributeError)
    as Hget'.
  { intros k dflt. destruct entity; try done. by destruct (Hentity fields). }
  unfold format_family, format_journal, format_location, format_note,
    format_organisation, format_race, organisation_basics, entity_type_line.
  cbn [Py.get_default mbind result_bind]. rewrite Hd.
  cbn [default mbind result_bind]. by rewrite Hget, Hget'.
Qed.

Lemma format_entity_not_object_example :
  format_race plain_markup (VDict [("name", VStr "Elf"); ("entity", VNull)])
  = Raise AttributeError.
Proof.
  apply (format_entity_not_object plain_markup ∅
           [("name", VStr "Elf"); ("entity", VNull)] VNull eq_refl).
  intros fields. discriminate.
Defined.

(** ** Pass 2 as a whole *)

Section Pass2Run.

Variable BeautifulSoup : value → result (list Soup.node).
Variable m : id_map.

#[local] Abbreviation file_step :=
  (λ st (file : string * (string * Index.decoded)),
     process_file BeautifulSoup file.1 m st file.2).

(** The two nested loops visit [files_of] in order. *)
Lemma fill_buffers_files_from input_dir : ∀ st,
  for_each (λ st dir, for_each (process_file BeautifulSoup dir.1 m) st dir.2)
    st input_dir
  = for_each file_step st (files_of input_dir).
Proof.
  unfold files_of.
  induction input_dir as [|[root files] dirs IH]; intros st; [done|].
  cbn [for_each]. rewrite bind_cons, for_each_app. cbn [fst snd].
  assert (∀ st, for_each (process_file BeautifulSoup root m) st files
                = for_each file_step st ((λ file, (root, file)) <$> files))
    as ->.
  { clear. induction files as [|file files IH]; intros st; [done|].
    rewrite fmap_cons. cbn [for_each fst snd].
    destruct (process_file _ _ _ _ _); simpl; [apply IH|done]. }
  destruct (for_each file_step st _); simpl; [apply IH|done].
Qed.

Lemma fill_buffers_files input_dir :
  fill_buffers BeautifulSoup input_dir m
  = for_each file_step (Writer.empty_buffers, []) (files_of input_dir).
Proof. apply fill_buffers_files_from. Qed.

Lemma elem_of_buffer_append folder content buffers t recs' :
  (t, recs') ∈ buffer_append folder content buffers →
  ∃ recs, (t, recs) ∈ buffers
          ∧ recs' = if String.eqb t folder then recs ++ [content] else recs.
Proof.
  unfold buffer_append. intros ([t0 recs] & E & Hin)%list_elem_of_fmap.
  cbn [fst snd] in E. exists recs.
  destruct (String.eqb t0 folder) eqn:Ht; injection E as -> ->; by rewrite ?Ht.
Qed.

(** One file: each buffer grows by what [rendered] gives for its folder. *)
Lemma process_file_rendered st file st' t recs' :
  file_step st file = Ok st' → (t, recs') ∈ st'.1 → t ∈ st.1.*1 →
  ∃ recs, (t, recs) ∈ st.1
          ∧ recs' = recs ++ option_list (rendered BeautifulSoup m t file).
Proof.
  destruct st as [buffers w], file as [root [filename payload]].
  unfold process_file, rendered. cbn [fst snd].
  assert (∀ st', Ok (buffers, w) = Ok st' → (t, recs') ∈ st'.1 →
                 ∃ recs, (t, recs) ∈ buffers ∧ recs' = recs ++ []) as Hsame.
  { intros ? [= <-] ?. exists recs'. by rewrite app_nil_r. }
  assert (∀ (w' : list string)
            (st' : list (string * list string) * list string),
            Ok (buffers, w') = Ok st' → (t, recs') ∈ st'.1 →
            ∃ recs, (t, recs) ∈ buffers ∧ recs' = recs ++ []) as Hwarn.
  { intros ? ? [= <-] ?. exists recs'. by rewrite app_nil_r. }
  destruct (Str.endswith ".json" filename); cbn [negb andb];
    [|by intros ? ? _; eapply Hsame].
  destruct (bool_decide (Index.basename root ∈ buffers.*1)) eqn:Hkey;
    cbn [negb]; cycle 1.
  { intros H Hin Ht. destruct (Hsame _ H Hin) as [recs [? ->]].
    exists recs. split; [done|].
    destruct (String.eqb_spec (Index.basename root) t) as [E|_]; [|done].
    apply bool_decide_eq_false in Hkey. subst t. done. }
  destruct payload as [|data].
  { intros H Hin _. destruct (Hwarn _ _ H Hin) as [recs [? ->]].
    exists recs. split; [done|]. by destruct (_ =? _)%string. }
  destruct (format_entity _ _ _ _) as [[content|]|e].
  - destruct (negb (String.eqb content "")).
    + clear Hsame Hwarn. intros [= <-] Hin _. cbn [fst] in Hin.
      apply elem_of_buffer_append in Hin as [recs [Hin ->]].
      exists recs. split; [done|].
      destruct (String.eqb_spec t (Index.basename root)) as [->|Hne].
      * by rewrite String.eqb_refl.
      * rewrite (proj2 (String.eqb_neq _ _)) by congruence.
        by rewrite app_nil_r.
    + intros H Hin _. destruct (Hsame _ H Hin) as [recs [? ->]].
      exists recs. split; [done|]. by destruct (_ =? _)%string.
  - intros H Hin _. destruct (Hsame _ H Hin) as [recs [? ->]].
    exists recs. split; [done|]. by destruct (_ =? _)%string.
  - destruct e; try done.
    intros H Hin _. destruct (Hwarn _ _ H Hin) as [recs [? ->]].
    exists recs. split; [done|]. by destruct (_ =? _)%string.
Qed.

Lemma for_each_rendered files : ∀ st st' t recs',
  for_each file_step st files = Ok st' → (t, recs') ∈ st'.1 →
  t ∈ st.1.*1 →
  ∃ recs, (t, recs) ∈ st.1
          ∧ recs' = recs ++ omap (rendered BeautifulSoup m t) files.
Proof.
  induction files as [|file files IH]; intros st st' t recs'.
  { intros [= <-] Hin _. exists recs'. by rewrite app_nil_r. }
  cbn [for_each]. destruct (file_step st file) as [st1|] eqn:E; [|done].
  cbn [mbind result_bind]. intros Hrun Hin Ht.
  pose proof (process_file_keys _ _ _ _ _ _ E) as Hkeys.
  destruct (IH _ _ _ _ Hrun Hin) as [recs1 [Hin1 ->]]; [by rewrite Hkeys|].
  destruct (process_file_rendered _ _ _ _ _ E Hin1 Ht) as [recs [Hin0 ->]].
  exists recs. split; [done|]. rewrite <- app_assoc. f_equal.
  cbn [omap list_omap]. by destruct (rendered _ _ _ _).
Qed.

Lemma process_file_no_TypeError root st file e :
  process_file BeautifulSoup root m st file = Raise e → e ≠ TypeError.
Proof.
  destruct st as [buffers w], file as [filename payload].
  unfold process_file.
  destruct (negb (Str.endswith _ _)); [done|].
  destruct (negb (bool_decide _)); [done|].
  destruct payload as [|data]; [done|].
  destruct (format_entity _ _ _ _) as [[content|]|[]]; try done;
    try by intros [= <-].
  by destruct (negb _).
Qed.

Lemma for_each_no_TypeError files : ∀ st e,
  for_each file_step st files = Raise e → e ≠ TypeError.
Proof.
  induction files as [|file files IH]; intros st e; [done|].
  cbn [for_each]. destruct (file_step st file) as [st1|e1] eqn:E.
  - apply IH.
  - intros [= <-]. by eapply process_file_no_TypeError.
Qed.

Lemma for_each_skipped files : ∀ st,
  Forall (λ file : string * (string * Index.decoded),
            Str.endswith ".json" file.2.1 = false
            ∨ Index.basename file.1 ∉ st.1.*1) files →
  for_each file_step st files = Ok st.
Proof.
  induction files as [|file files IH]; intros st Hfiles; [done|].
  apply Forall_cons in Hfiles as [Hfile Hfiles].
  cbn [for_each].
  assert (file_step st file = Ok st) as ->; [|by apply IH].
  destruct st as [buffers w], file as [root [filename payload]].
  unfold process_file. cbn [fst snd] in *.
  destruct Hfile as [-> | Hroot]; [done|].
  destruct (negb (Str.endswith _ _)); [done|].
  by rewrite bool_decide_eq_false_2.
Qed.

End Pass2Run.

(** X18.  An export without a ".json" file in a recognized folder (an
    empty export among them) writes no file and prints no warning. *)
Theorem generate_text_files_nothing_to_do
    (BeautifulSoup : value → result (list Soup.node))
    (input_dir : Index.walk) (output_dir : string) (m : id_map)
    (fs : gmap string string) :
  Forall (λ file : string * (string * Index.decoded),
            Str.endswith ".json" file.2.1 = false
            ∨ Index.basename file.1 ∉ Writer.folders)
    (files_of input_dir) →
  generate_text_files BeautifulSoup input_dir output_dir m fs = Ok (fs, []).
Proof.
  intros Hfiles. unfold generate_text_files.
  rewrite fill_buffers_files, for_each_skipped; [done|].
  exact Hfiles.
Qed.

Lemma generate_text_files_nothing_to_do_example :
  generate_text_files plain_markup
    [ ("export", [("readme.txt", Index.Undecodable)]);
      ("export/maps",
        [("map.json", Index.Decoded (VDict [("id", VInt 1)]))]) ]
    "out" ∅ {[ "out/old.txt" := "kept" ]}
  = Ok ({[ "out/old.txt" := "kept" ]}, []).
Proof.
  apply generate_text_files_nothing_to_do.
  unfold files_of. cbn [mbind list_bind fmap list_fmap app fst snd].
  repeat apply Forall_cons_2; [by left| |apply Forall_nil_2].
  right. unfold Writer.folders.
  rewrite !not_elem_of_cons. repeat split; try done. apply not_elem_of_nil.
Defined.

(** X19.  A [TypeError] never leaves pass 2.  When formatting a record of
    a recognized folder raises it (a relation id that is a list, a field
    that cannot be subscripted, a link read after [decompose()]), the
    record is left out of its buffer, its file name is added to the
    warnings and the pass goes on. *)
Theorem generate_text_files_contains_TypeError
    (BeautifulSoup : value → result (list Soup.node))
    (input_dir : Index.walk) (output_dir : string) (m : id_map)
    (fs : gmap string string) :
  (∀ e, generate_text_files BeautifulSoup input_dir output_dir m fs = Raise e →
        e ≠ TypeError)
  ∧ ∀ root buffers warnings filename data,
      Str.endswith ".json" filename = true →
      Index.basename root ∈ buffers.*1 →
      format_entity BeautifulSoup data root m = Raise TypeError →
      process_file BeautifulSoup root m (buffers, warnings)
        (filename, Index.Decoded data)
      = Ok (buffers, warnings ++ [filename]).
Proof.
  split.
  - intros e. unfold generate_text_files. rewrite fill_buffers_files.
    destruct (for_each _ _ _) as [[buffers w]|e'] eqn:E; [done|].
    intros [= <-]. by eapply for_each_no_TypeError.
  - intros root buffers warnings filename data Hjson Hroot Hfmt.
    unfold process_file. rewrite Hjson, Hfmt. cbn [negb].
    by rewrite bool_decide_eq_true_2.
Qed.

Lemma generate_text_files_contains_TypeError_example :
  generate_text_files plain_markup
    [ ("export/characters",
        [ ("odd.json",
           Index.Decoded
             (VDict [ ("name", VStr "Odd");
                      ("character_races",
                       VList [VDict [("race_id", VList [VInt 1])]]) ]));
          ("two.json",
           Index.Decoded (VDict [("name", VStr "Two"); ("entry", VInt 7)])) ]) ]
    "out" ∅ ∅
  = Ok (∅, ["odd.json"; "two.json"]).
Proof.
  unfold generate_text_files, fill_buffers. cbn [for_each fst snd].
  rewrite (proj2 (generate_text_files_contains_TypeError plain_markup [] ""
                    ∅ ∅) "export/characters" Writer.empty_buffers []
             "odd.json" _ eq_refl);
    [|apply list_elem_of_here|reflexivity].
  cbn [mbind result_bind app].
  rewrite (proj2 (generate_text_files_contains_TypeError plain_markup [] ""
                    ∅ ∅) "export/characters" Writer.empty_buffers
             ["odd.json"] "two.json" _ eq_refl);
    [|apply list_elem_of_here|reflexivity].
  reflexivity.
Defined.

Section Pass2Abort.

Variable BeautifulSoup : value → result (list Soup.node).
Variable m : id_map.

Lemma character_basics_Ok d : ∃ parts, character_basics (VDict d) = Ok parts.
Proof. unfold character_basics. by eexists. Qed.

(** A first race link without [race_id] makes the formatter raise
    [KeyError]. *)
Lemma format_character_KeyError d link links :
  Py.assoc "character_races" d = Some (VList (VDict link :: links)) →
  Py.assoc "race_id" link = None →
  format_character BeautifulSoup (VDict d) m = Raise KeyError.
Proof.
  intros Hd Hlink. unfold format_character.
  destruct (character_basics_Ok d) as [parts ->].
  cbn [mbind result_bind].
  unfold character_relation, first_link, Py.get.
  cbn [Py.get_default Py.item mbind result_bind].
  rewrite Hd. cbn [default Py.truthy Py.first mbind result_bind Py.item].
  by rewrite Hlink.
Qed.

End Pass2Abort.

(** X20.  A [KeyError] is not caught.  A character whose first race link
    has no [race_id] ends pass 2 with that exception, wherever the record
    sits in the export: the records before it are formatted, no file is
    written. *)
Theorem generate_text_files_key_error
    (BeautifulSoup : value → result (list Soup.node)) (m : id_map)
    (output_dir : string) (fs : gmap string string)
    dirs1 root files1 filename d link links files2 dirs2 st0 st1 :
  fill_buffers BeautifulSoup dirs1 m = Ok st0 →
  for_each (process_file BeautifulSoup root m) st0 files1 = Ok st1 →
  Str.endswith ".json" filename = true →
  Index.basename root = "characters" →
  Py.assoc "character_races" d = Some (VList (VDict link :: links)) →
  Py.assoc "race_id" link = None →
  generate_text_files BeautifulSoup
    (dirs1 ++ (root, files1 ++ (filename, Index.Decoded (VDict d)) :: files2)
              :: dirs2)
    output_dir m fs
  = Raise KeyError.
Proof.
  intros Hdirs Hfiles Hjson Hroot Hd Hlink.
  assert (st1.1.*1 = Writer.folders) as Hkeys.
  { destruct st0 as [b0 w0].
    rewrite <- (fill_buffers_keys _ _ _ _ _ Hdirs).
    apply (for_each_keys _ files1) in Hfiles; [exact Hfiles|].
    intros ? ? ?. apply process_file_keys. }
  unfold generate_text_files, fill_buffers in *.
  rewrite for_each_app, Hdirs. cbn [mbind result_bind for_each fst snd].
  rewrite for_each_app, Hfiles. cbn [mbind result_bind for_each].
  destruct st1 as [b1 w1]. cbn [fst] in Hkeys.
  assert (process_file BeautifulSoup root m (b1, w1)
            (filename, Index.Decoded (VDict d)) = Raise KeyError) as ->; [|done].
  unfold process_file. rewrite Hjson. cbn [negb].
  rewrite bool_decide_eq_true_2; cycle 1.
  { rewrite Hkeys, Hroot. apply list_elem_of_here. }
  cbn [negb]. unfold format_entity. rewrite Hroot.
  cbn [Py.get_default Py.get mbind result_bind].
  change (String.eqb "characters" "characters") with true. cbv iota.
  by rewrite (format_character_KeyError _ _ d link links).
Qed.

Lemma generate_text_files_key_error_example :
  generate_text_files plain_markup
    [ ("export/races",
        [("elf.json", Index.Decoded (VDict [("name", VStr "Elf")]))]);
      ("export/characters",
        [ ("ann.json", Index.Decoded (VDict [("name", VStr "Ann")]));
          ("bad.json",
           Index.Decoded
             (VDict [ ("name", VStr "Bad");
                      ("character_races", VList [VDict []]) ])) ]) ]
    "out" ∅ ∅
  = Raise KeyError.
Proof.
  eassert (fill_buffers plain_markup
             [ ("export/races",
                 [("elf.json", Index.Decoded (VDict [("name", VStr "Elf")]))]) ]
             ∅ = Ok _) as H0 by (vm_compute; reflexivity).
  match type of H0 with
  | _ = Ok ?st0 =>
      eassert (for_each (process_file plain_markup "export/characters" ∅) st0
                 [("ann.json", Index.Decoded (VDict [("name", VStr "Ann")]))]
               = Ok _) as H1 by (vm_compute; reflexivity)
  end.
  exact (generate_text_files_key_error plain_markup ∅ "out" ∅
           [ ("export/races",
               [("elf.json", Index.Decoded (VDict [("name", VStr "Elf")]))]) ]
           "export/characters"
           [("ann.json", Index.Decoded (VDict [("name", VStr "Ann")]))]
           "bad.json"
           [("name", VStr "Bad"); ("character_races", VList [VDict []])]
           [] [] [] [] _ _ H0 H1 eq_refl eq_refl eq_refl eq_refl).
Defined.

(** X21.  What pass 2 buffers.  When the first loop ends, the buffer of a
    folder holds, in traversal order, one text for each ".json" file of
    that folder that decodes and is formatted without an exception: the
    formatted record with its mentions resolved against the index handed
    to the pass.  Nothing else is buffered. *)
Theorem fill_buffers_contents
    (BeautifulSoup : value → result (list Soup.node))
    (input_dir : Index.walk) (m : id_map) buffers warnings :
  fill_buffers BeautifulSoup input_dir m = Ok (buffers, warnings) →
  buffers.*1 = Writer.folders
  ∧ ∀ folder recs, (folder, recs) ∈ buffers →
      recs = omap (rendered BeautifulSoup m folder) (files_of input_dir).
Proof.
  intros Hfill. pose proof (fill_buffers_keys _ _ _ _ _ Hfill) as Hkeys.
  split; [done|]. intros folder recs Hin.
  rewrite fill_buffers_files in Hfill.
  destruct (for_each_rendered _ _ _ _ _ folder recs Hfill Hin)
    as (recs0 & Hin0 & ->).
  { change (Writer.empty_buffers, @nil string).1.*1 with Writer.folders.
    rewrite <- Hkeys. apply list_elem_of_fmap. by exists (folder, recs). }
  assert (recs0 = []) as ->; [|done].
  cbn [fst] in Hin0. unfold Writer.empty_buffers in Hin0.
  by apply list_elem_of_fmap in Hin0 as (? & [= _ ->] & _).
Qed.

Lemma fill_buffers_contents_example :
  ∃ buffers warnings,
    fill_buffers plain_markup
      [ ("export/notes",
          [ ("a.json",
             Index.Decoded
               (VDict [ ("name", VStr "A");
                        ("entity", VDict [("entry", VStr "See [race:10].")]) ]));
            ("b.txt", Index.Undecodable);
            ("c.json", Index.Undecodable) ]) ]
      example_index = Ok (buffers, warnings)
    ∧ ∀ recs, ("notes", recs) ∈ buffers →
        recs = [ "========================================" +:+ Str.nl
                 +:+ " NOTE: A" +:+ Str.nl
                 +:+ "========================================" +:+ Str.nl
                 +:+ Str.nl +:+ "[Primary Content]" +:+ Str.nl +:+ Str.nl
                 +:+ "See Elf (Race)." ].
Proof.
  eassert (fill_buffers plain_markup _ example_index = Ok (_, _)) as H.
  2: { eexists _, _. split; [exact H|].
       destruct (fill_buffers_contents _ _ _ _ _ H) as [Hkeys Hrecs].
       intros recs Hin. rewrite (Hrecs _ _ Hin). reflexivity. }
  vm_compute. reflexivity.
Defined.

(** X22.  With an index whose names and type labels hold neither "]" nor
    "|", no text that pass 2 buffers holds a mention token any more: every
    token of every record was replaced. *)
Theorem fill_buffers_resolved
    (BeautifulSoup : value → result (list Soup.node))
    (input_dir : Index.walk) (m : id_map) buffers warnings :
  fill_buffers BeautifulSoup input_dir m = Ok (buffers, warnings) →
  plain_index m →
  ∀ folder recs text,
    (folder, recs) ∈ buffers → text ∈ recs →
    Mention.unmatched text "" = true.
Proof.
  intros Hfill Hm folder recs text Hin Htext.
  destruct (fill_buffers_contents _ _ _ _ _ Hfill) as [_ Hrecs].
  rewrite (Hrecs _ _ Hin) in Htext.
  apply list_elem_of_omap in Htext as (file & _ & Hfile).
  unfold rendered in Hfile.
  destruct (_ && _); [|done].
  destruct (file.2.2) as [|data]; [done|].
  destruct (format_entity _ _ _ _) as [[content|]|]; try done.
  destruct (negb _); [|done]. injection Hfile as <-.
  exact (resolve_mentions_unmatched m Hm (Some content)).
Qed.

Lemma fill_buffers_resolved_example :
  ∃ buffers warnings,
    fill_buffers plain_markup
      [ ("export/notes",
          [ ("a.json",
             Index.Decoded
               (VDict [ ("name", VStr "A");
                        ("entity",
                         VDict [("entry", VStr "See [race:10], [x:1].")]) ])) ]) ]
      example_index = Ok (buffers, warnings)
    ∧ ∀ recs text, ("notes", recs) ∈ buffers → text ∈ recs →
        Mention.unmatched text "" = true.
Proof.
  eassert (fill_buffers plain_markup _ example_index = Ok (_, _)) as H.
  2: { eexists _, _. split; [exact H|]. intros recs text.
       apply (fill_buffers_resolved _ _ _ _ _ H).
       unfold example_index.
       repeat (apply map_Forall_insert_2; [by split|]).
       apply map_Forall_empty. }
  vm_compute. reflexivity.
Defined.

(** X23.  Running pass 2 again over its own output changes nothing: the
    files are opened for writing and receive the same text. *)
Theorem generate_text_files_again
    (BeautifulSoup : value → result (list Soup.node))
    (input_dir : Index.walk) (output_dir : string) (m : id_map)
    (fs out : gmap string string) warnings :
  generate_text_files BeautifulSoup input_dir output_dir m fs
  = Ok (out, warnings) →
  generate_text_files BeautifulSoup input_dir output_dir m out
  = Ok (out, warnings).
Proof.
  unfold generate_text_files.
  destruct (fill_buffers _ _ _) as [[buffers w]|] eqn:Hfill; [|done].
  cbn [mbind result_bind]. intros [= <- <-]. do 2 f_equal.
  pose proof (fill_buffers_keys _ _ _ _ _ Hfill) as Hkeys.
  destruct (write_consolidated_lookup output_dir buffers fs Hkeys)
    as [Hfiles Hothers].
  destruct (write_consolidated_lookup output_dir buffers
              (Writer.write_consolidated output_dir buffers fs) Hkeys)
    as [Hfiles' Hothers'].
  apply map_eq. intros p.
  destruct (decide (p ∈ (λ t, Writer.os_path_join output_dir (t +:+ ".txt"))
                         <$> Writer.folders)) as [Hp|Hp].
  - apply list_elem_of_fmap in Hp as (t & -> & Ht).
    rewrite <- Hkeys in Ht.
    apply list_elem_of_fmap in Ht as ([t' recs] & -> & Hin). cbn [fst].
    rewrite (Hfiles' _ _ Hin). destruct recs; [done|].
    by rewrite (Hfiles _ _ Hin).
  - apply Hothers'. intros t Ht ->. apply Hp.
    apply list_elem_of_fmap. by exists t.
Qed.

Lemma generate_text_files_again_example :
  ∃ out warnings,
    generate_text_files plain_markup Index.example_export "out"
      scenario_index {[ "out/races.txt" := "stale" ]} = Ok (out, warnings)
    ∧ generate_text_files plain_markup Index.example_export "out"
        scenario_index out = Ok (out, warnings).
Proof.
  destruct (generate_text_files plain_markup Index.example_export "out"
              scenario_index {[ "out/races.txt" := "stale" ]})
    as [[out w]|] eqn:E; [|by vm_compute in E].
  exists out, w. split; [done|].
  by apply (generate_text_files_again _ _ _ _ _ _ _ E).
Defined.

(** X24.  The two passes together.  [main] aborts with [AttributeError],
    before anything is written, when a ".json" file of a recognized folder
    decodes to something that is not an object.  When it ends, the index
    used for every record is the one built from the whole export (the last
    record of each id), so a mention resolves the same wherever the record
    that defines its id sits; each buffer holds the formatted and resolved
    records of its folder in traversal order and the files are those the
    flush writes from these buffers. *)
Theorem main_two_passes
    (BeautifulSoup : value → result (list Soup.node))
    (input_directory : Index.walk) (fs : gmap string string) :
  (¬ Forall (λ r, Index.is_record (snd (snd r)) = true)
       (Index.records input_directory) →
   main BeautifulSoup input_directory fs = Raise AttributeError)
  ∧ ∀ out warnings1 warnings2,
      main BeautifulSoup input_directory fs
      = Ok (out, (warnings1, warnings2)) →
      ∃ m buffers,
        Index.create_id_map input_directory = Ok (m, warnings1)
        ∧ m = foldl Index.write ∅ (Index.records input_directory)
        ∧ fill_buffers BeautifulSoup input_directory m = Ok (buffers, warnings2)
        ∧ (∀ folder recs, (folder, recs) ∈ buffers →
             recs = omap (rendered BeautifulSoup m folder)
                      (files_of input_directory))
        ∧ out = Writer.write_consolidated OUTPUT_DIRECTORY buffers fs.
Proof.
  split.
  - intros Hrs. unfold main. rewrite create_id_map_records.
    destruct (for_each_record_step (Index.records input_directory) (∅, []))
      as [[Hok _]|[_ ->]]; done.
  - intros out w1 w2. unfold main, generate_text_files.
    destruct (Index.create_id_map input_directory) as [[m w]|] eqn:E1;
      [|done].
    cbn [mbind result_bind].
    destruct (fill_buffers _ _ _) as [[buffers w']|] eqn:E2; [|done].
    cbn [mbind result_bind]. intros [= <- <- <-].
    exists m, buffers. repeat split; try done.
    + by apply create_id_map_Ok in E1 as [_ ->].
    + by apply (fill_buffers_contents _ _ _ _ _ E2).
Qed.

Lemma main_two_passes_example :
  ∃ out warnings1 warnings2 (m : id_map)
    (buffers : list (string * list string)),
    main plain_markup
      [ ("export/notes",
          [ ("a.json",
             Index.Decoded
               (VDict [ ("id", VInt 1); ("name", VStr "A");
                        ("entity", VDict [("entry", VStr "See [race:2].")]) ])) ]);
        ("export/races",
          [ ("elf.json",
             Index.Decoded (VDict [("id", VInt 2); ("name", VStr "Elf")])) ]) ]
      ∅ = Ok (out, (warnings1, warnings2))
    ∧ m !! (inl 2 : key) = Some (Entry (VStr "Elf") "Race")
    ∧ ∀ recs, ("notes", recs) ∈ buffers →
        recs = [ "========================================" +:+ Str.nl
                 +:+ " NOTE: A" +:+ Str.nl
                 +:+ "========================================" +:+ Str.nl
                 +:+ Str.nl +:+ "[Primary Content]" +:+ Str.nl +:+ Str.nl
                 +:+ "See Elf (Race)." ].
Proof.
  match goal with
  | |- ∃ _ _ _ _ _, main ?bs ?input ?fs = _ ∧ _ =>
      destruct (main bs input fs) as [[out [warnings1 warnings2]]|e] eqn:H;
        [|by vm_compute in H]
  end.
  destruct (proj2 (main_two_passes _ _ _) _ _ _ H)
    as (m & buffers & Hm & Hmeq & Hfill & Hrecs & _).
  exists out, warnings1, warnings2, m, buffers. split; [done|]. split.
  - rewrite Hmeq. reflexivity.
  - intros recs Hin. rewrite (Hrecs _ _ Hin), Hmeq. reflexivity.
Defined.

(** ** The shape of a formatted record *)

Section Appending.

Variable BeautifulSoup : value → result (list Soup.node).
Variable m : id_map.

(** The blocks of the formatters only append to [parts]. *)
Lemma for_each_appends {A} (body : list string → A → result (list string)) l :
  (∀ parts x parts', body parts x = Ok parts' → parts `prefix_of` parts') →
  ∀ parts parts', for_each body parts l = Ok parts' → parts `prefix_of` parts'.
Proof.
  intros Hbody. induction l as [|x l IH]; intros parts parts'.
  { by intros [= <-]. }
  simpl. destruct (body parts x) as [parts1|] eqn:E; [|done]. simpl.
  intros H. etrans; [by eapply Hbody|by apply IH].
Qed.

Lemma entity_type_line_appends data parts parts' :
  entity_type_line data parts = Ok parts' → parts `prefix_of` parts'.
Proof.
  unfold entity_type_line.
  destruct (Py.get_default _ _ _) as [entity|]; [|done]. simpl.
  destruct (Py.get entity "type") as [type|]; [|done]. simpl.
  intros [= <-]. destruct (Py.truthy type); [|done]. by apply prefix_app_r.
Qed.

Lemma description_appends entry parts parts' :
  description BeautifulSoup entry parts = Ok parts' →
  parts `prefix_of` parts'.
Proof.
  unfold description. destruct (clean_html _ _) as [text|]; [|done].
  intros [= <-]. by do 2 apply prefix_app_r.
Qed.

Lemma entity_description_appends data parts parts' :
  entity_description BeautifulSoup data parts = Ok parts' →
  parts `prefix_of` parts'.
Proof.
  unfold entity_description.
  destruct (Py.get_default _ _ _) as [entity|]; [|done]. simpl.
  destruct (Py.get entity "entry") as [entry|]; [|done]. simpl.
  apply description_appends.
Qed.

Lemma format_posts_appends heading data parts parts' :
  format_posts BeautifulSoup heading data parts = Ok parts' →
  parts `prefix_of` parts'.
Proof.
  unfold format_posts.
  destruct (Py.get_default _ _ _) as [entity|]; [|done]. simpl.
  destruct (Py.get entity "posts") as [posts|]; [|done]. simpl.
  destruct (Py.truthy posts); [|by intros [= <-]].
  destruct (Py.item data "entity") as [entity'|]; [|done]. simpl.
  destruct (Py.item entity' "posts") as [posts'|]; [|done]. simpl.
  destruct (Py.iter posts') as [items|]; [|done]. simpl.
  apply for_each_appends. intros ps post ps'.
  destruct (Py.get post "name") as [name|]; [|done]. simpl.
  destruct (Py.get post "entry") as [entry|]; [|done]. simpl.
  destruct (clean_html _ _) as [text|]; [|done]. simpl.
  intros [= <-]. by do 2 apply prefix_app_r.
Qed.

Lemma character_relation_appends data field key label parts parts' :
  character_relation data field key label m parts = Ok parts' →
  parts `prefix_of` parts'.
Proof.
  unfold character_relation.
  destruct (Py.get data field) as [links|]; [|done]. simpl.
  destruct (Py.truthy links); [|by intros [= <-]].
  destruct (first_link _ _ _ _) as [[linked info]|]; [|done]. simpl.
  intros [= <-]. by apply prefix_app_r.
Qed.

Lemma organisation_location_appends data parts parts' :
  organisation_location data m parts = Ok parts' → parts `prefix_of` parts'.
Proof.
  unfold organisation_location.
  destruct (Py.get data "pivotLocations") as [links|]; [|done]. simpl.
  destruct (Py.truthy links); [|by intros [= <-]].
  destruct (first_link _ _ _ _) as [[linked [e|]]|]; [..|done]; simpl;
    intros [= <-]; [by apply prefix_app_r|done].
Qed.

Lemma organisation_members_appends data parts parts' :
  organisation_members data m parts = Ok parts' → parts `prefix_of` parts'.
Proof.
  unfold organisation_members.
  destruct (Py.get data "members") as [members|]; [|done]. simpl.
  destruct (Py.truthy members); [|by intros [= <-]].
  destruct (Py.item data "members") as [members'|]; [|done]. simpl.
  destruct (Py.iter members') as [items|]; [|done]. simpl.
  intros H.
  trans (parts ++ [Str.nl +:+ "---" +:+ Str.nl +:+ "[Members Roster]"]);
    [by apply prefix_app_r|].
  revert H. apply for_each_appends. intros ps member ps'.
  destruct (Py.get_default member _ _) as [role|]; [|done]. simpl.
  destruct (Py.item member _) as [char_id|]; [|done]. simpl.
  destruct (Index.get m char_id) as [[e|]|]; [..|done]; simpl;
    intros [= <-]; by do 2 apply prefix_app_r.
Qed.

Lemma family_members_appends data parts parts' :
  (members ← Py.item data "pivotMembers";
   members ← Py.iter members;
   for_each (λ parts member,
     char_id ← Py.item member "character_id";
     member_info ← Index.get m char_id;
     match member_info with
     | Some e =>
         Ok (parts ++ ["- " +:+ Py.str (entry_name e) +:+ " (Character)"])
     | None =>
         Ok (parts ++ ["- [Character Not Found: " +:+ Py.str char_id
                         +:+ "]"])
     end) (parts ++ [Str.nl +:+ "[Members]"]) members) = Ok parts' →
  parts `prefix_of` parts'.
Proof.
  destruct (Py.item data _) as [members|]; [|done]. simpl.
  destruct (Py.iter members) as [items|]; [|done]. simpl.
  intros H. trans (parts ++ [Str.nl +:+ "[Members]"]);
    [by apply prefix_app_r|].
  revert H. apply for_each_appends. intros ps member ps'.
  destruct (Py.item member _) as [char_id|]; [|done]. simpl.
  destruct (Index.get m char_id) as [[e|]|]; [..|done]; simpl;
    intros [= <-]; by apply prefix_app_r.
Qed.

Lemma join_opening (a b : string) parts :
  [a; b] `prefix_of` parts →
  ∃ rest, Str.join Str.nl parts = a +:+ Str.nl +:+ b +:+ rest.
Proof.
  intros [more ->]. unfold Str.join. simpl.
  destruct more as [|c more].
  - exists "". by rewrite str_nil_r.
  - by eexists.
Qed.

Lemma opening_of (label name : string) parts :
  ["[Basic Information]"; label +:+ name] `prefix_of` parts →
  ∃ rest,
    Str.join Str.nl parts
    = "[Basic Information]" +:+ Str.nl +:+ label +:+ name +:+ rest.
Proof.
  intros H. destruct (join_opening _ _ _ H) as [rest ->].
  exists rest. by rewrite !str_assoc.
Qed.

End Appending.

Section Opening.

Variable BeautifulSoup : value → result (list Soup.node).
Variable m : id_map.

Local Ltac appended H :=
  first
    [ apply family_members_appends in H
    | apply entity_type_line_appends in H
    | apply entity_description_appends in H
    | apply description_appends in H
    | apply format_posts_appends in H
    | apply character_relation_appends in H
    | apply organisation_location_appends in H
    | apply organisation_members_appends in H ].

Local Ltac next_block :=
  match goal with
  | |- context [mbind _ ?r] =>
      let parts := fresh "parts" in
      let E := fresh "E" in
      destruct r as [parts|] eqn:E; [|done]; cbn [mbind result_bind]
  end.

Local Ltac all_appended :=
  repeat match goal with
         | H : _ = Ok _ |- _ => appended H
         end.

Local Ltac chain_prefix :=
  solve [ repeat first [ by eexists
                       | apply prefix_app_r
                       | (etrans; [|eassumption]) ] ].

Local Ltac split_truthy :=
  match goal with
  | |- context [if Py.truthy ?v then _ else _] => destruct (Py.truthy v)
  end.

Local Ltac opening :=
  cbn [Py.get_default Py.get mbind result_bind];
  repeat first [split_truthy | next_block];
  intros [= <-]; all_appended; apply opening_of; chain_prefix.

Lemma character_basics_opening d parts :
  character_basics (VDict d) = Ok parts →
  [ "[Basic Information]";
    "Name: " +:+ Py.str (default (VStr "N/A") (Py.assoc "name" d)) ]
    `prefix_of` parts.
Proof.
  unfold character_basics. cbn [Py.get_default Py.get mbind result_bind].
  intros [= <-].
  repeat match goal with
         | |- context [if Py.truthy ?v then _ else _] =>
             destruct (Py.truthy v)
         end;
    by eexists.
Qed.

Lemma organisation_basics_opening d parts :
  organisation_basics (VDict d) = Ok parts →
  [ "[Basic Information]";
    "Name: " +:+ Py.str (default (VStr "N/A") (Py.assoc "name" d)) ]
    `prefix_of` parts.
Proof.
  unfold organisation_basics. cbn [Py.get_default mbind result_bind].
  destruct (Py.get _ "type") as [type|]; [|done].
  cbn [Py.get mbind result_bind]. intros [= <-].
  destruct (Py.truthy type); by eexists.
Qed.

Lemma format_character_opening d body :
  format_character BeautifulSoup (VDict d) m = Ok body →
  ∃ rest,
    body = "[Basic Information]" +:+ Str.nl +:+ "Name: "
           +:+ Py.str (default (VStr "N/A") (Py.assoc "name" d)) +:+ rest.
Proof.
  unfold format_character.
  destruct (character_basics _) as [parts0|] eqn:E0; [|done].
  cbn [mbind result_bind]. apply character_basics_opening in E0.
  repeat next_block. intros [= <-]. all_appended.
  apply opening_of. chain_prefix.
Qed.

Lemma format_organisation_opening d body :
  format_organisation BeautifulSoup (VDict d) m = Ok body →
  ∃ rest,
    body = "[Basic Information]" +:+ Str.nl +:+ "Name: "
           +:+ Py.str (default (VStr "N/A") (Py.assoc "name" d)) +:+ rest.
Proof.
  unfold format_organisation.
  destruct (organisation_basics _) as [parts0|] eqn:E0; [|done].
  cbn [mbind result_bind]. apply organisation_basics_opening in E0.
  opening.
Qed.

Lemma format_family_opening d body :
  format_family BeautifulSoup (VDict d) m = Ok body →
  ∃ rest,
    body = "[Basic Information]" +:+ Str.nl +:+ "Name: "
           +:+ Py.str (default (VStr "N/A") (Py.assoc "name" d)) +:+ rest.
Proof. unfold format_family. opening. Qed.

Lemma format_journal_opening d body :
  format_journal BeautifulSoup (VDict d) = Ok body →
  ∃ rest,
    body = "[Basic Information]" +:+ Str.nl +:+ "Title: "
           +:+ Py.str (default (VStr "N/A") (Py.assoc "name" d)) +:+ rest.
Proof. unfold format_journal. opening. Qed.

Lemma format_location_opening d body :
  format_location BeautifulSoup (VDict d) = Ok body →
  ∃ rest,
    body = "[Basic Information]" +:+ Str.nl +:+ "Name: "
           +:+ Py.str (default (VStr "N/A") (Py.assoc "name" d)) +:+ rest.
Proof. unfold format_location. opening. Qed.

Lemma format_race_opening d body :
  format_race BeautifulSoup (VDict d) = Ok body →
  ∃ rest,
    body = "[Basic Information]" +:+ Str.nl +:+ "Name: "
           +:+ Py.str (default (VStr "N/A") (Py.assoc "name" d)) +:+ rest.
Proof. unfold format_race. opening. Qed.

End Opening.
